(** * InfoTrend: source adapters, registry, freshness policy, aggregator

    A shallow embedding of the TypeScript sources of the InfoTrend browser
    extension, with the properties its specification states about them.

    - [JSDate]            the ECMAScript [Date] built-ins the sources call
    - [JS]                completions (return / throw), effects, promises
    - [Types]             src/types/index.ts
    - [Freshness]         src/services/freshnessService.ts
    - [XmlParser]         src/utils/xmlParser.ts
    - [Chrome]            src/utils/chrome.ts and the run-time state
    - [BaseSource]        sources/base/BaseSource.ts
    - [SourceRegistry]    src/sources/SourceRegistry.ts
    - [HackerNewsSource]  sources/HackerNewsSource.ts
    - [RSSSource]         sources/RSSSource.ts
    - [ProductHuntSource] sources/ProductHuntSource.ts
    - [Storage]           services/storage.ts
    - [DataFetcher]       services/dataFetcher.ts
    - [AlarmScheduler]    src/background/alarmScheduler.ts
    - [Background]        background/index.ts
    - [Sidebar]           components/Sidebar/index.tsx

    The second half states and proves the properties, module by module:
    first the built-ins ([JSDateFacts], [DecimalFacts], [CalendarFacts]),
    then the properties the specification states ([FreshnessFacts],
    [SourceRegistryFacts], ... [StorageFacts]), then further properties
    of the code ([LastUpdateFacts], [AlarmFacts], ... [MergeFacts]). *)

From Stdlib Require Import ZArith List String Ascii Bool Lia Permutation Sorted.
From stdpp Require Import gmap strings.
Import ListNotations.

Local Open Scope string_scope.
Local Open Scope Z_scope.
Local Open Scope list_scope.

(* ===================================================================== *)
(** * ECMAScript [Date]: time values, calendar fields, [toISOString]      *)
(* ===================================================================== *)

(** The sources never compute on calendar fields themselves: they call
    [new Date(x)], [Date.parse], [getTime], [toISOString], [getFullYear],
    [getMonth], [getDate].  This module is a model of those built-ins on
    time values (integer milliseconds since the epoch, as [Z]). *)
Module JSDate.

Definition msPerSecond : Z := 1000.
Definition msPerMinute : Z := 60000.
Definition msPerHour   : Z := 3600000.
Definition msPerDay    : Z := 86400000.

(** [TimeClip]: a time value is valid when it is within 8.64e15 ms of the
    epoch; [new Date(v)] is an Invalid Date ([getTime()] is NaN) otherwise. *)
Definition maxTime : Z := 8640000000000000.
Definition validTime (t : Z) : bool := (- maxTime <=? t) && (t <=? maxTime).

(** Day number (days since 1970-01-01) and time within the day. *)
Definition Day (t : Z) : Z := t / msPerDay.
Definition TimeWithinDay (t : Z) : Z := t mod msPerDay.

(** Proleptic Gregorian calendar: day number to (year, month 1..12, day). *)
Definition civil_from_days (z : Z) : Z * Z * Z :=
  let z := z + 719468 in
  let era := z / 146097 in
  let doe := z mod 146097 in
  let yoe := (doe - doe / 1460 + doe / 36524 - doe / 146096) / 365 in
  let doy := doe - (365 * yoe + yoe / 4 - yoe / 100) in
  let mp := (5 * doy + 2) / 153 in
  let d := doy - (153 * mp + 2) / 5 + 1 in
  let m := if mp <? 10 then mp + 3 else mp - 9 in
  let y := yoe + era * 400 in
  (if m <=? 2 then y + 1 else y, m, d).

(** The inverse: (year, month, day) to day number ([MakeDay]). *)
Definition days_from_civil (y m d : Z) : Z :=
  let y := if m <=? 2 then y - 1 else y in
  let era := y / 400 in
  let yoe := y mod 400 in
  let doy := (153 * (if 2 <? m then m - 3 else m + 9) + 2) / 5 + d - 1 in
  let doe := yoe * 365 + yoe / 4 - yoe / 100 + doy in
  era * 146097 + doe - 719468.

Definition YearFromTime  (t : Z) : Z := fst (fst (civil_from_days (Day t))).
Definition MonthFromTime (t : Z) : Z := snd (fst (civil_from_days (Day t))).
Definition DateFromTime  (t : Z) : Z := snd (civil_from_days (Day t)).
Definition HourFromTime  (t : Z) : Z := TimeWithinDay t / msPerHour.
Definition MinFromTime   (t : Z) : Z := (TimeWithinDay t mod msPerHour) / msPerMinute.
Definition SecFromTime   (t : Z) : Z := (TimeWithinDay t mod msPerMinute) / msPerSecond.
Definition msFromTime    (t : Z) : Z := TimeWithinDay t mod msPerSecond.

(** Decimal digits. *)
Definition digit (d : Z) : ascii := ascii_of_N (48 + Z.to_N d).

Definition digit_value (c : ascii) : option Z :=
  let n := Z.of_N (N_of_ascii c) in
  if (48 <=? n) && (n <=? 57) then Some (n - 48) else None.

(** [pad k n]: the last [k] decimal digits of [n] (zero padded), as
    [String(n).padStart(k, '0')] gives for [0 <= n < 10^k]. *)
Fixpoint pad (k : nat) (n : Z) : string :=
  match k with
  | O => EmptyString
  | S k' => pad k' (n / 10) +:+ String (digit (n mod 10)) EmptyString
  end.

(** Decimal numeral of a non-negative integer, most significant digit
    first ([String(n)] for a non-negative safe integer). *)
Fixpoint showDigits (fuel : nat) (n : Z) (acc : string) : string :=
  match fuel with
  | O => acc
  | S f =>
      let acc' := String (digit (n mod 10)) acc in
      if n <? 10 then acc' else showDigits f (n / 10) acc'
  end.

Definition showNat (n : Z) : string :=
  showDigits (S (Z.to_nat (Z.log2 n))) n EmptyString.

Definition showZ (n : Z) : string :=
  if n <? 0 then String "-" (showNat (- n)) else showNat n.

(** Year of an ISO date-time string: four digits for years 0..9999, else
    the expanded form, a sign and six digits. *)
Definition isoYear (y : Z) : string :=
  if (0 <=? y) && (y <=? 9999) then pad 4 y
  else if y <? 0 then String "-" (pad 6 (- y))
  else String "+" (pad 6 y).

(** [Date.prototype.toISOString] of a valid time value. *)
Definition toISOString (t : Z) : string :=
  isoYear (YearFromTime t) +:+ "-" +:+ pad 2 (MonthFromTime t) +:+ "-" +:+
  pad 2 (DateFromTime t) +:+ "T" +:+ pad 2 (HourFromTime t) +:+ ":" +:+
  pad 2 (MinFromTime t) +:+ ":" +:+ pad 2 (SecFromTime t) +:+ "." +:+
  pad 3 (msFromTime t) +:+ "Z".

(** ** Reading back the format [toISOString] writes

    ECMA-262 requires [Date.parse] to accept the date-time string format
    of [toISOString] and to return the time value it was produced from.
    [parseISO] reads exactly that format. *)

Fixpoint take_digits (k : nat) (l : list ascii) : option (Z * list ascii) :=
  match k with
  | O => Some (0, l)
  | S k' =>
      match take_digits k' l with
      | Some (v, c :: r) =>
          match digit_value c with
          | Some d => Some (10 * v + d, r)
          | None => None
          end
      | _ => None
      end
  end.

Definition expect (c : ascii) (l : list ascii) : option (list ascii) :=
  match l with
  | c' :: r => if Ascii.eqb c c' then Some r else None
  | [] => None
  end.

Definition take_year (l : list ascii) : option (Z * list ascii) :=
  match l with
  | "+"%char :: r => take_digits 6 r
  | "-"%char :: r =>
      match take_digits 6 r with
      | Some (y, r') => if y =? 0 then None else Some (- y, r')
      | None => None
      end
  | _ => take_digits 4 l
  end.

Definition in_range (lo hi v : Z) : bool := (lo <=? v) && (v <=? hi).

Definition MakeTime (h mi s ms : Z) : Z :=
  h * msPerHour + mi * msPerMinute + s * msPerSecond + ms.

Definition MakeDate (day time : Z) : Z := day * msPerDay + time.

Definition parseISO (str : string) : option Z :=
  match take_year (list_ascii_of_string str) with
  | Some (y, l) =>
  match expect "-" l with Some l =>
  match take_digits 2 l with Some (mo, l) =>
  match expect "-" l with Some l =>
  match take_digits 2 l with Some (d, l) =>
  match expect "T" l with Some l =>
  match take_digits 2 l with Some (h, l) =>
  match expect ":" l with Some l =>
  match take_digits 2 l with Some (mi, l) =>
  match expect ":" l with Some l =>
  match take_digits 2 l with Some (sec, l) =>
  match expect "." l with Some l =>
  match take_digits 3 l with Some (ms, l) =>
  match l with
  | ["Z"%char] =>
      if in_range 1 12 mo && in_range 1 31 d && in_range 0 23 h &&
         in_range 0 59 mi && in_range 0 59 sec
      then
        let t := MakeDate (days_from_civil y mo d) (MakeTime h mi sec ms) in
        if validTime t then Some t else None
      else None
  | _ => None
  end
  | None => None end | None => None end | None => None end | None => None end
  | None => None end | None => None end | None => None end | None => None end
  | None => None end | None => None end | None => None end | None => None end
  | None => None
  end.

End JSDate.

(* ===================================================================== *)
(** * JavaScript run-time notions shared by the modules                   *)
(* ===================================================================== *)
Module JS.

(** Values a [throw] carries. *)
Inductive Error : Type :=
  | TypeError (message : string)
  | SyntaxError (message : string)
  | QuotaExceededError
  | Err (message : string).              (* new Error(message) *)

(** How a call ends: it returns a value or throws.  For an [async]
    function: its promise is fulfilled with the value or rejected with
    the error. *)
Inductive Completion (A : Type) : Type :=
  | Return (value : A)
  | Throw (error : Error).
Arguments Return {A} value.
Arguments Throw {A} error.

(** Effectful code: a state transformer over a run-time state [S] that
    ends in a completion. *)
Definition Eff (S A : Type) : Type := S -> Completion A * S.

Definition ret {S A} (a : A) : Eff S A := fun s => (Return a, s).

Definition throw {S A} (e : Error) : Eff S A := fun s => (Throw e, s).

Definition bind {S A B} (m : Eff S A) (k : A -> Eff S B) : Eff S B :=
  fun s =>
    match m s with
    | (Return a, s') => k a s'
    | (Throw e, s') => (Throw e, s')
    end.

(** [try { body } catch (error) { handler }] *)
Definition try_catch {S A} (body : Eff S A) (handler : Error -> Eff S A) : Eff S A :=
  fun s =>
    match body s with
    | (Return a, s') => (Return a, s')
    | (Throw e, s') => handler e s'
    end.

Definition lift {S A} (c : Completion A) : Eff S A := fun s => (c, s).

(** The result objects of [Promise.allSettled]. *)
Inductive Settled (A : Type) : Type :=
  | fulfilled (value : A)
  | rejected (reason : Error).
Arguments fulfilled {A} value.
Arguments rejected {A} reason.

Definition settle {A} (c : Completion A) : Settled A :=
  match c with
  | Return a => fulfilled a
  | Throw e => rejected e
  end.

(** [Promise.allSettled(ps)]: every promise runs; the results come back by
    position, never by completion order, and the combined promise never
    rejects.  The promises of one call interleave only at their
    suspension points; the model runs them one after the other in array
    order, which is the order in which [Array.prototype.map] starts them. *)
Fixpoint allSettled {S A} (ps : list (Eff S A)) : Eff S (list (Settled A)) :=
  match ps with
  | [] => ret []
  | p :: rest =>
      fun s =>
        let '(c, s1) := p s in
        match allSettled rest s1 with
        | (Return cs, s2) => (Return (settle c :: cs), s2)
        | (Throw e, s2) => (Throw e, s2)
        end
  end.

(** [Promise.all(ps)]: every promise runs; the combined promise is
    rejected with the first rejection in array order (the model's
    completion order), else fulfilled with all values by position. *)
Fixpoint first_rejection {A} (rs : list (Settled A)) : Completion (list A) :=
  match rs with
  | [] => Return []
  | rejected e :: _ => Throw e
  | fulfilled a :: rest =>
      match first_rejection rest with
      | Return l => Return (a :: l)
      | Throw e => Throw e
      end
  end.

Definition Promise_all {S A} (ps : list (Eff S A)) : Eff S (list A) :=
  bind (allSettled ps) (fun rs => lift (first_rejection rs)).

(** [arr.slice(0, end)] for an integer [end]: a negative [end] counts
    from the end of the array. *)
Definition slice0 {A} (l : list A) (e : Z) : list A :=
  if e <? 0 then firstn (Z.to_nat (Z.of_nat (length l) + e)) l
  else firstn (Z.to_nat e) l.

(** [a ?? b] and [a || b] on an optional number. *)
Definition nullish {A} (a : option A) (b : A) : A :=
  match a with Some x => x | None => b end.

Definition truthyZ (n : option Z) : bool :=
  match n with Some z => negb (z =? 0) | None => false end.

Definition truthyString (s : option string) : bool :=
  match s with Some s => negb (String.eqb s "") | None => false end.

(** Console output. *)
Inductive Level : Type := LogError | LogWarn.

Record LogLine : Type := mkLog {
  level : Level;
  text : string;
  detail : option Error
}.

(** ASCII view of [String.prototype.toLowerCase] and [trim]. *)
Definition lower_ascii (c : ascii) : ascii :=
  let n := N_of_ascii c in
  if ((65 <=? n) && (n <=? 90))%N then ascii_of_N (n + 32) else c.

Fixpoint toLowerCase (s : string) : string :=
  match s with
  | EmptyString => EmptyString
  | String c r => String (lower_ascii c) (toLowerCase r)
  end.

Definition is_space (c : ascii) : bool :=
  let n := N_of_ascii c in
  ((n =? 32) || ((9 <=? n) && (n <=? 13)))%N.

Fixpoint trimStart (s : string) : string :=
  match s with
  | String c r => if is_space c then trimStart r else s
  | EmptyString => EmptyString
  end.

Fixpoint trimEnd (s : string) : string :=
  match s with
  | EmptyString => EmptyString
  | String c r =>
      match trimEnd r with
      | EmptyString => if is_space c then EmptyString else String c EmptyString
      | r' => String c r'
      end
  end.

Definition trim (s : string) : string := trimEnd (trimStart s).

(** The double-quote character (code 34), and [str.replace(/q/g, qq)]
    for it: every double quote is doubled. *)
Definition dquote : ascii := ascii_of_N 34.

Fixpoint doubleQuotes (s : string) : string :=
  match s with
  | EmptyString => EmptyString
  | String c r =>
      if Ascii.eqb c dquote
      then String c (String c (doubleQuotes r))
      else String c (doubleQuotes r)
  end.

(** [arr.join(sep)] on strings. *)
Fixpoint join (sep : string) (l : list string) : string :=
  match l with
  | [] => EmptyString
  | [x] => x
  | x :: rest => x +:+ sep +:+ join sep rest
  end.

(** [error.message]; the text of a quota error is the browser's. *)
Definition message (e : Error) : string :=
  match e with
  | TypeError m | SyntaxError m | Err m => m
  | QuotaExceededError => "The quota has been exceeded."
  end.

(** [str.includes(search)] *)
Fixpoint includes (str search : string) : bool :=
  String.prefix search str ||
  match str with
  | String _ r => includes r search
  | EmptyString => false
  end.

End JS.

Notation "'let*' x := m 'in' k" := (JS.bind m (fun x => k))
  (at level 10, x name, m at level 100, k at level 200).
Notation "m ;; k" := (JS.bind m (fun _ => k))
  (at level 100, k at level 200, right associativity).

(* ===================================================================== *)
(** * src/types/index.ts                                                  *)
(* ===================================================================== *)
Module Types.

Inductive SourceType : Type :=
  | GitHub | HackerNews | ArXiv | DevTo | Reddit | ProductHunt | EchoJS
  | RSS | Custom.

Definition SourceType_eqb (a b : SourceType) : bool :=
  match a, b with
  | GitHub, GitHub | HackerNews, HackerNews | ArXiv, ArXiv | DevTo, DevTo
  | Reddit, Reddit | ProductHunt, ProductHunt | EchoJS, EchoJS
  | RSS, RSS | Custom, Custom => true
  | _, _ => false
  end.

(** The string a [SourceType] value is at run time. *)
Definition SourceType_string (t : SourceType) : string :=
  match t with
  | GitHub => "GitHub" | HackerNews => "HackerNews" | ArXiv => "ArXiv"
  | DevTo => "DevTo" | Reddit => "Reddit" | ProductHunt => "ProductHunt"
  | EchoJS => "EchoJS" | RSS => "RSS" | Custom => "Custom"
  end.

Inductive FetchTimeRange : Type := range_1d | range_3d | range_7d | range_30d.

Definition TIME_RANGE_MS (r : FetchTimeRange) : Z :=
  match r with
  | range_1d => 24 * 60 * 60 * 1000
  | range_3d => 3 * 24 * 60 * 60 * 1000
  | range_7d => 7 * 24 * 60 * 60 * 1000
  | range_30d => 30 * 24 * 60 * 60 * 1000
  end.

(** [interface FeedItem].  An optional property is an [option]; for
    [isPinned], [None] is the property being absent or [undefined].
    [publishedAt] is an ISO string: every adapter stores the result of
    [toISOString] (or nothing), and storage holds JSON. *)
Module FeedItem.
Record t : Type := mk {
  id : string;
  title : string;
  source : SourceType;
  sourceName : option string;
  url : string;
  summary : option string;
  publishedAt : option string;
  tags : option (list string);
  aiSummary : option string;
  score : option Z;
  author : option string;
  commentCount : option Z;
  upvotes : option Z;
  isPinned : option bool
}.

(** [{ ...item, isPinned: flag }] *)
Definition with_isPinned (item : t) (flag : option bool) : t :=
  mk (id item) (title item) (source item) (sourceName item) (url item)
     (summary item) (publishedAt item) (tags item) (aiSummary item)
     (score item) (author item) (commentCount item) (upvotes item) flag.
End FeedItem.

(** [interface SourceConfig] (the presentation-only properties icon,
    category, description and color are left out). *)
Module SourceConfig.
Record t : Type := mk {
  id : string;
  type : SourceType;
  url : option string;
  enabled : bool;
  name : string;
  fetchCount : Z;
  fetchTimeRange : option FetchTimeRange;
  minScore : option Z;
  isPinned : option bool
}.
End SourceConfig.

Inductive Theme : Type := light | dark.

Module AppConfig.
Record t : Type := mk {
  sources : list SourceConfig.t;
  apiBaseUrl : option string;
  apiKey : option string;
  apiModel : option string;
  theme : Theme;
  maxItems : Z
}.
End AppConfig.

End Types.

(* ===================================================================== *)
(** * src/services/freshnessService.ts                                    *)
(* ===================================================================== *)
Module Freshness.
Import JSDate.

Inductive RefreshStrategy : Type :=
  | IMMEDIATE_DISPLAY   (* 'immediate' *)
  | SILENT_REFRESH      (* 'silent' *)
  | FORCE_REFRESH.      (* 'force' *)

Definition SILENT_THRESHOLD_MS : Z := 30 * 60 * 1000.
Definition FORCE_THRESHOLD_MS : Z := 6 * 60 * 60 * 1000.
Definition DAILY_REFRESH_HOUR : Z := 6.

(** [interface DataMetadata]; [lastUpdateTime] is [None] when the stored
    object has no such property. *)
Record DataMetadata : Type := mkMetadata {
  lastUpdateTime : option Z;
  lastUpdateDate : string
}.

(** What the clock calls read: [Date.now()] and the offset of local time
    from UTC, in milliseconds. *)
Record Clock : Type := mkClock {
  now : Z;
  tzOffset : Z
}.

Definition localDateString (c : Clock) : string :=
  let local := now c + tzOffset c in
  showZ (YearFromTime local) +:+ "-" +:+ pad 2 (MonthFromTime local) +:+ "-" +:+
  pad 2 (DateFromTime local).

Definition getTodayDateString (c : Clock) : string := localDateString c.

Definition isSameDay (dateStr1 dateStr2 : string) : bool :=
  String.eqb dateStr1 dateStr2.

Definition isNewDay (c : Clock) (lastUpdateDate : string) : bool :=
  let today := getTodayDateString c in
  negb (isSameDay lastUpdateDate today).

Definition calculateDataAge (c : Clock) (lastUpdateTime : Z) : Z :=
  now c - lastUpdateTime.

(** [!metadata.lastUpdateTime]: true when the number is missing or 0. *)
Definition falsyTime (t : option Z) : bool := negb (JS.truthyZ t).

Definition getRefreshStrategy (c : Clock) (metadata : option DataMetadata)
  : RefreshStrategy :=
  match metadata with
  | None => FORCE_REFRESH
  | Some md =>
      if falsyTime (lastUpdateTime md) then FORCE_REFRESH
      else
        let age := calculateDataAge c (JS.nullish (lastUpdateTime md) 0) in
        if isNewDay c (lastUpdateDate md) then FORCE_REFRESH
        else if FORCE_THRESHOLD_MS <? age then FORCE_REFRESH
        else if SILENT_THRESHOLD_MS <? age then SILENT_REFRESH
        else IMMEDIATE_DISPLAY
  end.

(** The translation function [t(key, params)]; [params] holds at most
    one number, under its name. *)
Definition Translate : Type := string -> option (string * Z) -> string.

Definition formatLastUpdateTime (c : Clock) (timestamp : Z) (t : option Translate)
  : string :=
  match t with
  | None => ""
  | Some t =>
      if timestamp =? 0 then t "refresh.neverUpdated" None
      else
        let diff := now c - timestamp in
        let minutes := diff / (60 * 1000) in
        let hours := diff / (60 * 60 * 1000) in
        let days := diff / (24 * 60 * 60 * 1000) in
        if minutes <? 1 then t "refresh.justUpdated" None
        else if minutes <? 60 then t "refresh.minutesAgo" (Some ("minutes", minutes))
        else if hours <? 24 then t "refresh.hoursAgo" (Some ("hours", hours))
        else t "refresh.daysAgo" (Some ("days", days))
  end.

End Freshness.

(* ===================================================================== *)
(** * src/utils/xmlParser.ts                                              *)
(* ===================================================================== *)
Module XmlParser.

(** A value of type [T | T[] | undefined]: what the XML parser gives for
    a child element that occurs zero, one or several times. *)
Inductive OneOrMany (T : Type) : Type :=
  | Absent                 (* undefined *)
  | One (x : T)
  | Many (xs : list T).
Arguments Absent {T}.
Arguments One {T} x.
Arguments Many {T} xs.

(** JavaScript truthiness of the values of a type. *)
Class Truthy (T : Type) : Type := truthy : T -> bool.

#[export] Instance Truthy_string : Truthy string :=
  fun s => negb (String.eqb s "").
#[export] Instance Truthy_Z : Truthy Z := fun z => negb (z =? 0).
#[export] Instance Truthy_bool : Truthy bool := fun b => b.
#[export] Instance Truthy_option {T} `{Truthy T} : Truthy (option T) :=
  fun o => match o with Some x => truthy x | None => false end.

Definition falsy {T} `{Truthy T} (value : OneOrMany T) : bool :=
  match value with
  | Absent => true
  | One x => negb (truthy x)
  | Many _ => false            (* every array is truthy *)
  end.

Definition ensureArray {T} `{Truthy T} (value : OneOrMany T) : list T :=
  if falsy value then []
  else match value with
       | Many xs => xs           (* Array.isArray(value) *)
       | One x => [x]
       | Absent => []
       end.

(** [string | { '#text': string; '__cdata'?: string } | undefined] *)
Inductive XmlText : Type :=
  | TextAbsent
  | TextString (s : string)
  | TextNode (text : option string) (cdata : option string).

#[export] Instance Truthy_XmlText : Truthy XmlText :=
  fun v => match v with
           | TextAbsent => false
           | TextString s => truthy s
           | TextNode _ _ => true
           end.

Definition extractText (value : XmlText) : string :=
  match value with
  | TextAbsent => ""
  | TextString s => JS.trim s
  | TextNode text cdata =>
      if truthy cdata then JS.trim (JS.nullish cdata "")
      else if truthy text then JS.trim (JS.nullish text "")
      else JS.trim "[object Object]"
  end.

Record AtomLink : Type := mkLink {
  href : option string;        (* '@_href' *)
  rel : option string;         (* '@_rel' *)
  linkText : option string     (* '#text' *)
}.

(** [string | AtomLink | AtomLink[] | undefined] *)
Inductive XmlLink : Type :=
  | LinkAbsent
  | LinkString (s : string)
  | LinkObject (l : AtomLink)
  | LinkArray (ls : list AtomLink).

(** [l['@_href'] || l['#text'] || ''] *)
Definition hrefOrText (l : AtomLink) : string :=
  if truthy (href l) then JS.nullish (href l) ""
  else if truthy (linkText l) then JS.nullish (linkText l) ""
  else "".

Definition extractLink (value : XmlLink) : string :=
  match value with
  | LinkAbsent => ""
  | LinkString s => if truthy s then JS.trim s else ""
  | LinkArray ls =>
      match List.find (fun l => match rel l with
                                | Some r => String.eqb r "alternate" || negb (truthy r)
                                | None => true
                                end) ls with
      | Some alternate => hrefOrText alternate
      | None => match ls with
                | first :: _ => hrefOrText first
                | [] => ""
                end
      end
  | LinkObject l => JS.trim (hrefOrText l)
  end.

Record RSSItem : Type := mkRSSItem {
  rss_title : XmlText;
  rss_link : XmlLink;
  description : XmlText;
  pubDate : option string;
  dc_date : option string      (* 'dc:date' *)
}.

Record AtomEntry : Type := mkAtomEntry {
  atom_title : XmlText;
  atom_link : XmlLink;
  summary : XmlText;
  content : XmlText;
  published : option string;
  updated : option string
}.

(** Parsed elements are objects: always truthy. *)
#[export] Instance Truthy_RSSItem : Truthy RSSItem := fun _ => true.
#[export] Instance Truthy_AtomEntry : Truthy AtomEntry := fun _ => true.

Record RSSChannel : Type := mkChannel { item : OneOrMany RSSItem }.
Record Rss : Type := mkRss { channel : option RSSChannel }.
Record AtomFeed : Type := mkFeed { entry : OneOrMany AtomEntry }.

Record RSSParsedResult : Type := mkParsed {
  rss : option Rss;
  feed : option AtomFeed
}.

End XmlParser.

(* ===================================================================== *)
(** * The run-time state: console, network log, storage (utils/chrome.ts) *)
(* ===================================================================== *)
Module Chrome.
Import JS Types.

(** A cache entry of [dataFetcher.ts]: [{ items, timestamp }]. *)
Record CacheEntry : Type := mkCache {
  items : list FeedItem.t;
  timestamp : Z
}.

(** What the key-value store holds ([Record<string, any>]), by the type
    the program reads it back at. *)
Inductive StoredValue : Type :=
  | VConfig (c : AppConfig.t)
  | VFeeds (l : list FeedItem.t)
  | VCache (e : CacheEntry)
  | VNumber (n : Z)
  | VMetadata (m : Freshness.DataMetadata).

(** The platform the code runs on.  [refuses data key value] tells
    whether the store turns down writing [value] under [key] when it
    holds [data] (its quota would be exceeded). *)
Record Host : Type := mkHost {
  isChromeExtension : bool;
  refuses : gmap string StoredValue -> string -> StoredValue -> bool;
  clock : Freshness.Clock
}.

Record Runtime : Type := mkRuntime {
  host : Host;
  console : list LogLine;          (* oldest line first *)
  requests : list string;          (* URLs fetched, oldest first *)
  stored : gmap string StoredValue;
  forceRefresh : bool              (* module variable of dataFetcher.ts *)
}.

Definition M (A : Type) : Type := Eff Runtime A.

Definition set_console (l : list LogLine) (s : Runtime) : Runtime :=
  mkRuntime (host s) l (requests s) (stored s) (forceRefresh s).
Definition set_requests (l : list string) (s : Runtime) : Runtime :=
  mkRuntime (host s) (console s) l (stored s) (forceRefresh s).
Definition set_stored (m : gmap string StoredValue) (s : Runtime) : Runtime :=
  mkRuntime (host s) (console s) (requests s) m (forceRefresh s).
Definition set_forceRefresh (b : bool) (s : Runtime) : Runtime :=
  mkRuntime (host s) (console s) (requests s) (stored s) b.

Definition log (lv : Level) (msg : string) (d : option Error) : M unit :=
  fun s => (Return tt, set_console (console s ++ [mkLog lv msg d]) s).

(** [console.error], and [logger.error] / [logger.warn] of
    utils/logger.ts, which prefix the level. *)
Definition console_error (msg : string) (d : option Error) : M unit :=
  log LogError msg d.
Definition logger_error (msg : string) (d : option Error) : M unit :=
  log LogError ("[Error] " +:+ msg) d.
Definition logger_warn (msg : string) (d : option Error) : M unit :=
  log LogWarn ("[Warn] " +:+ msg) d.

Definition Date_now : M Z :=
  fun s => (Return (Freshness.now (clock (host s))), s).

(** [safeStorageGet(keys)]: the stored entries among [keys]. *)
Definition safeStorageGet (keys : list string) : M (gmap string StoredValue) :=
  fun s =>
    (Return (list_to_map
               (omap (fun k => match stored s !! k with
                               | Some v => Some (k, v)
                               | None => None
                               end) keys)), s).

(** [localStorage.setItem]: throws when the quota is exceeded. *)
Definition localStorage_setItem (key : string) (value : StoredValue) : M unit :=
  fun s =>
    if refuses (host s) (stored s) key value
    then (Throw QuotaExceededError, s)
    else (Return tt, set_stored (<[key := value]> (stored s)) s).

Fixpoint localStorage_setAll (items : list (string * StoredValue)) : M unit :=
  match items with
  | [] => ret tt
  | (key, value) :: rest =>
      localStorage_setItem key value ;; localStorage_setAll rest
  end.

(** [chrome.storage.local.set(items, callback)]: a refused write stores
    nothing and sets [chrome.runtime.lastError]; the callback runs in
    both cases. *)
Fixpoint chrome_accepts (data : gmap string StoredValue) (h : Host)
  (items : list (string * StoredValue)) : bool :=
  match items with
  | [] => true
  | (key, value) :: rest =>
      negb (refuses h data key value) && chrome_accepts (<[key := value]> data) h rest
  end.

Definition chrome_storage_set (items : list (string * StoredValue)) : M unit :=
  fun s =>
    if chrome_accepts (stored s) (host s) items
    then (Return tt,
          set_stored (fold_left (fun m kv => <[fst kv := snd kv]> m) items (stored s)) s)
    else (Return tt, s).

(** [safeStorageSet(items)]: the promise resolves from the callback in
    the extension, whether or not the write took place; in the
    development fallback a throwing [setItem] rejects it. *)
Definition safeStorageSet (items : list (string * StoredValue)) : M unit :=
  fun s =>
    if isChromeExtension (host s) then chrome_storage_set items s
    else localStorage_setAll items s.

End Chrome.

(* ===================================================================== *)
(** * sources/base/BaseSource.ts                                          *)
(* ===================================================================== *)
Module BaseSource.
Import JS Types Chrome JSDate.

(** The part of [Date] that ECMA-262 leaves to the engine: which strings
    [Date.parse] (and [new Date(string)]) accepts, and the time value of
    each; [None] is NaN. *)
Record Engine : Type := mkEngine {
  Date_parse : string -> option Z
}.

(** [interface SourceFetchOptions], with the custom keys the adapters
    read. *)
Record SourceFetchOptions : Type := mkOptions {
  count : option Z;
  minScore : option Z;
  query : option string;
  url : option string;
  sourceName : option string;
  timeRange : option FetchTimeRange
}.

(** A [Response]; [body] is what [json()] or [text()] completes with. *)
Record Response (B : Type) : Type := mkResponse {
  ok : bool;
  status : Z;
  statusText : string;
  body : Completion B
}.
Arguments mkResponse {B} ok status statusText body.
Arguments ok {B} r.
Arguments status {B} r.
Arguments statusText {B} r.
Arguments body {B} r.

(** The global [fetch(url)]: [answer] is what the network does for this
    request. *)
Definition http_fetch {B} (url : string) (answer : Completion (Response B))
  : M (Response B) :=
  fun s => (answer, set_requests (requests s ++ [url]) s).

Definition safeFetch {B} (name : string) (url : string)
  (answer : Completion (Response B)) : M (Response B) :=
  let* response := http_fetch url answer in
  if negb (ok response)
  then throw (Err (name +:+ " API error: " +:+ showZ (status response) +:+ " " +:+
                   statusText response))
  else ret response.

Definition safeExecute {T} (name : string) (operation : M T) (fallback : T) : M T :=
  try_catch operation
    (fun error => console_error (name +:+ " error:") (Some error) ;; ret fallback).

Definition generateId (name : string) (identifier : string) : string :=
  toLowerCase name +:+ "-" +:+ identifier.

(** [new Date(value)] for a number: the time value, or Invalid Date. *)
Definition newDate (value : Z) : option Z :=
  if validTime value then Some value else None.

(** [parseInt(str, 10)]: leading white space, an optional sign, then the
    longest run of decimal digits; [None] is NaN. *)
Fixpoint digits_prefix (l : list ascii) (acc : option Z) : option Z :=
  match l with
  | c :: r =>
      match digit_value c with
      | Some d => digits_prefix r (Some (10 * JS.nullish acc 0 + d))
      | None => acc
      end
  | [] => acc
  end.

Definition parseInt10 (str : string) : option Z :=
  match list_ascii_of_string (trimStart str) with
  | "-"%char :: r => option_map Z.opp (digits_prefix r None)
  | "+"%char :: r => digits_prefix r None
  | l => digits_prefix l None
  end.

Inductive TimeUnit : Type := unit_s | unit_ms.

(** The argument of [parseTimestamp]:
    [string | number | Date | undefined | null]. *)
Inductive Timestamp : Type :=
  | TsUndefined
  | TsNull
  | TsDate (time : option Z)     (* a Date object; [None]: Invalid Date *)
  | TsNumber (n : Z)
  | TsNaN
  | TsString (str : string).

Definition scale (unit : TimeUnit) (n : Z) : Z :=
  match unit with unit_s => n * 1000 | unit_ms => n end.

(** The last two statements: [isNaN(date.getTime())] and
    [date.toISOString()]. *)
Definition isoOfDate (date : option Z) : option string :=
  match date with
  | None => None
  | Some t => Some (toISOString t)
  end.

Definition parseTimestamp (E : Engine) (timestamp : Timestamp) (unit : TimeUnit)
  : option string :=
  match timestamp with
  | TsUndefined | TsNull => None
  | TsDate date => isoOfDate date
  | TsNumber n => isoOfDate (newDate (scale unit n))
  | TsNaN => isoOfDate None
  | TsString str =>
      match Date_parse E str with
      | Some parsed => isoOfDate (newDate parsed)
      | None =>
          match parseInt10 str with
          | Some num =>
              if String.eqb (showZ num) (trim str)
              then isoOfDate (newDate (scale unit num))
              else None
          | None => None
          end
      end
  end.

(** [str.replace(/\s+/g, ' ')] *)
Fixpoint collapseSpaces (inRun : bool) (s : string) : string :=
  match s with
  | EmptyString => EmptyString
  | String c r =>
      if is_space c
      then if inRun then collapseSpaces true r
           else String " "%char (collapseSpaces true r)
      else String c (collapseSpaces false r)
  end.

Definition cleanString (str : string) (maxLength : option Z) : string :=
  let cleaned := trim (collapseSpaces false str) in
  match maxLength with
  | Some n =>
      if negb (n =? 0) && (n <? Z.of_nat (String.length cleaned))
      then String.substring 0 (Z.to_nat n) cleaned +:+ "..."
      else cleaned
  | None => cleaned
  end.

(** [new Date(str)] for a string: the time value [Date.parse] gives,
    or Invalid Date. *)
Definition newDateOfString (E : Engine) (str : string) : option Z :=
  match Date_parse E str with
  | Some parsed => newDate parsed
  | None => None
  end.

(** [parseTimestampToDate]: [None] is [undefined], [Some date] a Date
    object with its time value ([Some None]: an Invalid Date). *)
Definition parseTimestampToDate (E : Engine) (timestamp : Timestamp) (unit : TimeUnit)
  : option (option Z) :=
  match parseTimestamp E timestamp unit with
  | Some isoString =>
      if truthyString (Some isoString) then Some (newDateOfString E isoString)
      else None
  | None => None
  end.

(** [html.replace(/<[^>]*>/g, '')]: a match starts at a [<] that has a
    [>] somewhere after it and ends at the first such [>]; the scan goes
    on after the match.  [pending] is the text read since a [<] that is
    not closed yet; it is dropped at the closing [>], and kept when the
    string ends first. *)
Fixpoint stripTags (pending : option string) (html : string) : string :=
  match html with
  | EmptyString =>
      match pending with
      | Some text => text
      | None => EmptyString
      end
  | String c r =>
      match pending with
      | None =>
          if Ascii.eqb c "<" then stripTags (Some (String c EmptyString)) r
          else String c (stripTags None r)
      | Some text =>
          if Ascii.eqb c ">" then stripTags None r
          else stripTags (Some (text +:+ String c EmptyString)) r
      end
  end.

Definition stripHtml (html : string) : string := stripTags None html.

(** An adapter: [abstract class BaseSource] with its [sourceName] and
    [fetch(options?)]. *)
Record t : Type := mkSource {
  name : string;
  fetch : option SourceFetchOptions -> M (list FeedItem.t)
}.

End BaseSource.

(* ===================================================================== *)
(** * src/sources/SourceRegistry.ts                                       *)
(* ===================================================================== *)
Module SourceRegistry.
Import JS Types Chrome.

(** [private static sources = new Map<string, BaseSource>()] *)
Abbreviation Sources := (gmap string BaseSource.t).

Definition register (source : BaseSource.t) (sources : Sources)
  : Completion Sources :=
  let key := BaseSource.name source in
  match sources !! key with
  | Some _ => Throw (Err ("Source " +:+ key +:+ " is already registered"))
  | None => Return (<[key := source]> sources)
  end.

Definition unregister (name : string) (sources : Sources) : Sources :=
  delete name sources.

Definition get (sources : Sources) (name : string) : option BaseSource.t :=
  sources !! name.

Definition has (sources : Sources) (name : string) : bool :=
  match sources !! name with Some _ => true | None => false end.

Definition fetchFrom (sources : Sources) (name : string)
  (options : option BaseSource.SourceFetchOptions) : M (list FeedItem.t) :=
  match get sources name with
  | None =>
      console_error ("Source " +:+ name +:+ " not found in registry") None ;;
      ret []
  | Some source =>
      try_catch (BaseSource.fetch source options)
        (fun error =>
           console_error ("Error fetching from " +:+ name +:+ ":") (Some error) ;;
           ret [])
  end.

(** [results.forEach(result => { if (fulfilled) allItems.push(...value) })] *)
Definition pushFulfilled (allItems : list FeedItem.t)
  (result : Settled (list FeedItem.t)) : list FeedItem.t :=
  match result with
  | fulfilled value => allItems ++ value
  | rejected _ => allItems
  end.

Definition fetchFromMany (sources : Sources) (sourceNames : list string)
  (options : option BaseSource.SourceFetchOptions) : M (list FeedItem.t) :=
  let* results :=
    allSettled (map (fun name => fetchFrom sources name options) sourceNames) in
  ret (fold_left pushFulfilled results []).

Definition clear (sources : Sources) : Sources := ∅.

Definition size (sources : Sources) : Z := Z.of_nat (base.size sources).

End SourceRegistry.

(* ===================================================================== *)
(** * sources/HackerNewsSource.ts                                         *)
(* ===================================================================== *)
Module HackerNewsSource.
Import JS Types Chrome BaseSource.

(** [interface HackerNewsItem]; [url] and [text] are [string | null]. *)
Record HackerNewsItem : Type := mkItem {
  id : Z;
  title : string;
  url : option string;
  by_ : string;                (* by *)
  time : Z;
  score : Z;
  descendants : Z;
  text : option string
}.

(** What the Hacker News API answers: the top-story id list, and for an
    id the item, or JSON [null] ([None]) for an id it does not have. *)
Record Network : Type := mkNetwork {
  topstories : Completion (Response (list Z));
  item : Z -> Completion (Response (option HackerNewsItem))
}.

Definition sourceName : string := "HackerNews".
Definition apiBase : string := "https://hacker-news.firebaseio.com/v0".
Definition topStoriesUrl : string := apiBase +:+ "/topstories.json".
Definition defaultCount : Z := 15.

Definition itemUrl (id : Z) : string :=
  apiBase +:+ "/item/" +:+ JSDate.showZ id +:+ ".json".

Definition noOptions : SourceFetchOptions :=
  mkOptions None None None None None None.

(** The callback of [topStoryIds.map]: fetch one item and read its JSON. *)
Definition fetchDetail (net : Network) (id : Z) : M (option HackerNewsItem) :=
  let* response := safeFetch sourceName (itemUrl id) (item net id) in
  lift (body response).

(** [items.filter((item) => item.score >= minScore)]: reading [score]
    of [null] throws a TypeError. *)
Fixpoint filterByScore (minScore : Z) (items : list (option HackerNewsItem))
  : Completion (list HackerNewsItem) :=
  match items with
  | [] => Return []
  | None :: _ => Throw (TypeError "Cannot read properties of null (reading 'score')")
  | Some it :: rest =>
      match filterByScore minScore rest with
      | Return kept => Return (if minScore <=? score it then it :: kept else kept)
      | Throw e => Throw e
      end
  end.

Definition toFeedItem (E : Engine) (it : HackerNewsItem) : FeedItem.t :=
  FeedItem.mk
    (generateId sourceName (JSDate.showZ (id it)))
    (title it)
    HackerNews
    None
    (if truthyString (url it) then nullish (url it) ""
     else "https://news.ycombinator.com/item?id=" +:+ JSDate.showZ (id it))
    (if truthyString (text it)
     then Some (cleanString (nullish (text it) "") (Some 200))
     else None)
    (parseTimestamp E (TsNumber (time it)) unit_s)
    None None
    (Some (score it))
    (Some (by_ it))
    (Some (descendants it))
    None None.

Definition fetch (E : Engine) (net : Network)
  (options : option SourceFetchOptions) : M (list FeedItem.t) :=
  let options := nullish options noOptions in
  let count := nullish (count options) defaultCount in
  let minScore := nullish (minScore options) 100 in
  safeExecute sourceName
    (let* storiesResponse := safeFetch sourceName topStoriesUrl (topstories net) in
     let* storyIds := lift (body storiesResponse) in
     let fetchCount := Z.min (count * 3) 100 in
     let topStoryIds := slice0 storyIds fetchCount in
     let* items := Promise_all (map (fetchDetail net) topStoryIds) in
     let* kept := lift (filterByScore minScore items) in
     ret (map (toFeedItem E) (slice0 kept count)))
    [].

Definition source (E : Engine) (net : Network) : BaseSource.t :=
  mkSource sourceName (fetch E net).

End HackerNewsSource.

(* ===================================================================== *)
(** * sources/RSSSource.ts                                                *)
(* ===================================================================== *)
Module RSSSource.
Import JS Types Chrome BaseSource XmlParser.

Definition sourceName : string := "RSS".

(** What the adapter is given from outside the repository: the engine's
    date parser, the XML parser library behind [parseXML]
    (fast-xml-parser), and what the network answers for a feed URL.
    [stripHtml] is the text cleaner of utils/xmlParser.ts; it touches
    the summary only. *)
Record World : Type := mkWorld {
  engine : Engine;
  parseXML : string -> Completion RSSParsedResult;
  stripHtml : string -> string;
  http : string -> Completion (Response string)
}.

(** An element of [items]: an Atom entry or an RSS 2.0 item, as
    [isAtom] says. *)
Inductive Entry : Type :=
  | Atom (e : AtomEntry)
  | Rss2 (i : RSSItem).

(** [a || b || ''] on optional strings. *)
Definition orElse (a b : option string) : string :=
  if truthy a then nullish a "" else if truthy b then nullish b "" else "".

Definition entryTitle (e : Entry) : string :=
  match e with
  | Atom a => extractText (atom_title a)
  | Rss2 r => extractText (rss_title r)
  end.

Definition entryLink (e : Entry) : string :=
  match e with
  | Atom a => extractLink (atom_link a)
  | Rss2 r => extractLink (rss_link r)
  end.

Definition entryDescription (w : World) (e : Entry) : string :=
  match e with
  | Atom a =>
      stripHtml w (extractText (if truthy (summary a) then summary a else content a))
  | Rss2 r => stripHtml w (extractText (description r))
  end.

Definition entryPubDate (e : Entry) : string :=
  match e with
  | Atom a => orElse (published a) (updated a)
  | Rss2 r => orElse (pubDate r) (dc_date r)
  end.

(** [pubDate && pubDate.trim()] *)
Definition hasDateText (pubDate : string) : bool :=
  truthy pubDate && truthy (trim pubDate).

Definition invalidDateWarning (pubDate url : string) : string :=
  "[RSS] Invalid date parsed from " +:+ String dquote (pubDate +:+ String dquote
  (" in " +:+ url +:+ ", fallback to now")).

(** Time value of [publishedAtDate]: the parsed date, or the current time
    when the text is missing or does not parse (with a warning). *)
Definition publishedAtDate (w : World) (url pubDate : string) : M Z :=
  if hasDateText pubDate then
    match Date_parse (engine w) pubDate with
    | None => logger_warn (invalidDateWarning pubDate url) None ;; Date_now
    | Some parsed => ret parsed
    end
  else Date_now.

Definition feedItem (w : World) (options : SourceFetchOptions) (url : string)
  (index : nat) (e : Entry) (time : Z) : FeedItem.t :=
  FeedItem.mk
    ("rss-" +:+ url +:+ "-" +:+ JSDate.showZ (Z.of_nat index))
    (entryTitle e)
    RSS
    (BaseSource.sourceName options)
    (entryLink e)
    (Some (String.substring 0 200 (entryDescription w e)))
    (Some (JSDate.toISOString time))
    None None None None None None None.

(** The [for] loop, from [index] on. *)
Fixpoint loop (w : World) (options : SourceFetchOptions) (url : string)
  (cutoffTime : Z) (index : nat) (items : list Entry)
  (feedItems : list FeedItem.t) : M (list FeedItem.t) :=
  match items with
  | [] => ret feedItems
  | e :: rest =>
      let* time := publishedAtDate w url (entryPubDate e) in
      if time <? cutoffTime
      then loop w options url cutoffTime (S index) rest feedItems
      else loop w options url cutoffTime (S index) rest
             (feedItems ++ [feedItem w options url index e time])
  end.

(** [isAtom ? ensureArray(parsed.feed?.entry)
           : ensureArray(parsed.rss?.channel?.item)] *)
Definition entriesOf (parsed : RSSParsedResult) : list Entry :=
  match feed parsed with
  | Some f => map Atom (ensureArray (entry f))
  | None =>
      map Rss2 (ensureArray
                  (match rss parsed with
                   | Some r => match channel r with
                               | Some c => item c
                               | None => Absent
                               end
                   | None => Absent
                   end))
  end.

Definition fetch (w : World) (options : option SourceFetchOptions)
  : M (list FeedItem.t) :=
  match options with
  | None => logger_error "RSS source requires a URL" None ;; ret []
  | Some options =>
      if negb (truthy (url options))
      then logger_error "RSS source requires a URL" None ;; ret []
      else
        let url := nullish (url options) "" in
        let maxCount := if truthyZ (count options)
                        then nullish (count options) 100 else 100 in
        let timeRange := nullish (timeRange options) range_7d in
        let* now := Date_now in
        let cutoffTime := now - TIME_RANGE_MS timeRange in
        safeExecute sourceName
          (let* response := BaseSource.http_fetch url (http w url) in
           if negb (ok response)
           then throw (Err ("HTTP error! status: " +:+ JSDate.showZ (status response)))
           else
             let* text := lift (body response) in
             let* parsed := lift (parseXML w text) in
             let items := entriesOf parsed in
             let bound := Z.min (Z.of_nat (length items)) maxCount in
             loop w options url cutoffTime 0 (firstn (Z.to_nat bound) items) [])
          []
  end.

Definition source (w : World) : BaseSource.t := mkSource sourceName (fetch w).

End RSSSource.

(* ===================================================================== *)
(** * sources/ProductHuntSource.ts                                        *)
(* ===================================================================== *)
Module ProductHuntSource.
Import JS Types Chrome BaseSource.

Record RSS2JSONItem : Type := mkRSS2JSONItem {
  title : string;
  link : string;
  description : string;
  pubDate : string;
  author : option string
}.

(** A property read off a JSON value: not there ([undefined]), [null],
    or a value. *)
Inductive Field (A : Type) : Type :=
  | Missing
  | Null
  | Present (value : A).
Arguments Missing {A}.
Arguments Null {A}.
Arguments Present {A} value.

(** What [response.json()] gives, as far as the proxies read it: [null],
    or an object with its [items] and [contents] properties. *)
Inductive JsonValue : Type :=
  | JsonNull
  | JsonObject (items : Field (list RSS2JSONItem)) (contents : Field string).

(** The payload of a response with its two readings, [json()] and
    [text()]. *)
Record Payload : Type := mkPayload {
  json : Completion JsonValue;
  text : Completion string
}.

(** The argument of [parseResponse] ([unknown]). *)
Inductive Data : Type :=
  | DataJson (value : JsonValue)
  | DataText (value : string).

(** What the adapter is given from outside the repository: the engine's
    date parser, the items [parseRSSXML] finds in an XML text (through
    [DOMParser] and [querySelectorAll('item')]), and what the network
    answers for a URL. *)
Record World : Type := mkWorld {
  engine : Engine;
  parseRSSXML : string -> list RSS2JSONItem;
  http : string -> Completion (Response Payload)
}.

Record RSSProxyConfig : Type := mkProxy {
  url : string;
  buildUrl : string -> string;
  parseResponse : World -> Data -> Completion (Field (list RSS2JSONItem))
}.

Definition sourceName : string := "ProductHunt".
Definition rssUrl : string := "https://www.producthunt.com/feed".
Definition defaultCount : Z := 5.

(** [encodeURIComponent] on ASCII text: letters, digits and
    [- _ . ! ~ * ' ( )] stay, every other character becomes [%XX]. *)
Definition hexDigit (n : N) : ascii :=
  if (n <? 10)%N then ascii_of_N (48 + n) else ascii_of_N (55 + n).

Definition unreserved (c : ascii) : bool :=
  let n := N_of_ascii c in
  (((65 <=? n) && (n <=? 90)) || ((97 <=? n) && (n <=? 122)) ||
   ((48 <=? n) && (n <=? 57)) ||
   (n =? 45) || (n =? 95) || (n =? 46) || (n =? 33) || (n =? 126) ||
   (n =? 42) || (n =? 39) || (n =? 40) || (n =? 41))%N.

Fixpoint encodeURIComponent (s : string) : string :=
  match s with
  | EmptyString => EmptyString
  | String c r =>
      if unreserved c then String c (encodeURIComponent r)
      else
        let n := N_of_ascii c in
        String "%" (String (hexDigit (n / 16)) (String (hexDigit (n mod 16))
          (encodeURIComponent r)))
  end.

(** [String(content)] for the argument of [parseFromString]. *)
Definition textOf (content : Field string) : string :=
  match content with
  | Missing => "undefined"
  | Null => "null"
  | Present text => text
  end.

Definition rss2json : RSSProxyConfig :=
  mkProxy "https://api.rss2json.com/v1/api.json"
    (fun feedUrl =>
       "https://api.rss2json.com/v1/api.json?rss_url=" +:+ encodeURIComponent feedUrl)
    (fun _ data =>
       match data with
       | DataJson JsonNull =>
           Throw (TypeError "Cannot read properties of null (reading 'items')")
       | DataJson (JsonObject items _) => Return items
       | DataText _ => Return Missing
       end).

Definition allorigins : RSSProxyConfig :=
  mkProxy "https://api.allorigins.win/get"
    (fun feedUrl => "https://api.allorigins.win/get?url=" +:+ encodeURIComponent feedUrl)
    (fun w data =>
       match data with
       | DataJson JsonNull =>
           Throw (TypeError "Cannot read properties of null (reading 'contents')")
       | DataJson (JsonObject _ contents) => Return (Present (parseRSSXML w (textOf contents)))
       | DataText _ => Return (Present (parseRSSXML w "undefined"))
       end).

Definition corsproxy : RSSProxyConfig :=
  mkProxy "https://corsproxy.io/"
    (fun feedUrl => "https://corsproxy.io/?" +:+ encodeURIComponent feedUrl)
    (fun w data =>
       match data with
       | DataText text => Return (Present (parseRSSXML w text))
       | DataJson JsonNull => Return (Present (parseRSSXML w "null"))
       | DataJson (JsonObject _ _) => Return (Present (parseRSSXML w "[object Object]"))
       end).

Definition RSS_PROXIES : list RSSProxyConfig := [rss2json; allorigins; corsproxy].

(** The body of the [try] block of [fetchWithFallback] for one proxy. *)
Definition tryProxy (w : World) (proxy : RSSProxyConfig)
  : M (Field (list RSS2JSONItem)) :=
  let requestUrl := buildUrl proxy rssUrl in
  let* response := safeFetch sourceName requestUrl (http w requestUrl) in
  let* payload := lift (body response) in
  if includes (url proxy) "allorigins" || includes (url proxy) "corsproxy" then
    let* data := (if includes (url proxy) "allorigins"
                  then let* value := lift (json payload) in ret (DataJson value)
                  else let* value := lift (text payload) in ret (DataText value)) in
    let* items := lift (parseResponse proxy w data) in
    match items with
    | Present found =>
        if 0 <? Z.of_nat (length found) then ret items
        else throw (Err "No items parsed from RSS feed")
    | Missing =>
        throw (TypeError "Cannot read properties of undefined (reading 'length')")
    | Null =>
        throw (TypeError "Cannot read properties of null (reading 'length')")
    end
  else
    let* value := lift (json payload) in
    lift (parseResponse proxy w (DataJson value)).

(** [logger.warn(`[ProductHunt] Proxy ${proxy.url} failed:`, err.message)]:
    the message is the second argument of the console call and goes into
    the line's text. *)
Definition proxyWarning (proxy : RSSProxyConfig) (err : Error) : string :=
  "[ProductHunt] Proxy " +:+ url proxy +:+ " failed: " +:+ message err.

(** The [for] loop over the proxies still to try; [errors] are the
    failures so far. *)
Fixpoint tryProxies (w : World) (proxies : list RSSProxyConfig) (errors : list Error)
  : M (Field (list RSS2JSONItem)) :=
  match proxies with
  | [] =>
      throw (Err ("All RSS proxies failed: " +:+ join "; " (map message errors)))
  | proxy :: rest =>
      try_catch (tryProxy w proxy)
        (fun err =>
           logger_warn (proxyWarning proxy err) None ;;
           tryProxies w rest (errors ++ [err]))
  end.

Definition fetchWithFallback (w : World) : M (Field (list RSS2JSONItem)) :=
  tryProxies w RSS_PROXIES [].

Definition noOptions : SourceFetchOptions :=
  mkOptions None None None None None None.

(** The callback of [rssItems.slice(0, count).map]. *)
Definition toFeedItem (w : World) (now : Z) (index : nat) (item : RSS2JSONItem)
  : FeedItem.t :=
  FeedItem.mk
    (generateId sourceName
       (JSDate.showZ (Z.of_nat index) +:+ "-" +:+ JSDate.showZ now))
    (title item)
    ProductHunt
    None
    (link item)
    (Some (cleanString (stripHtml (description item)) (Some 200)))
    (parseTimestamp (engine w) (TsString (pubDate item)) unit_ms)
    None None None
    (Some (if truthyString (author item) then nullish (author item) ""
           else "Product Hunt"))
    None None None.

Definition fetch (w : World) (options : option SourceFetchOptions)
  : M (list FeedItem.t) :=
  let options := nullish options noOptions in
  let count := nullish (count options) defaultCount in
  safeExecute sourceName
    (let* rssItems := fetchWithFallback w in
     match rssItems with
     | Present rssItems =>
         let* now := Date_now in
         ret (imap (toFeedItem w now) (slice0 rssItems count))
     | Missing =>
         throw (TypeError "Cannot read properties of undefined (reading 'slice')")
     | Null =>
         throw (TypeError "Cannot read properties of null (reading 'slice')")
     end)
    [].

Definition source (w : World) : BaseSource.t := mkSource sourceName (fetch w).

End ProductHuntSource.

(* ===================================================================== *)
(** * services/storage.ts                                                 *)
(* ===================================================================== *)
Module Storage.
Import JS Types Chrome.

Definition KEY_CONFIG : string := "infotrend_config".
Definition KEY_FEEDS : string := "infotrend_feeds".
Definition KEY_LAST_UPDATE : string := "infotrend_last_update".
Definition KEY_DATA_METADATA : string := "infotrend_data_metadata".

(** [defaultSources] and [defaultConfig] of types/index.ts. *)
Definition builtin (id : string) (type : SourceType) (enabled : bool)
  (name : string) (fetchCount : Z) (minScore : option Z) : SourceConfig.t :=
  SourceConfig.mk id type None enabled name fetchCount None minScore None.

Definition rssFeed (id name url : string) (range : FetchTimeRange) : SourceConfig.t :=
  SourceConfig.mk id RSS (Some url) true name 50 (Some range) None None.

Definition defaultSources : list SourceConfig.t :=
  [ builtin "github-trending" GitHub true "GitHub Trending" 10 None;
    builtin "hacker-news" HackerNews true "Hacker News" 15 (Some 100);
    builtin "arxiv-ai" ArXiv true "ArXiv AI" 10 None;
    builtin "dev-to" DevTo true "Dev.to" 10 None;
    builtin "reddit-ml" Reddit true "Reddit ML" 10 None;
    builtin "product-hunt" ProductHunt true "Product Hunt" 5 None;
    builtin "echo-js" EchoJS false "Echo JS" 10 None;
    rssFeed "openai-blog" "OpenAI Blog" "https://openai.com/blog/rss.xml" range_7d;
    rssFeed "karpathy-blog" "Karpathy Blog" "https://karpathy.github.io/feed.xml" range_30d;
    rssFeed "lilian-weng" "Lil'Log" "https://lilianweng.github.io/index.xml" range_30d;
    rssFeed "hugging-face" "Hugging Face" "https://huggingface.co/blog/feed.xml" range_7d;
    rssFeed "google-ai" "Google AI" "https://blog.google/technology/ai/rss/" range_7d;
    rssFeed "bair-blog" "BAIR" "https://bair.berkeley.edu/blog/feed.xml" range_30d;
    rssFeed "the-gradient" "The Gradient" "https://thegradient.pub/rss/" range_30d ].

Definition defaultConfig : AppConfig.t :=
  AppConfig.mk defaultSources (Some "") (Some "") (Some "") light 100.

(** [result[key]] of [safeStorageGet([key])]. *)
Definition getItem (key : string) : M (option StoredValue) :=
  let* result := safeStorageGet [key] in
  ret (result !! key).

Definition getConfig : M AppConfig.t :=
  let* config := getItem KEY_CONFIG in
  ret (match config with Some (VConfig c) => c | _ => defaultConfig end).

Definition saveConfig (config : AppConfig.t) : M unit :=
  safeStorageSet [(KEY_CONFIG, VConfig config)].

Definition getFeeds : M (list FeedItem.t) :=
  let* feeds := getItem KEY_FEEDS in
  ret (match feeds with Some (VFeeds l) => l | _ => [] end).

Definition saveFeeds (feeds : list FeedItem.t) : M unit :=
  safeStorageSet [(KEY_FEEDS, VFeeds feeds)].

Definition getCache (key : string) : M (option CacheEntry) :=
  let* value := getItem key in
  ret (match value with Some (VCache e) => Some e | _ => None end).

Definition saveCache (key : string) (value : CacheEntry) : M unit :=
  safeStorageSet [(key, VCache value)].

Definition getLastUpdate : M Z :=
  let* value := getItem KEY_LAST_UPDATE in
  ret (match value with Some (VNumber n) => n | _ => 0 end).

Definition updateLastUpdate : M unit :=
  let* now := Date_now in
  safeStorageSet [(KEY_LAST_UPDATE, VNumber now)].

Definition getDataMetadata : M (option Freshness.DataMetadata) :=
  let* value := getItem KEY_DATA_METADATA in
  ret (match value with Some (VMetadata m) => Some m | _ => None end).

Definition updateDataMetadata : M unit :=
  fun s =>
    let c := clock (host s) in
    safeStorageSet
      [(KEY_DATA_METADATA,
        VMetadata (Freshness.mkMetadata (Some (Freshness.now c))
                     (Freshness.localDateString c)))] s.

Inductive Format : Type := json | csv.

(** [JSON] as the two functions use it.  What [JSON.parse(data)] gives
    is seen through the two properties [importData] reads: [null] (any
    property read throws), or a value whose [config] and [feeds] are
    truthy ([Some]) or falsy or missing ([None]). *)
Inductive Imported : Type :=
  | ImportedNull
  | ImportedValue (config : option AppConfig.t) (feeds : option (list FeedItem.t)).

Record JSON : Type := mkJSON {
  JSON_parse : string -> Completion Imported;
  JSON_stringify : AppConfig.t -> list FeedItem.t -> string
}.

Definition headers : list string :=
  ["id"; "title"; "source"; "url"; "summary"; "publishedAt"; "tags"; "aiSummary"].

Definition quoted (s : string) : string :=
  String dquote (s +:+ String dquote EmptyString).

(** The callback of [feeds.map]: one CSV row.  [publishedAt] that is not
    a string has [toISOString] called on it; on [undefined] that throws. *)
Definition csvRow (feed : FeedItem.t) : Completion string :=
  match FeedItem.publishedAt feed with
  | None =>
      Throw (TypeError "Cannot read properties of undefined (reading 'toISOString')")
  | Some dateStr =>
      Return (join ","
        [ FeedItem.id feed;
          quoted (doubleQuotes (FeedItem.title feed));
          SourceType_string (FeedItem.source feed);
          FeedItem.url feed;
          quoted (doubleQuotes (if truthyString (FeedItem.summary feed)
                                then nullish (FeedItem.summary feed) "" else ""));
          dateStr;
          quoted (join "," (nullish (FeedItem.tags feed) []));
          quoted (doubleQuotes (if truthyString (FeedItem.aiSummary feed)
                                then nullish (FeedItem.aiSummary feed) "" else "")) ])
  end.

(** [feeds.map(callback)]: the first throwing call ends it. *)
Fixpoint mapRows (feeds : list FeedItem.t) : Completion (list string) :=
  match feeds with
  | [] => Return []
  | feed :: rest =>
      match csvRow feed with
      | Throw e => Throw e
      | Return row =>
          match mapRows rest with
          | Throw e => Throw e
          | Return rows => Return (row :: rows)
          end
      end
  end.

Definition newline : string := String (ascii_of_N 10) EmptyString.

Definition exportData (J : JSON) (format : Format) : M string :=
  let* config := getConfig in
  let* feeds := getFeeds in
  match format with
  | json => ret (JSON_stringify J config feeds)
  | csv =>
      let* rows := lift (mapRows feeds) in
      ret (join newline (join "," headers :: rows))
  end.

Definition importData (J : JSON) (data : string) (format : Format) : M bool :=
  try_catch
    (match format with
     | json =>
         let* imported := lift (JSON_parse J data) in
         match imported with
         | ImportedNull =>
             throw (TypeError "Cannot read properties of null (reading 'config')")
         | ImportedValue config feeds =>
             (match config with Some c => saveConfig c | None => ret tt end) ;;
             (match feeds with Some f => saveFeeds f | None => ret tt end) ;;
             ret true
         end
     | csv => ret false
     end)
    (fun error => console_error "Import error:" (Some error) ;; ret false).

Definition clearAll : M unit :=
  fun s => (Return tt, set_stored ∅ s).

End Storage.

(* ===================================================================== *)
(** * services/dataFetcher.ts                                             *)
(* ===================================================================== *)
Module DataFetcher.
Import JS Types Chrome BaseSource.

Definition CACHE_DURATION : Z := 30 * 60 * 1000.

Definition setForceRefresh (value : bool) : M unit :=
  fun s => (Return tt, set_forceRefresh value s).

Definition mapSourceConfigToOptions (source : SourceConfig.t) : SourceFetchOptions :=
  let isHN := SourceType_eqb (SourceConfig.type source) HackerNews
              && truthyZ (SourceConfig.minScore source) in
  let isArXiv := SourceType_eqb (SourceConfig.type source) ArXiv in
  let isRSS := SourceType_eqb (SourceConfig.type source) RSS
               && truthyString (SourceConfig.url source) in
  mkOptions
    (Some (SourceConfig.fetchCount source))
    (if isHN then SourceConfig.minScore source else None)
    (if isArXiv then Some "cat:cs.AI OR cat:cs.LG OR cat:cs.CL" else None)
    (if isRSS then SourceConfig.url source else None)
    (if isRSS then Some (SourceConfig.name source) else None)
    (if isRSS then Some (nullish (SourceConfig.fetchTimeRange source) range_7d)
     else None).

(** [cachedData?.items || []] *)
Definition cachedItems (cachedData : option CacheEntry) : list FeedItem.t :=
  match cachedData with
  | Some e => items e
  | None => []
  end.

Definition cacheKeyOf (source : SourceConfig.t) : string :=
  "cache_" +:+ (if negb (String.eqb (SourceConfig.id source) "")
                then SourceConfig.id source
                else SourceType_string (SourceConfig.type source)).

(** [!forceRefresh && cachedData &&
     Date.now() - cachedData.timestamp < CACHE_DURATION] *)
Definition cacheValid (force : bool) (cachedData : option CacheEntry) (now : Z) : bool :=
  negb force &&
  match cachedData with
  | Some e => now - timestamp e <? CACHE_DURATION
  | None => false
  end.

Definition fetchDataByType (sources : gmap string BaseSource.t)
  (source : SourceConfig.t) : M (list FeedItem.t) :=
  let cacheKey := cacheKeyOf source in
  let* cachedData := Storage.getCache cacheKey in
  fun s =>
    if cacheValid (forceRefresh s) cachedData (Freshness.now (clock (host s)))
    then (Return (cachedItems cachedData), s)
    else
      try_catch
        (let sourceName := SourceType_string (SourceConfig.type source) in
         if negb (SourceRegistry.has sources sourceName)
         then logger_warn ("Source " +:+ sourceName +:+ " not found in registry") None ;;
              ret (cachedItems cachedData)
         else
           let options := mapSourceConfigToOptions source in
           let* items := SourceRegistry.fetchFrom sources sourceName (Some options) in
           let* now := Date_now in
           Storage.saveCache cacheKey (mkCache items now) ;;
           ret items)
        (fun error =>
           logger_error ("Error fetching " +:+
                         SourceType_string (SourceConfig.type source) +:+ ":")
             (Some error) ;;
           ret (cachedItems cachedData))
        s.

(** [a.isPinned !== b.isPinned] on a flag that is true, false or
    undefined. *)
Definition strictNotEqual (a b : option bool) : bool :=
  match a, b with
  | None, None => false
  | Some x, Some y => negb (Bool.eqb x y)
  | _, _ => true
  end.

Definition truthyFlag (a : option bool) : bool :=
  match a with Some true => true | _ => false end.

(** [new Date(x.publishedAt || 0)] then [date?.getTime() || 0]: the time
    value of the string, and 0 for a missing, empty or unreadable one. *)
Definition timeOf (E : Engine) (publishedAt : option string) : Z :=
  if truthyString publishedAt
  then nullish (Date_parse E (nullish publishedAt "")) 0
  else 0.

(** The comparator given to [sort]. *)
Definition compareItems (E : Engine) (a b : FeedItem.t) : Z :=
  if strictNotEqual (FeedItem.isPinned a) (FeedItem.isPinned b)
  then (if truthyFlag (FeedItem.isPinned a) then -1 else 1)
  else timeOf E (FeedItem.publishedAt b) - timeOf E (FeedItem.publishedAt a).

(** [Array.prototype.sort(compare)], a stable sort: each element goes in
    after the elements it does not compare below.  With a consistent
    comparator every stable sort gives this result; with an
    inconsistent one ECMA-262 leaves the order to the engine. *)
Fixpoint insert {A} (compare : A -> A -> Z) (x : A) (sorted : list A) : list A :=
  match sorted with
  | [] => [x]
  | y :: rest =>
      if compare x y <? 0 then x :: y :: rest
      else y :: insert compare x rest
  end.

Definition sort {A} (compare : A -> A -> Z) (l : list A) : list A :=
  fold_left (fun sorted x => insert compare x sorted) l [].

(** The body of [results.forEach((result, index) => ...)]. *)
Definition collect (allItems : list FeedItem.t)
  (entry : Settled (list FeedItem.t) * SourceConfig.t) : M (list FeedItem.t) :=
  match entry with
  | (fulfilled value, source) =>
      ret (allItems ++
           map (fun item => FeedItem.with_isPinned item (SourceConfig.isPinned source))
             value)
  | (rejected reason, source) =>
      logger_error ("Error fetching " +:+ SourceConfig.name source +:+ ":")
        (Some reason) ;;
      ret allItems
  end.

Fixpoint forEach {A B} (f : B -> A -> M B) (l : list A) (acc : B) : M B :=
  match l with
  | [] => ret acc
  | x :: rest => let* acc' := f acc x in forEach f rest acc'
  end.

Definition fetchAllData (E : Engine) (registry : gmap string BaseSource.t)
  (sources : list SourceConfig.t) : M (list FeedItem.t) :=
  let enabledSources := List.filter SourceConfig.enabled sources in
  let* results := allSettled (map (fetchDataByType registry) enabledSources) in
  let* allItems := forEach collect (combine results enabledSources) [] in
  ret (sort (compareItems E) allItems).

Definition triggerRefresh (E : Engine) (registry : gmap string BaseSource.t)
  (sources : list SourceConfig.t) : M unit :=
  let* items := fetchAllData E registry sources in
  Storage.saveFeeds items ;;
  Storage.updateLastUpdate.

End DataFetcher.

(* ===================================================================== *)
(** * src/background/alarmScheduler.ts                                    *)
(* ===================================================================== *)
Module AlarmScheduler.
Import JSDate Freshness.

Definition DAILY_REFRESH : string := "infotrend-daily-refresh-6am".

(** ECMAScript [LocalTime(t)] and [UTC(t)], for a zone at the clock's
    fixed offset from UTC (a change of the offset between the two
    instants, as at a daylight-saving switch, is outside the model). *)
Definition LocalTime (c : Clock) (t : Z) : Z := t + tzOffset c.
Definition UTC (c : Clock) (t : Z) : Z := t - tzOffset c.

(** [MakeDay(year, month, date)], with the month counted from 1 as
    [MonthFromTime] above gives it. *)
Definition MakeDay (year month date : Z) : Z :=
  days_from_civil year month 1 + date - 1.

(** [date.setHours(hour, 0, 0, 0)]: the new time value. *)
Definition setHours (c : Clock) (time hour : Z) : Z :=
  let t := LocalTime c time in
  UTC c (MakeDate (Day t) (MakeTime hour 0 0 0)).

(** [date.getDate()] *)
Definition getDate (c : Clock) (time : Z) : Z := DateFromTime (LocalTime c time).

(** [date.setDate(dt)]: the new time value. *)
Definition setDate (c : Clock) (time dt : Z) : Z :=
  let t := LocalTime c time in
  UTC c (MakeDate (MakeDay (YearFromTime t) (MonthFromTime t) dt) (TimeWithinDay t)).

(** [Math.ceil(a / b)] for integers, [b] positive. *)
Definition ceilDiv (a b : Z) : Z := - ((- a) / b).

(** The two [new Date()] of the function read the clock at the same
    instant. *)
Definition calculateDelayToNextTargetTime (c : Clock) (targetHour : Z) : Z :=
  let now := Freshness.now c in
  let target := setHours c now targetHour in
  let target := if target <=? now
                then setDate c target (getDate c target + 1)
                else target in
  let delayMs := target - now in
  ceilDiv delayMs (60 * 1000).

End AlarmScheduler.

(* ===================================================================== *)
(** * background/index.ts: install, refresh and alarm handlers            *)
(* ===================================================================== *)
Module Background.
Import JS Types Chrome BaseSource.

(** [{ ...config, sources }] after [config.sources.push(...)]. *)
Definition with_sources (config : AppConfig.t) (sources : list SourceConfig.t)
  : AppConfig.t :=
  AppConfig.mk sources (AppConfig.apiBaseUrl config) (AppConfig.apiKey config)
    (AppConfig.apiModel config) (AppConfig.theme config) (AppConfig.maxItems config).

(** The migration loop of [initializeData], from [defaults] on:
    [if (!existingIds.has(source.id)) { config.sources.push(source);
    changed = true }]. *)
Fixpoint addMissing (existingIds : gset string) (defaults : list SourceConfig.t)
  (sources : list SourceConfig.t) (changed : bool) : list SourceConfig.t * bool :=
  match defaults with
  | [] => (sources, changed)
  | source :: rest =>
      if negb (bool_decide (SourceConfig.id source ∈ existingIds))
      then addMissing existingIds rest (sources ++ [source]) true
      else addMissing existingIds rest sources changed
  end.

Definition refreshData (E : Engine) (registry : gmap string BaseSource.t) : M unit :=
  try_catch
    (let* config := Storage.getConfig in
     let* items := DataFetcher.fetchAllData E registry (AppConfig.sources config) in
     let limitedItems := slice0 items (AppConfig.maxItems config) in
     Storage.saveFeeds limitedItems ;;
     Storage.updateLastUpdate ;;
     Storage.updateDataMetadata)
    (fun error => logger_error "Refresh error:" (Some error)).

Definition initializeData (E : Engine) (registry : gmap string BaseSource.t) : M unit :=
  try_catch
    (let* config := Storage.getConfig in
     let existingIds : gset string :=
       list_to_set (map SourceConfig.id (AppConfig.sources config)) in
     let '(sources, changed) :=
       addMissing existingIds Storage.defaultSources (AppConfig.sources config) false in
     (if changed then Storage.saveConfig (with_sources config sources) else ret tt) ;;
     refreshData E registry)
    (fun error => logger_error "Initialization error:" (Some error)).

(** The listener of [chrome.alarms.onAlarm]. *)
Definition onAlarm (E : Engine) (registry : gmap string BaseSource.t)
  (alarmName : string) : M unit :=
  if String.eqb alarmName AlarmScheduler.DAILY_REFRESH then
    DataFetcher.setForceRefresh true ;;
    refreshData E registry ;;
    DataFetcher.setForceRefresh false
  else ret tt.

End Background.

(* ===================================================================== *)
(** * components/Sidebar/index.tsx: [loadFeeds]                           *)
(* ===================================================================== *)
Module Sidebar.
Import JS Types Chrome BaseSource.

(** The three maps of [loadFeeds]; each is only asked [has(key)]. *)
Record PinnedMaps : Type := mkMaps {
  pinnedByName : gset string;
  pinnedByUrl : gset string;
  pinnedByType : gset string
}.

(** The callback of [config.sources.forEach]. *)
Definition notePinned (maps : PinnedMaps) (source : SourceConfig.t) : PinnedMaps :=
  if DataFetcher.truthyFlag (SourceConfig.isPinned source) then
    mkMaps
      ({[ SourceConfig.name source ]} ∪ pinnedByName maps)
      (if truthyString (SourceConfig.url source)
       then {[ nullish (SourceConfig.url source) "" ]} ∪ pinnedByUrl maps
       else pinnedByUrl maps)
      (if negb (SourceType_eqb (SourceConfig.type source) RSS)
       then {[ SourceType_string (SourceConfig.type source) ]} ∪ pinnedByType maps
       else pinnedByType maps)
  else maps.

Definition pinnedMaps (sources : list SourceConfig.t) : PinnedMaps :=
  fold_left notePinned sources (mkMaps ∅ ∅ ∅).

Definition isDigit (c : ascii) : bool :=
  match JSDate.digit_value c with Some _ => true | None => false end.

(** The characters [.] does not match (line terminators). *)
Definition isLineTerminator (c : ascii) : bool :=
  let n := N_of_ascii c in ((n =? 10) || (n =? 13))%N.

Fixpoint dropDigits (l : list ascii) : list ascii :=
  match l with
  | c :: r => if isDigit c then dropDigits r else l
  | [] => []
  end.

(** [id.match(/^rss-(.+)-\d+$/)], the first group.  The digits of
    [\d+$] are the digits the string ends with, after its last [-]:
    a [-] is no digit, so no other split matches.  The group is what
    stands between the leading [rss-] and that [-]; it must not be
    empty nor hold a line terminator. *)
Definition matchRssId (id : string) : option string :=
  let reversed := rev (list_ascii_of_string id) in
  let front := dropDigits reversed in
  if (length front <? length reversed)%nat then
    match front with
    | "-"%char :: before =>
        match rev before with
        | "r"%char :: "s"%char :: "s"%char :: "-"%char :: group =>
            match group with
            | [] => None
            | _ :: _ =>
                if forallb (fun c => negb (isLineTerminator c)) group
                then Some (string_of_list_ascii group)
                else None
            end
        | _ => None
        end
    | _ => None
    end
  else None.

(** The callback of [storedFeeds.map]: the flag a feed item gets. *)
Definition syncedFlag (maps : PinnedMaps) (feed : FeedItem.t) : bool :=
  if SourceType_eqb (FeedItem.source feed) RSS then
    let byName :=
      bool_decide ((if truthyString (FeedItem.sourceName feed)
                    then nullish (FeedItem.sourceName feed) "" else "")
                   ∈ pinnedByName maps) in
    if negb byName && String.prefix "rss-" (FeedItem.id feed) then
      match matchRssId (FeedItem.id feed) with
      | Some group => bool_decide (group ∈ pinnedByUrl maps)
      | None => byName
      end
    else byName
  else bool_decide (SourceType_string (FeedItem.source feed) ∈ pinnedByType maps).

Definition syncPinned (maps : PinnedMaps) (feed : FeedItem.t) : FeedItem.t :=
  FeedItem.with_isPinned feed (Some (syncedFlag maps feed)).

(** [loadFeeds]: the list handed to [setFeeds].  The comparator is the
    one of [fetchAllData], word for word. *)
Definition loadFeeds (E : Engine) : M (list FeedItem.t) :=
  let* storedFeeds := Storage.getFeeds in
  let* config := Storage.getConfig in
  let maps := pinnedMaps (AppConfig.sources config) in
  let syncedFeeds := map (syncPinned maps) storedFeeds in
  ret (DataFetcher.sort (DataFetcher.compareItems E) syncedFeeds).

End Sidebar.

(* ===================================================================== *)
(** * Properties                                                          *)
(* ===================================================================== *)

(** Values the examples below share. *)
Module Fixtures.
Import JS Types Chrome BaseSource.

(** An engine whose [Date.parse] reads the ISO date-time format. *)
Definition isoEngine : Engine := mkEngine JSDate.parseISO.

(** 2024-03-11T00:00:05Z on a UTC clock. *)
Definition clock_after_midnight : Freshness.Clock :=
  Freshness.mkClock 1710115205000 0.

(** A store that takes every write. *)
Definition acceptsAll : gmap string StoredValue -> string -> StoredValue -> bool :=
  fun _ _ _ => false.

Definition hostOf (extension : bool)
  (refuses : gmap string StoredValue -> string -> StoredValue -> bool) : Host :=
  mkHost extension refuses clock_after_midnight.

Definition storeWith (h : Host) (entries : gmap string StoredValue) : Runtime :=
  mkRuntime h [] [] entries false.

(** The extension with an empty store, nothing logged, nothing fetched. *)
Definition idle : Runtime := storeWith (hostOf true acceptsAll) ∅.

Definition returned (c : Completion (list FeedItem.t)) : list FeedItem.t :=
  match c with Return l => l | Throw _ => [] end.

Definition sampleItem (id : string) (source : SourceType)
  (publishedAt : option string) : FeedItem.t :=
  FeedItem.mk id id source None ("https://example.org/" +:+ id) None publishedAt
    None None None None None None None.

End Fixtures.

(* ===================================================================== *)
(** * Time values and ISO strings: [toISOString] can be read back         *)
(* ===================================================================== *)
Module JSDateFacts.
Import JSDate.

Lemma digit_value_digit (d : Z) :
  0 <= d <= 9 -> digit_value (digit d) = Some d.
Proof.
  intros H.
  assert (Hd : d = 0 \/ d = 1 \/ d = 2 \/ d = 3 \/ d = 4 \/ d = 5 \/ d = 6 \/
               d = 7 \/ d = 8 \/ d = 9) by lia.
  repeat (destruct Hd as [-> | Hd]; [reflexivity|]). now subst.
Qed.

Lemma list_ascii_app (a b : string) :
  list_ascii_of_string (a +:+ b) = list_ascii_of_string a ++ list_ascii_of_string b.
Proof.
  induction a as [|c a IH]; simpl; [reflexivity|]. now rewrite IH.
Qed.

(** Reading [k] digits gives back the number [pad k] wrote. *)
Lemma take_digits_pad (k : nat) :
  forall (n : Z) (rest : list ascii),
    0 <= n < 10 ^ Z.of_nat k ->
    take_digits k (list_ascii_of_string (pad k n) ++ rest) = Some (n, rest).
Proof.
  induction k as [|k IH]; intros n rest Hn.
  - simpl in *. f_equal. f_equal. lia.
  - rewrite Nat2Z.inj_succ, Z.pow_succ_r in Hn by lia.
    cbn [pad take_digits]. rewrite list_ascii_app, <- app_assoc.
    rewrite IH.
    + simpl. rewrite digit_value_digit.
      * f_equal. f_equal. pose proof (Z.div_mod n 10). lia.
      * pose proof (Z.mod_pos_bound n 10). lia.
    + split.
      * apply Z.div_pos; lia.
      * apply Z.div_lt_upper_bound; lia.
Qed.

(** ** The calendar: days to civil date and back *)

(** The part of [civil_from_days] within one 400-year era, on the day of
    the era [doe]: year of the era, month, day. *)
Definition civil_of_doe (doe : Z) : Z * Z * Z :=
  let yoe := (doe - doe / 1460 + doe / 36524 - doe / 146096) / 365 in
  let doy := doe - (365 * yoe + yoe / 4 - yoe / 100) in
  let mp := (5 * doy + 2) / 153 in
  let d := doy - (153 * mp + 2) / 5 + 1 in
  let m := if mp <? 10 then mp + 3 else mp - 9 in
  (yoe, m, d).

Definition doe_of_civil (yoe m d : Z) : Z :=
  let doy := (153 * (if 2 <? m then m - 3 else m + 9) + 2) / 5 + d - 1 in
  yoe * 365 + yoe / 4 - yoe / 100 + doy.

Definition era_day_ok (doe : Z) : bool :=
  let '(yoe, m, d) := civil_of_doe doe in
  (0 <=? yoe) && (yoe <=? 399) && (1 <=? m) && (m <=? 12) && (1 <=? d) && (d <=? 31)
  && (doe_of_civil yoe m d =? doe).

(** [p] holds of 0, 1, ..., n - 1. *)
Definition all_below (n : N) (p : Z -> bool) : bool :=
  snd (N.iter n (fun st : Z * bool => (fst st + 1, snd st && p (fst st))) (0, true)).

Lemma all_below_spec (n : N) (p : Z -> bool) :
  all_below n p = true -> forall z, 0 <= z < Z.of_N n -> p z = true.
Proof.
  unfold all_below.
  set (step := fun st : Z * bool => (fst st + 1, snd st && p (fst st))).
  assert (Hinv : forall k,
             fst (N.iter k step (0, true)) = Z.of_N k /\
             (snd (N.iter k step (0, true)) = true ->
              forall z, 0 <= z < Z.of_N k -> p z = true)).
  { induction k as [|k [IHf IHs]] using N.peano_ind.
    - split; [reflexivity|]. intros _ z Hz. lia.
    - rewrite N.iter_succ. unfold step at 1. cbn [fst snd]. split.
      + rewrite IHf. lia.
      + intros H z Hz. apply andb_prop in H. destruct H as [Hs Hp].
        destruct (Z.eq_dec z (Z.of_N k)) as [-> | Hne].
        * now rewrite IHf in Hp.
        * apply IHs; [assumption | lia]. }
  intros H. apply (Hinv n). exact H.
Qed.

(** Every day of an era, checked one by one. *)
Lemma era_days_ok : all_below 146097 era_day_ok = true.
Proof. vm_compute. reflexivity. Qed.

Lemma era_day (doe : Z) : 0 <= doe < 146097 -> era_day_ok doe = true.
Proof. intros H. apply (all_below_spec 146097 _ era_days_ok). lia. Qed.

Lemma civil_from_days_era (z : Z) :
  civil_from_days z =
    let era := (z + 719468) / 146097 in
    let '(yoe, m, d) := civil_of_doe ((z + 719468) mod 146097) in
    (if m <=? 2 then yoe + era * 400 + 1 else yoe + era * 400, m, d).
Proof. reflexivity. Qed.

Lemma days_from_civil_from_days (z : Z) :
  let '(y, m, d) := civil_from_days z in
  days_from_civil y m d = z /\ 1 <= m <= 12 /\ 1 <= d <= 31 /\
  (z + 719468) / 146097 * 400 <= y <= (z + 719468) / 146097 * 400 + 400.
Proof.
  rewrite civil_from_days_era. cbv zeta.
  pose proof (Z.mod_pos_bound (z + 719468) 146097 ltac:(lia)) as Hdoe.
  pose proof (era_day _ Hdoe) as Hok. unfold era_day_ok in Hok.
  destruct (civil_of_doe ((z + 719468) mod 146097)) as [[yoe m] d].
  repeat (apply andb_prop in Hok; destruct Hok as [Hok ?]).
  repeat match goal with
         | H : (_ <=? _) = true |- _ => apply Z.leb_le in H
         | H : (_ =? _) = true |- _ => apply Z.eqb_eq in H
         end.
  set (era := (z + 719468) / 146097).
  split; [|split; [lia|split; [lia|destruct (m <=? 2); lia]]].
  unfold days_from_civil. unfold doe_of_civil in *.
  assert (Hy : (if m <=? 2
                then (if m <=? 2 then yoe + era * 400 + 1 else yoe + era * 400) - 1
                else (if m <=? 2 then yoe + era * 400 + 1 else yoe + era * 400))
               = yoe + era * 400).
  { destruct (m <=? 2); lia. }
  rewrite Hy.
  assert (Hq : (yoe + era * 400) / 400 = era).
  { rewrite Z.div_add by lia. rewrite Z.div_small by lia. lia. }
  assert (Hr : (yoe + era * 400) mod 400 = yoe).
  { rewrite Z.mod_add by lia. apply Z.mod_small. lia. }
  rewrite Hq, Hr.
  pose proof (Z.div_mod (z + 719468) 146097 ltac:(lia)) as Hdm.
  fold era in Hdm. lia.
Qed.

(** ** The time within the day *)

Lemma time_fields (t : Z) :
  0 <= HourFromTime t <= 23 /\ 0 <= MinFromTime t <= 59 /\
  0 <= SecFromTime t <= 59 /\ 0 <= msFromTime t <= 999 /\
  MakeDate (Day t)
    (MakeTime (HourFromTime t) (MinFromTime t) (SecFromTime t) (msFromTime t)) = t.
Proof.
  unfold HourFromTime, MinFromTime, SecFromTime, msFromTime, MakeDate, MakeTime,
    Day, TimeWithinDay, msPerDay, msPerHour, msPerMinute, msPerSecond.
  pose proof (Z.div_mod t 86400000 ltac:(lia)) as H1.
  pose proof (Z.mod_pos_bound t 86400000 ltac:(lia)) as B1.
  set (w := t mod 86400000) in *.
  pose proof (Z.div_mod w 3600000 ltac:(lia)) as H2.
  pose proof (Z.mod_pos_bound w 3600000 ltac:(lia)) as B2.
  pose proof (Z.div_mod (w mod 3600000) 60000 ltac:(lia)) as H3.
  pose proof (Z.mod_pos_bound (w mod 3600000) 60000 ltac:(lia)) as B3.
  pose proof (Z.div_mod w 60000 ltac:(lia)) as H4.
  pose proof (Z.mod_pos_bound w 60000 ltac:(lia)) as B4.
  pose proof (Z.div_mod (w mod 60000) 1000 ltac:(lia)) as H5.
  pose proof (Z.mod_pos_bound (w mod 60000) 1000 ltac:(lia)) as B5.
  pose proof (Z.div_mod w 1000 ltac:(lia)) as H6.
  pose proof (Z.mod_pos_bound w 1000 ltac:(lia)) as B6.
  assert (E1 : (w mod 3600000) mod 60000 = w mod 60000).
  { apply (Z.mod_unique w 60000 (60 * (w / 3600000) + (w mod 3600000) / 60000));
      [left; lia | lia]. }
  assert (E2 : (w mod 60000) mod 1000 = w mod 1000).
  { apply (Z.mod_unique w 1000 (60 * (w / 60000) + (w mod 60000) / 1000));
      [left; lia | lia]. }
  repeat split; lia.
Qed.

(** ** The year *)

Lemma take_year_digit (d : Z) (r : list ascii) :
  0 <= d <= 9 -> take_year (digit d :: r) = take_digits 4 (digit d :: r).
Proof.
  intros H.
  assert (Hd : d = 0 \/ d = 1 \/ d = 2 \/ d = 3 \/ d = 4 \/ d = 5 \/ d = 6 \/
               d = 7 \/ d = 8 \/ d = 9) by lia.
  repeat (destruct Hd as [-> | Hd]; [reflexivity|]). now subst.
Qed.

Lemma take_year_isoYear (y : Z) (rest : list ascii) :
  -999999 <= y <= 999999 ->
  take_year (list_ascii_of_string (isoYear y) ++ rest) = Some (y, rest).
Proof.
  intros Hy. unfold isoYear.
  destruct (Z.leb_spec 0 y); cbn [andb].
  - destruct (Z.leb_spec y 9999).
    + assert (Hhead : exists d l,
                list_ascii_of_string (pad 4 y) ++ rest = digit d :: l /\
                0 <= d <= 9).
      { eexists _, _. split.
        - cbn [pad]. rewrite !list_ascii_app. simpl. reflexivity.
        - match goal with
          | |- 0 <= ?a mod 10 <= 9 => pose proof (Z.mod_pos_bound a 10); lia
          end. }
      destruct Hhead as (d & l & Hl & Hd).
      rewrite Hl, take_year_digit by assumption. rewrite <- Hl.
      apply take_digits_pad. simpl. lia.
    + destruct (Z.ltb_spec y 0); [lia|]. cbn [list_ascii_of_string app take_year].
      rewrite take_digits_pad by (simpl; lia). reflexivity.
  - destruct (Z.ltb_spec y 0); [|lia]. cbn [list_ascii_of_string app take_year].
    rewrite take_digits_pad by (simpl; lia).
    destruct (Z.eqb_spec (- y) 0); [lia|]. f_equal. f_equal. lia.
Qed.

Lemma year_of_valid_time (t : Z) :
  validTime t = true -> -999999 <= YearFromTime t <= 999999.
Proof.
  unfold validTime, maxTime. intros H. apply andb_prop in H.
  destruct H as [Hlo Hhi]. apply Z.leb_le in Hlo, Hhi.
  unfold YearFromTime.
  pose proof (days_from_civil_from_days (Day t)) as Hc.
  destruct (civil_from_days (Day t)) as [[y m] d]. simpl.
  destruct Hc as (_ & _ & _ & Hy).
  assert (Hday : -100000000 <= Day t <= 100000000).
  { unfold Day, msPerDay. split.
    - apply Z.div_le_lower_bound; lia.
    - apply Z.div_le_upper_bound; lia. }
  assert (Hera : -680 <= (Day t + 719468) / 146097 <= 690).
  { split.
    - apply Z.div_le_lower_bound; lia.
    - apply Z.div_le_upper_bound; lia. }
  lia.
Qed.

Lemma expect_char (c : ascii) (rest : list ascii) :
  expect c (list_ascii_of_string (String c EmptyString) ++ rest) = Some rest.
Proof. simpl. now rewrite Ascii.eqb_refl. Qed.

(** [Date.parse(x.toISOString())] is the time value of [x]. *)
Theorem parseISO_toISOString (t : Z) :
  validTime t = true -> parseISO (toISOString t) = Some t.
Proof.
  intros Hvalid.
  pose proof (year_of_valid_time t Hvalid) as Hyear.
  pose proof (time_fields t) as (Hh & Hmi & Hs & Hms & Htime).
  pose proof (days_from_civil_from_days (Day t)) as Hc.
  unfold toISOString, parseISO.
  unfold YearFromTime, MonthFromTime, DateFromTime in *.
  destruct (civil_from_days (Day t)) as [[y m] d]. simpl fst in *. simpl snd in *.
  destruct Hc as (Hdays & Hm & Hd & _).
  rewrite !list_ascii_app.
  rewrite take_year_isoYear by assumption.
  rewrite expect_char, take_digits_pad by (simpl; lia).
  rewrite expect_char, take_digits_pad by (simpl; lia).
  rewrite expect_char, take_digits_pad by (simpl; lia).
  rewrite expect_char, take_digits_pad by (simpl; lia).
  rewrite expect_char, take_digits_pad by (simpl; lia).
  rewrite expect_char.
  rewrite take_digits_pad by (simpl; lia).
  cbn [list_ascii_of_string].
  simpl app.
  unfold in_range.
  repeat match goal with
         | |- context [?a <=? ?b] =>
             destruct (Z.leb_spec a b); [|lia]
         end.
  simpl andb. cbv iota.
  rewrite Hdays, Htime, Hvalid. reflexivity.
Qed.

(** Two valid instants with the same ISO string are the same instant. *)
Corollary toISOString_injective (t1 t2 : Z) :
  validTime t1 = true -> validTime t2 = true ->
  toISOString t1 = toISOString t2 -> t1 = t2.
Proof.
  intros H1 H2 Heq.
  pose proof (parseISO_toISOString t1 H1) as P1.
  rewrite Heq, (parseISO_toISOString t2 H2) in P1. now injection P1.
Qed.

End JSDateFacts.

Example toISOString_epoch :
  JSDate.toISOString 0 = "1970-01-01T00:00:00.000Z".
Proof. reflexivity. Qed.

Example toISOString_sample :
  JSDate.toISOString 1700000000123 = "2023-11-14T22:13:20.123Z".
Proof. vm_compute. reflexivity. Qed.

Example toISOString_before_epoch :
  JSDate.toISOString (-1) = "1969-12-31T23:59:59.999Z".
Proof. vm_compute. reflexivity. Qed.

(* ===================================================================== *)
(** * Decimal numerals: [String(n)] and [parseInt]                        *)
(* ===================================================================== *)
Module DecimalFacts.
Import JS BaseSource JSDate.

(** The value of a list of decimal digits, most significant first. *)
Definition valueOf (ds : list Z) (start : Z) : Z :=
  fold_left (fun v d => 10 * v + d) ds start.

Definition isDigits (ds : list Z) : Prop := Forall (fun d => 0 <= d <= 9) ds.

Lemma showDigits_digits (fuel : nat) :
  forall (n : Z) (acc : string),
    0 <= n < 2 ^ Z.of_nat (S fuel) ->
    exists ds, ds <> [] /\ isDigits ds /\ valueOf ds 0 = n /\
      list_ascii_of_string (showDigits (S fuel) n acc) =
        map digit ds ++ list_ascii_of_string acc.
Proof.
  induction fuel as [|fuel IH]; intros n acc Hn.
  - exists [n]. change (2 ^ Z.of_nat 1) with 2 in Hn.
    assert (H10 : (n <? 10) = true) by (apply Z.ltb_lt; lia).
    assert (Hmod : n mod 10 = n) by (apply Z.mod_small; lia).
    cbn [showDigits]. rewrite H10, Hmod.
    split; [discriminate|]. split; [constructor; [lia|constructor]|].
    split; [cbn; lia|reflexivity].
  - change (showDigits (S (S fuel)) n acc)
      with (if n <? 10 then String (digit (n mod 10)) acc
            else showDigits (S fuel) (n / 10) (String (digit (n mod 10)) acc)).
    destruct (Z.ltb_spec n 10) as [Hlt|Hge].
    + exists [n]. assert (Hmod : n mod 10 = n) by (apply Z.mod_small; lia).
      rewrite Hmod. split; [discriminate|]. split; [constructor; [lia|constructor]|].
      split; [cbn; lia|reflexivity].
    + assert (Hdiv : 0 <= n / 10 < 2 ^ Z.of_nat (S fuel)).
      { rewrite Nat2Z.inj_succ, Z.pow_succ_r in Hn by lia.
        split; [apply Z.div_pos; lia|].
        apply Z.div_lt_upper_bound; lia. }
      destruct (IH (n / 10) (String (digit (n mod 10)) acc) Hdiv)
        as (ds & Hne & Hds & Hval & Hstr).
      exists (ds ++ [n mod 10]). split; [|split; [|split]].
      * destruct ds; discriminate.
      * apply Forall_app. split; [exact Hds|].
        constructor; [pose proof (Z.mod_pos_bound n 10); lia|constructor].
      * unfold valueOf in *. rewrite fold_left_app, Hval. cbn.
        pose proof (Z.div_mod n 10). lia.
      * rewrite Hstr, map_app, <- app_assoc. reflexivity.
Qed.

Lemma showNat_digits (n : Z) :
  0 <= n ->
  exists ds, ds <> [] /\ isDigits ds /\ valueOf ds 0 = n /\
    list_ascii_of_string (showNat n) = map digit ds.
Proof.
  intros Hn. unfold showNat.
  destruct (showDigits_digits (Z.to_nat (Z.log2 n)) n EmptyString) as (ds & H).
  - split; [exact Hn|].
    rewrite Nat2Z.inj_succ, Z2Nat.id by apply Z.log2_nonneg.
    destruct (Z.eq_dec n 0) as [->|Hnz]; [reflexivity|].
    apply Z.log2_spec. lia.
  - exists ds. cbn [list_ascii_of_string] in H. rewrite app_nil_r in H. exact H.
Qed.

Lemma digits_prefix_digits (ds : list Z) :
  forall (rest : list ascii) (acc : option Z),
    isDigits ds -> ds <> [] ->
    digits_prefix (map digit ds ++ rest) acc =
      digits_prefix rest (Some (valueOf ds (nullish acc 0))).
Proof.
  induction ds as [|d ds IH]; intros rest acc Hds Hne; [contradiction|].
  inversion Hds as [|? ? Hd Hds']; subst.
  cbn [map app digits_prefix]. rewrite (JSDateFacts.digit_value_digit d Hd).
  destruct ds as [|d' ds'].
  - reflexivity.
  - rewrite (IH rest _ Hds' ltac:(discriminate)). reflexivity.
Qed.

Lemma digit_not_space (d : Z) : 0 <= d <= 9 -> is_space (digit d) = false.
Proof.
  intros Hd.
  assert (Hcases : d = 0 \/ d = 1 \/ d = 2 \/ d = 3 \/ d = 4 \/ d = 5 \/ d = 6 \/
                   d = 7 \/ d = 8 \/ d = 9) by lia.
  repeat (destruct Hcases as [->|Hcases]; [reflexivity|]). subst. reflexivity.
Qed.

Lemma digit_not_sign (d : Z) :
  0 <= d <= 9 -> digit d <> "-"%char /\ digit d <> "+"%char.
Proof.
  intros Hd.
  assert (Hcases : d = 0 \/ d = 1 \/ d = 2 \/ d = 3 \/ d = 4 \/ d = 5 \/ d = 6 \/
                   d = 7 \/ d = 8 \/ d = 9) by lia.
  repeat (destruct Hcases as [->|Hcases]; [split; discriminate|]).
  subst. split; discriminate.
Qed.

Lemma string_of_digits (s : string) (l : list ascii) :
  list_ascii_of_string s = l -> s = string_of_list_ascii l.
Proof. intros <-. symmetry. apply string_of_list_ascii_of_string. Qed.

Lemma trim_digits (ds : list Z) :
  isDigits ds ->
  trim (string_of_list_ascii (map digit ds)) = string_of_list_ascii (map digit ds).
Proof.
  intros Hds. unfold trim.
  assert (Hend : forall l, isDigits l ->
            trimEnd (string_of_list_ascii (map digit l)) =
              string_of_list_ascii (map digit l)).
  { clear. induction l as [|d l IH]; intros Hl; [reflexivity|].
    inversion Hl as [|? ? Hd Hl']; subst.
    cbn [map string_of_list_ascii]. cbn [trimEnd]. rewrite (IH Hl').
    rewrite (digit_not_space d Hd).
    destruct (string_of_list_ascii (map digit l)); reflexivity. }
  destruct ds as [|d ds]; [reflexivity|].
  inversion Hds as [|? ? Hd Hds']; subst.
  assert (Hstart : trimStart (string_of_list_ascii (map digit (d :: ds))) =
                   string_of_list_ascii (map digit (d :: ds))).
  { cbn [map string_of_list_ascii trimStart]. rewrite (digit_not_space d Hd). reflexivity. }
  rewrite Hstart. apply Hend. exact Hds.
Qed.

(** [parseInt(String(n), 10)] is [n], and [String(n)] has no white space
    around it. *)
Lemma parseInt10_showZ (n : Z) :
  parseInt10 (showZ n) = Some n /\ trim (showZ n) = showZ n.
Proof.
  unfold showZ. destruct (Z.ltb_spec n 0) as [Hneg|Hpos].
  - destruct (showNat_digits (- n) ltac:(lia)) as (ds & Hne & Hds & Hval & Hstr).
    apply string_of_digits in Hstr. rewrite Hstr. split.
    + unfold parseInt10. cbn [trimStart]. change (is_space "-") with false. cbv iota.
      cbn [list_ascii_of_string]. rewrite list_ascii_of_string_of_list_ascii.
      rewrite <- (app_nil_r (map digit ds)).
      rewrite (digits_prefix_digits ds [] None Hds Hne).
      cbn [digits_prefix nullish option_map]. rewrite Hval. f_equal. lia.
    + unfold trim. cbn [trimStart]. change (is_space "-") with false. cbv iota.
      cbn [trimEnd]. change (is_space "-") with false.
      pose proof (trim_digits ds Hds) as Ht. unfold trim in Ht.
      destruct ds as [|d ds']; [contradiction|].
      inversion Hds as [|? ? Hd Hds']; subst.
      cbn [map string_of_list_ascii] in *. cbn [trimStart] in Ht.
      rewrite (digit_not_space d Hd) in Ht. rewrite Ht. reflexivity.
  - destruct (showNat_digits n Hpos) as (ds & Hne & Hds & Hval & Hstr).
    apply string_of_digits in Hstr. rewrite Hstr. split.
    + unfold parseInt10. pose proof (trim_digits ds Hds) as Ht.
      destruct ds as [|d ds']; [contradiction|].
      inversion Hds as [|? ? Hd Hds']; subst.
      cbn [map string_of_list_ascii trimStart]. rewrite (digit_not_space d Hd).
      cbn [list_ascii_of_string]. rewrite list_ascii_of_string_of_list_ascii.
      destruct (digit_not_sign d Hd) as [Hm Hp].
      assert (Hgo : forall c l,
                c <> "-"%char -> c <> "+"%char ->
                match c :: l with
                | "-"%char :: r => option_map Z.opp (digits_prefix r None)
                | "+"%char :: r => digits_prefix r None
                | l0 => digits_prefix l0 None
                end = digits_prefix (c :: l) None).
      { clear. intros c l Hm Hp.
        destruct c as [[] [] [] [] [] [] [] []]; try reflexivity; congruence. }
      rewrite (Hgo _ _ Hm Hp).
      change (digit d :: map digit ds') with (map digit (d :: ds')).
      rewrite <- (app_nil_r (map digit (d :: ds'))).
      rewrite (digits_prefix_digits (d :: ds') [] None Hds Hne).
      reflexivity.
    + apply trim_digits. exact Hds.
Qed.

(** Two integers with the same numeral are the same integer. *)
Lemma showZ_injective (a b : Z) : showZ a = showZ b -> a = b.
Proof.
  intros H. pose proof (proj1 (parseInt10_showZ a)) as Ha.
  rewrite H, (proj1 (parseInt10_showZ b)) in Ha. congruence.
Qed.

End DecimalFacts.

(* ===================================================================== *)
(** * BaseSource: timestamp coercion                                      *)
(* ===================================================================== *)
Module BaseSourceFacts.
Import JS BaseSource JSDate.

Section Coercion.
Variable E : Engine.

Lemma isoOfDate_newDate (t : Z) :
  validTime t = true -> isoOfDate (newDate t) = Some (toISOString t).
Proof. intros H. unfold newDate. now rewrite H. Qed.

Lemma isoOfDate_invalid (t : Z) :
  validTime t = false -> isoOfDate (newDate t) = None.
Proof. intros H. unfold newDate. now rewrite H. Qed.

(** The instant an input denotes, when it denotes one: a valid Date, a
    number in the given unit, a string the engine's [Date.parse]
    accepts, or else a string that is exactly a decimal integer, read as
    a number in the given unit. *)
Definition instantOf (timestamp : Timestamp) (unit : TimeUnit) : option Z :=
  match timestamp with
  | TsUndefined | TsNull | TsNaN => None
  | TsDate date => date
  | TsNumber n => newDate (scale unit n)
  | TsString str =>
      match Date_parse E str with
      | Some t => newDate t
      | None =>
          match parseInt10 str with
          | Some n =>
              if String.eqb (showZ n) (trim str) then newDate (scale unit n) else None
          | None => None
          end
      end
  end.

(** Whatever [parseTimestamp] returns is the ISO string of the instant
    of its input; without such an instant it returns [undefined]. *)
Lemma parseTimestamp_instant (timestamp : Timestamp) (unit : TimeUnit) :
  parseTimestamp E timestamp unit =
    option_map toISOString (instantOf timestamp unit).
Proof.
  destruct timestamp as [| |date|n| |str]; simpl; try reflexivity.
  destruct (Date_parse E str) as [t|]; [reflexivity|].
  destruct (parseInt10 str) as [n|]; [|reflexivity].
  now destruct (String.eqb (showZ n) (trim str)).
Qed.

(** C5. Epoch seconds (unit 's'), epoch milliseconds, and every string
    the engine's [Date.parse] reads (ISO 8601, RFC 2822) come back as
    the ISO string of the same instant: reading the result back gives
    the instant of the input.  An absent input, and a string that
    neither [Date.parse] reads nor is a decimal integer, give
    [undefined]; no result is made up: a returned string is always the
    ISO string of the instant the input denotes. *)
Theorem parseTimestamp_same_instant_or_undefined :
  (forall unit, parseTimestamp E TsUndefined unit = None /\
                parseTimestamp E TsNull unit = None) /\
  (forall n, validTime (n * 1000) = true ->
     parseTimestamp E (TsNumber n) unit_s = Some (toISOString (n * 1000)) /\
     parseISO (toISOString (n * 1000)) = Some (n * 1000)) /\
  (forall n, validTime n = true ->
     parseTimestamp E (TsNumber n) unit_ms = Some (toISOString n) /\
     parseISO (toISOString n) = Some n) /\
  (forall str t unit, Date_parse E str = Some t -> validTime t = true ->
     parseTimestamp E (TsString str) unit = Some (toISOString t) /\
     parseISO (toISOString t) = Some t) /\
  (forall str unit,
     Date_parse E str = None ->
     (forall n, parseInt10 str = Some n -> showZ n <> trim str) ->
     parseTimestamp E (TsString str) unit = None) /\
  (forall timestamp unit iso,
     parseTimestamp E timestamp unit = Some iso ->
     exists t, instantOf timestamp unit = Some t /\ iso = toISOString t).
Proof.
  split; [|split; [|split; [|split; [|split]]]].
  - intros unit. split; reflexivity.
  - intros n Hv. split.
    + simpl. now apply isoOfDate_newDate.
    + now apply JSDateFacts.parseISO_toISOString.
  - intros n Hv. split.
    + simpl. now apply isoOfDate_newDate.
    + now apply JSDateFacts.parseISO_toISOString.
  - intros str t unit Hp Hv. split.
    + simpl. rewrite Hp. now apply isoOfDate_newDate.
    + now apply JSDateFacts.parseISO_toISOString.
  - intros str unit Hp Hint. simpl. rewrite Hp.
    destruct (parseInt10 str) as [n|] eqn:Hn; [|reflexivity].
    destruct (String.eqb_spec (showZ n) (trim str)) as [Heq|]; [|reflexivity].
    exfalso. exact (Hint n eq_refl Heq).
  - intros timestamp unit iso H. rewrite parseTimestamp_instant in H.
    destruct (instantOf timestamp unit) as [t|]; [|discriminate].
    injection H as <-. now exists t.
Qed.

(** A number outside the range of time values, an Invalid Date and NaN
    give [undefined]. *)
Lemma parseTimestamp_invalid (n : Z) (unit : TimeUnit) :
  validTime (scale unit n) = false ->
  parseTimestamp E (TsNumber n) unit = None /\
  parseTimestamp E (TsDate None) unit = None /\
  parseTimestamp E TsNaN unit = None.
Proof.
  intros H. repeat split. simpl. now apply isoOfDate_invalid.
Qed.

(** On an engine that reads the ISO format back, as ECMA-262 requires,
    [parseTimestamp] leaves its own results as they are. *)
Lemma parseTimestamp_of_result (t : Z) (unit : TimeUnit) :
  (forall t', validTime t' = true -> Date_parse E (toISOString t') = Some t') ->
  validTime t = true ->
  parseTimestamp E (TsString (toISOString t)) unit = Some (toISOString t).
Proof.
  intros Hengine Hvalid. simpl. rewrite (Hengine t Hvalid).
  now apply isoOfDate_newDate.
Qed.

End Coercion.

(** An engine whose [Date.parse] reads the ISO format, and an RFC 2822
    date it is told about. *)
Definition sampleEngine : Engine :=
  mkEngine (fun str =>
    if String.eqb str "Tue, 14 Nov 2023 22:13:20 GMT" then Some 1700000000000
    else parseISO str).

Lemma parseTimestamp_same_instant_or_undefined_witness :
  parseTimestamp sampleEngine (TsString "Tue, 14 Nov 2023 22:13:20 GMT") unit_ms
    = Some (toISOString 1700000000000) /\
  parseTimestamp sampleEngine (TsString "next tuesday") unit_ms = None.
Proof.
  destruct (parseTimestamp_same_instant_or_undefined sampleEngine)
    as (_ & _ & _ & Hstr & Hbad & _).
  split.
  - apply (Hstr "Tue, 14 Nov 2023 22:13:20 GMT" 1700000000000 unit_ms);
      vm_compute; reflexivity.
  - apply (Hbad "next tuesday" unit_ms).
    + vm_compute. reflexivity.
    + intros n Hn. vm_compute in Hn. discriminate.
Defined.

Example parseTimestamp_seconds :
  parseTimestamp sampleEngine (TsNumber 1700000000) unit_s =
    Some "2023-11-14T22:13:20.000Z".
Proof. vm_compute. reflexivity. Qed.

Example parseTimestamp_milliseconds :
  parseTimestamp sampleEngine (TsNumber 1700000000123) unit_ms =
    Some "2023-11-14T22:13:20.123Z".
Proof. vm_compute. reflexivity. Qed.

Example parseTimestamp_iso :
  parseTimestamp sampleEngine (TsString "2023-11-14T22:13:20.123Z") unit_ms =
    Some "2023-11-14T22:13:20.123Z".
Proof. vm_compute. reflexivity. Qed.

Example parseTimestamp_rfc2822 :
  parseTimestamp sampleEngine (TsString "Tue, 14 Nov 2023 22:13:20 GMT") unit_ms =
    Some "2023-11-14T22:13:20.000Z".
Proof. vm_compute. reflexivity. Qed.

(** A string of digits is read as a number in the given unit. *)
Example parseTimestamp_numeric_string :
  parseTimestamp sampleEngine (TsString " 1700000000 ") unit_s =
    Some "2023-11-14T22:13:20.000Z".
Proof. vm_compute. reflexivity. Qed.

Example parseTimestamp_garbage :
  parseTimestamp sampleEngine (TsString "12 apples") unit_ms = None.
Proof. vm_compute. reflexivity. Qed.

Example parseTimestamp_out_of_range :
  parseTimestamp sampleEngine (TsNumber 8640000000000001) unit_ms = None.
Proof. vm_compute. reflexivity. Qed.

Example parseTimestamp_invalid_date_object :
  parseTimestamp sampleEngine (TsDate None) unit_ms = None.
Proof. reflexivity. Qed.

End BaseSourceFacts.

(* ===================================================================== *)
(** * Calendar days                                                       *)
(* ===================================================================== *)

(** What the freshness policy is stated against: the calendar day local
    time is in, and the text YYYY-MM-DD of a calendar day. *)
Module CalendarFacts.
Import JSDate Freshness.

(** The calendar day of local time on the clock [c], as a day number
    (days since 1 January 1970). *)
Definition localDay (c : Clock) : Z := Day (now c + tzOffset c).

(** The text of a calendar day: its year, and its month and day of the
    month in two digits each, as in 2024-03-11. *)
Definition calendarDate (day : Z) : string :=
  let '(year, month, dayOfMonth) := civil_from_days day in
  showZ year +:+ "-" +:+ pad 2 month +:+ "-" +:+ pad 2 dayOfMonth.

Lemma pad_length (k : nat) (n : Z) :
  length (list_ascii_of_string (pad k n)) = k.
Proof.
  revert n. induction k as [|k IH]; intros n; [reflexivity|].
  cbn [pad]. rewrite JSDateFacts.list_ascii_app, length_app, IH. simpl. lia.
Qed.

Lemma pad_injective (k : nat) (a b : Z) :
  0 <= a < 10 ^ Z.of_nat k -> 0 <= b < 10 ^ Z.of_nat k ->
  pad k a = pad k b -> a = b.
Proof.
  intros Ha Hb H.
  pose proof (JSDateFacts.take_digits_pad k a [] Ha) as Pa.
  rewrite H, (JSDateFacts.take_digits_pad k b [] Hb) in Pa. congruence.
Qed.

Lemma civil_from_days_injective (d1 d2 : Z) :
  civil_from_days d1 = civil_from_days d2 -> d1 = d2.
Proof.
  intros H.
  pose proof (JSDateFacts.days_from_civil_from_days d1) as H1.
  pose proof (JSDateFacts.days_from_civil_from_days d2) as H2.
  rewrite H in H1. destruct (civil_from_days d2) as [[y m] d].
  destruct H1 as [H1 _], H2 as [H2 _]. congruence.
Qed.

(** Different calendar days have different texts. *)
Lemma calendarDate_injective (d1 d2 : Z) :
  calendarDate d1 = calendarDate d2 -> d1 = d2.
Proof.
  intros H. apply civil_from_days_injective.
  unfold calendarDate in H.
  pose proof (JSDateFacts.days_from_civil_from_days d1) as H1.
  pose proof (JSDateFacts.days_from_civil_from_days d2) as H2.
  destruct (civil_from_days d1) as [[y1 m1] e1].
  destruct (civil_from_days d2) as [[y2 m2] e2].
  destruct H1 as (_ & Hm1 & He1 & _), H2 as (_ & Hm2 & He2 & _).
  apply (f_equal list_ascii_of_string) in H.
  rewrite !JSDateFacts.list_ascii_app in H.
  apply app_inj_2 in H.
  - destruct H as [Hy H]. apply app_inj_1 in H; [|reflexivity].
    destruct H as [_ H]. apply app_inj_1 in H.
    + destruct H as [Hm H]. apply app_inj_1 in H; [|reflexivity].
      destruct H as [_ Hd].
      assert (y1 = y2).
      { apply DecimalFacts.showZ_injective.
        rewrite <- (string_of_list_ascii_of_string (showZ y1)), Hy.
        apply string_of_list_ascii_of_string. }
      assert (m1 = m2).
      { apply (pad_injective 2); [simpl; lia | simpl; lia |].
        rewrite <- (string_of_list_ascii_of_string (pad 2 m1)), Hm.
        apply string_of_list_ascii_of_string. }
      assert (e1 = e2).
      { apply (pad_injective 2); [simpl; lia | simpl; lia |].
        rewrite <- (string_of_list_ascii_of_string (pad 2 e1)), Hd.
        apply string_of_list_ascii_of_string. }
      congruence.
    + rewrite !pad_length. reflexivity.
  - rewrite !length_app, !pad_length. reflexivity.
Qed.

(** [getTodayDateString] writes the calendar day of local time. *)
Lemma getTodayDateString_calendarDate (c : Clock) :
  getTodayDateString c = calendarDate (localDay c).
Proof.
  unfold getTodayDateString, localDateString, calendarDate, localDay,
    YearFromTime, MonthFromTime, DateFromTime.
  destruct (civil_from_days (Day (now c + tzOffset c))) as [[y m] d]. reflexivity.
Qed.

(** Two readings of the clock give the same date string exactly when
    they fall on the same local calendar day. *)
Lemma same_calendar_day (c1 c2 : Clock) :
  getTodayDateString c1 = getTodayDateString c2 <-> localDay c1 = localDay c2.
Proof.
  rewrite !getTodayDateString_calendarDate. split.
  - apply calendarDate_injective.
  - intros ->. reflexivity.
Qed.

Example calendarDate_samples :
  calendarDate 0 = "1970-01-01" /\ calendarDate 19793 = "2024-03-11" /\
  calendarDate (-1) = "1969-12-31".
Proof. vm_compute. repeat split; reflexivity. Qed.

End CalendarFacts.

(* ===================================================================== *)
(** * Freshness policy                                                    *)
(* ===================================================================== *)
Module FreshnessFacts.
Import Freshness Fixtures CalendarFacts.

Lemma falsyTime_spec (t : option Z) :
  falsyTime t = true <-> t = None \/ t = Some 0.
Proof.
  unfold falsyTime, JS.truthyZ. destruct t as [z|]; simpl.
  - rewrite negb_involutive, Z.eqb_eq. split.
    + intros ->. now right.
    + intros [H|H]; congruence.
  - split; auto.
Qed.

Lemma isNewDay_spec (c : Clock) (d : string) :
  isNewDay c d = true <-> d <> getTodayDateString c.
Proof.
  unfold isNewDay, isSameDay. rewrite negb_true_iff.
  destruct (String.eqb_spec d (getTodayDateString c)); split; congruence.
Qed.

(** A stored timestamp of 0 is read as no timestamp; on a clock past
    06:00 on 1 January 1970 its age exceeds the force threshold anyway. *)
Lemma zero_timestamp_forces (c : Clock) (md : DataMetadata) :
  lastUpdateTime md = Some 0 ->
  getRefreshStrategy c (Some md) = FORCE_REFRESH.
Proof. intros H. unfold getRefreshStrategy. now rewrite H. Qed.

Lemma isNewDay_calendar (c : Clock) (d : string) :
  isNewDay c d = true <-> d <> calendarDate (localDay c).
Proof. rewrite isNewDay_spec, getTodayDateString_calendarDate. reflexivity. Qed.

(** C1. [getRefreshStrategy(null)] and metadata without [lastUpdateTime]
    give FORCE; a stored [lastUpdateDate] other than the date of today's
    local calendar day gives FORCE whatever the age, in particular the
    date of any other calendar day; otherwise, with
    [age = now - lastUpdateTime], FORCE when [age > 6h], SILENT when
    [30min < age <= 6h], IMMEDIATE when [age <= 30min].  The code reads
    a timestamp of 0 as missing and forces; the last two cases are
    therefore stated for a timestamp other than 0 or a clock later than
    6 hours after the epoch (where a timestamp of 0 is older than 6
    hours anyway). *)
Theorem getRefreshStrategy_policy (c : Clock) :
  getRefreshStrategy c None = FORCE_REFRESH /\
  (forall md, lastUpdateTime md = None ->
     getRefreshStrategy c (Some md) = FORCE_REFRESH) /\
  (forall md t,
     lastUpdateTime md = Some t ->
     let age := now c - t in
     (lastUpdateDate md <> calendarDate (localDay c) ->
        getRefreshStrategy c (Some md) = FORCE_REFRESH) /\
     (forall day, lastUpdateDate md = calendarDate day -> day <> localDay c ->
        getRefreshStrategy c (Some md) = FORCE_REFRESH) /\
     (lastUpdateDate md = calendarDate (localDay c) ->
        (FORCE_THRESHOLD_MS < age ->
           getRefreshStrategy c (Some md) = FORCE_REFRESH) /\
        (t <> 0 \/ FORCE_THRESHOLD_MS < now c ->
           (SILENT_THRESHOLD_MS < age <= FORCE_THRESHOLD_MS ->
              getRefreshStrategy c (Some md) = SILENT_REFRESH) /\
           (age <= SILENT_THRESHOLD_MS ->
              getRefreshStrategy c (Some md) = IMMEDIATE_DISPLAY)))).
Proof.
  split; [reflexivity|]. split.
  - intros md H. unfold getRefreshStrategy. now rewrite H.
  - intros md t Ht age.
    destruct (Z.eq_dec t 0) as [-> | Hnz].
    + (* timestamp 0: FORCE by the guard *)
      rewrite (zero_timestamp_forces c md Ht).
      subst age. rewrite Z.sub_0_r.
      unfold FORCE_THRESHOLD_MS, SILENT_THRESHOLD_MS in *.
      split; [reflexivity|]. split; [reflexivity|]. intros _. split; [reflexivity|].
      intros [Hz | Hclock]; [congruence|]. split; intros; lia.
    + unfold getRefreshStrategy, falsyTime, calculateDataAge. rewrite Ht. simpl.
      destruct (Z.eqb_spec t 0) as [? | _]; [contradiction|]. simpl.
      fold age.
      destruct (isNewDay c (lastUpdateDate md)) eqn:Hday.
      * apply isNewDay_calendar in Hday.
        split; [reflexivity|]. split; [reflexivity|]. intros; contradiction.
      * assert (Hsame : lastUpdateDate md = calendarDate (localDay c)).
        { destruct (string_dec (lastUpdateDate md) (calendarDate (localDay c)))
            as [?|Hne]; auto.
          apply isNewDay_calendar in Hne. congruence. }
        split; [intros; contradiction|]. split.
        { intros day Hdate Hne. exfalso. apply Hne.
          apply calendarDate_injective. congruence. }
        intros _.
        unfold FORCE_THRESHOLD_MS, SILENT_THRESHOLD_MS in *.
        destruct (Z.ltb_spec (6 * 60 * 60 * 1000) age);
          destruct (Z.ltb_spec (30 * 60 * 1000) age);
          (split; [intros; auto; lia | intros _; split; intros; auto; lia]).
Qed.

(** Metadata written [ageMs] before [clock_after_midnight], with the
    stored date string [date]. *)
Definition metadata_sample (ageMs : Z) (date : string) : DataMetadata :=
  mkMetadata (Some (1710115205000 - ageMs)) date.

Lemma getRefreshStrategy_policy_witness :
  getRefreshStrategy clock_after_midnight
    (Some (metadata_sample (45 * 60 * 1000) "2024-03-11")) = SILENT_REFRESH /\
  getRefreshStrategy clock_after_midnight
    (Some (metadata_sample 15000 "2024-03-10")) = FORCE_REFRESH.
Proof.
  destruct (getRefreshStrategy_policy clock_after_midnight) as (_ & _ & H).
  split.
  - destruct (H (metadata_sample (45 * 60 * 1000) "2024-03-11")
                (1710115205000 - 45 * 60 * 1000) eq_refl) as (_ & _ & Hsame).
    destruct Hsame as (_ & Hfresh).
    + vm_compute. reflexivity.
    + destruct Hfresh as (Hsilent & _).
      * left. vm_compute. discriminate.
      * apply Hsilent. vm_compute. split; [reflexivity | discriminate].
  - destruct (H (metadata_sample 15000 "2024-03-10")
                (1710115205000 - 15000) eq_refl) as (_ & Hday & _).
    apply (Hday (localDay clock_after_midnight - 1)).
    + vm_compute. reflexivity.
    + lia.
Defined.

Example today_of_clock_after_midnight :
  getTodayDateString clock_after_midnight = "2024-03-11".
Proof. vm_compute. reflexivity. Qed.

(** The examples of the specification. *)
Example strategy_null :
  getRefreshStrategy clock_after_midnight None = FORCE_REFRESH.
Proof. reflexivity. Qed.

Example strategy_10min :
  getRefreshStrategy clock_after_midnight
    (Some (metadata_sample (10 * 60 * 1000) "2024-03-11")) = IMMEDIATE_DISPLAY.
Proof. vm_compute. reflexivity. Qed.

Example strategy_7h :
  getRefreshStrategy clock_after_midnight
    (Some (metadata_sample (7 * 60 * 60 * 1000) "2024-03-11")) = FORCE_REFRESH.
Proof. vm_compute. reflexivity. Qed.

(** Refreshed at 23:59:50, checked at 00:00:05: fifteen seconds old, and
    forced because the calendar date changed. *)
Example strategy_day_boundary :
  getRefreshStrategy clock_after_midnight
    (Some (metadata_sample 15000 "2024-03-10")) = FORCE_REFRESH.
Proof. vm_compute. reflexivity. Qed.

(** The two instants of that example are on consecutive calendar days. *)
Example day_boundary_calendar_days :
  calendarDate (localDay clock_after_midnight) = "2024-03-11" /\
  calendarDate (localDay (mkClock (1710115205000 - 15000) 0)) = "2024-03-10" /\
  localDay clock_after_midnight = localDay (mkClock (1710115205000 - 15000) 0) + 1.
Proof. vm_compute. repeat split; reflexivity. Qed.

(** The day is that of local time: at 22:30 UTC on 10 March, two hours
    east of Greenwich, it is 11 March already, and data stamped
    2024-03-10 an hour before is refreshed. *)
Example strategy_local_day :
  calendarDate (localDay (mkClock 1710109800000 7200000)) = "2024-03-11" /\
  calendarDate (localDay (mkClock 1710109800000 0)) = "2024-03-10" /\
  getRefreshStrategy (mkClock 1710109800000 7200000)
    (Some (mkMetadata (Some (1710109800000 - 3600000)) "2024-03-10")) = FORCE_REFRESH /\
  getRefreshStrategy (mkClock 1710109800000 0)
    (Some (mkMetadata (Some (1710109800000 - 3600000)) "2024-03-10")) = SILENT_REFRESH.
Proof. vm_compute. repeat split; reflexivity. Qed.

End FreshnessFacts.

(* ===================================================================== *)
(** * XML parser helpers: [ensureArray]                                   *)
(* ===================================================================== *)
Module XmlParserFacts.
Import XmlParser.

(** C8, as the code has it. [ensureArray(undefined)] is []; for a value
    [x] that is not an array, [ensureArray(x)] is [x] when [x] is truthy
    and [] when it is falsy (the empty string, 0, false, null); an array
    comes back as it is. *)
Theorem ensureArray_truthy_or_empty {T : Type} `{Truthy T} :
  ensureArray (@Absent T) = [] /\
  (forall x : T, truthy x = true -> ensureArray (One x) = [x]) /\
  (forall x : T, truthy x = false -> ensureArray (One x) = []) /\
  (forall a : list T, ensureArray (Many a) = a).
Proof.
  split; [reflexivity|]. split; [|split].
  - intros x Hx. unfold ensureArray, falsy. now rewrite Hx.
  - intros x Hx. unfold ensureArray, falsy. now rewrite Hx.
  - reflexivity.
Qed.

Lemma ensureArray_truthy_or_empty_witness :
  ensureArray (One "entry") = ["entry"] /\ ensureArray (One 0) = [].
Proof.
  destruct (ensureArray_truthy_or_empty (T := string)) as (_ & Htruthy & _).
  destruct (ensureArray_truthy_or_empty (T := Z)) as (_ & _ & Hfalsy & _).
  split.
  - apply (Htruthy "entry"). reflexivity.
  - apply (Hfalsy 0). reflexivity.
Defined.

(** The specification's sentence fails on a falsy scalar: an element with empty
    text parses to the empty string, and [ensureArray] drops it. *)
Lemma ensureArray_drops_empty_string :
  ensureArray (One "") = [] /\ ensureArray (One "") <> [""].
Proof. split; [reflexivity | discriminate]. Qed.

Example ensureArray_two : ensureArray (Many ["a"; "b"]) = ["a"; "b"].
Proof. reflexivity. Qed.

Example ensureArray_empty_array : ensureArray (@Many string []) = [].
Proof. reflexivity. Qed.

End XmlParserFacts.

(* ===================================================================== *)
(** * Source registry: isolated fan-out                                   *)
(* ===================================================================== *)
Module SourceRegistryFacts.
Import JS Types Chrome SourceRegistry Fixtures.

(** Registering a name twice is an error; a fresh name is registered. *)
Lemma register_duplicate (source : BaseSource.t) (sources : gmap string BaseSource.t) :
  has sources (BaseSource.name source) = true ->
  register source sources =
    Throw (Err ("Source " +:+ BaseSource.name source +:+ " is already registered")).
Proof.
  unfold has, register. now destruct (sources !! BaseSource.name source).
Qed.

Lemma register_fresh (source : BaseSource.t) (sources : gmap string BaseSource.t) :
  has sources (BaseSource.name source) = false ->
  exists sources',
    register source sources = Return sources' /\
    get sources' (BaseSource.name source) = Some source.
Proof.
  unfold has, register, get.
  destruct (sources !! BaseSource.name source); [discriminate|]. intros _.
  eexists. split; [reflexivity|]. apply lookup_insert_eq.
Qed.

Section FanOut.
Variable sources : gmap string BaseSource.t.
Variable options : option BaseSource.SourceFetchOptions.

(** The state after [console.error(msg, detail)]. *)
Definition logged (msg : string) (d : option Error) (s : Runtime) : Runtime :=
  set_console (console s ++ [mkLog LogError msg d]) s.

Lemma fetchFrom_unregistered (name : string) (s : Runtime) :
  sources !! name = None ->
  fetchFrom sources name options s =
    (Return [], logged ("Source " +:+ name +:+ " not found in registry") None s).
Proof.
  intros H. unfold fetchFrom, get. rewrite H. reflexivity.
Qed.

Lemma fetchFrom_throwing (name : string) (source : BaseSource.t) (e : Error)
  (s s1 : Runtime) :
  sources !! name = Some source ->
  BaseSource.fetch source options s = (Throw e, s1) ->
  fetchFrom sources name options s =
    (Return [], logged ("Error fetching from " +:+ name +:+ ":") (Some e) s1).
Proof.
  intros H Hf. unfold fetchFrom, get, try_catch. rewrite H, Hf. reflexivity.
Qed.

Lemma fetchFrom_returning (name : string) (source : BaseSource.t)
  (items : list FeedItem.t) (s s1 : Runtime) :
  sources !! name = Some source ->
  BaseSource.fetch source options s = (Return items, s1) ->
  fetchFrom sources name options s = (Return items, s1).
Proof.
  intros H Hf. unfold fetchFrom, get, try_catch. rewrite H, Hf. reflexivity.
Qed.

Lemma fetchFrom_never_throws (name : string) (s : Runtime) :
  exists items s', fetchFrom sources name options s = (Return items, s').
Proof.
  destruct (sources !! name) as [source|] eqn:H.
  - destruct (BaseSource.fetch source options s) as [[items|e] s1] eqn:Hf.
    + eexists _, _. eapply fetchFrom_returning; eauto.
    + eexists _, _. eapply fetchFrom_throwing; eauto.
  - eexists _, _. now apply fetchFrom_unregistered.
Qed.

(** What each name gives, in the order of the names: [fetchFrom] run for
    one name after the other. *)
Fixpoint eachResult (names : list string) (s : Runtime)
  : list (list FeedItem.t) * Runtime :=
  match names with
  | [] => ([], s)
  | name :: rest =>
      let '(c, s1) := fetchFrom sources name options s in
      let '(rs, s2) := eachResult rest s1 in
      (match c with Return items => items | Throw _ => [] end :: rs, s2)
  end.

Lemma allSettled_fetchFrom (names : list string) (s : Runtime) :
  allSettled (map (fun name => fetchFrom sources name options) names) s =
    (Return (map fulfilled (fst (eachResult names s))), snd (eachResult names s)).
Proof.
  revert s. induction names as [|name rest IH]; intros s; simpl.
  - reflexivity.
  - destruct (fetchFrom_never_throws name s) as (items & s1 & Hf).
    rewrite Hf. rewrite IH.
    destruct (eachResult rest s1) as [rs s2]. reflexivity.
Qed.

Lemma fold_pushFulfilled (rs : list (list FeedItem.t)) (acc : list FeedItem.t) :
  fold_left pushFulfilled (map fulfilled rs) acc = acc ++ concat rs.
Proof.
  revert acc. induction rs as [|r rs IH]; intros acc; simpl.
  - now rewrite app_nil_r.
  - rewrite IH. now rewrite app_assoc.
Qed.

(** C3. [fetchFromMany] never throws; an unregistered name and a name
    whose adapter throws each give the empty list and a console error;
    the returned list is the concatenation of what the names give, in the
    order of the names. *)
Theorem fetchFromMany_isolates_failures (names : list string) (s : Runtime) :
  fetchFromMany sources names options s =
    (Return (concat (fst (eachResult names s))), snd (eachResult names s)) /\
  (forall name s0,
     sources !! name = None ->
     fetchFrom sources name options s0 =
       (Return [], logged ("Source " +:+ name +:+ " not found in registry") None s0)) /\
  (forall name source e s0 s1,
     sources !! name = Some source ->
     BaseSource.fetch source options s0 = (Throw e, s1) ->
     fetchFrom sources name options s0 =
       (Return [], logged ("Error fetching from " +:+ name +:+ ":") (Some e) s1)) /\
  (forall name source items s0 s1,
     sources !! name = Some source ->
     BaseSource.fetch source options s0 = (Return items, s1) ->
     fetchFrom sources name options s0 = (Return items, s1)).
Proof.
  split; [|split; [|split]].
  - unfold fetchFromMany, bind. rewrite allSettled_fetchFrom.
    unfold ret. now rewrite fold_pushFulfilled.
  - intros. now apply fetchFrom_unregistered.
  - intros. eapply fetchFrom_throwing; eauto.
  - intros. eapply fetchFrom_returning; eauto.
Qed.

End FanOut.

(** The example of the specification: adapter A returns two items,
    adapter B throws. *)
Definition plainItem (id title : string) : FeedItem.t :=
  FeedItem.mk id title Custom None "" None None None None None None None None None.

Definition adapterA : BaseSource.t :=
  BaseSource.mkSource "A"
    (fun _ => ret [plainItem "a-1" "first"; plainItem "a-2" "second"]).

Definition adapterB : BaseSource.t :=
  BaseSource.mkSource "B" (fun _ => throw (Err "boom")).

Definition registryAB : gmap string BaseSource.t :=
  <["A" := adapterA]> (<["B" := adapterB]> ∅).

Lemma fetchFromMany_isolates_failures_witness :
  fetchFrom registryAB "B" None idle =
    (Return [], logged "Error fetching from B:" (Some (Err "boom")) idle).
Proof.
  destruct (fetchFromMany_isolates_failures registryAB None [] idle)
    as (_ & _ & Hthrow & _).
  apply (Hthrow "B" adapterB (Err "boom") idle idle).
  - vm_compute. reflexivity.
  - reflexivity.
Defined.

Example fetchFromMany_A_and_B :
  fetchFromMany registryAB ["A"; "B"] None idle =
    (Return [plainItem "a-1" "first"; plainItem "a-2" "second"],
     logged "Error fetching from B:" (Some (Err "boom")) idle).
Proof. vm_compute. reflexivity. Qed.

Example fetchFromMany_unregistered_name :
  fetchFromMany registryAB ["C"; "A"] None idle =
    (Return [plainItem "a-1" "first"; plainItem "a-2" "second"],
     logged "Source C not found in registry" None idle).
Proof. vm_compute. reflexivity. Qed.

End SourceRegistryFacts.

(* ===================================================================== *)
(** * Hacker News adapter: over-fetch, score filter, truncation           *)
(* ===================================================================== *)
Module HackerNewsFacts.
Import JS Types Chrome BaseSource HackerNewsSource Fixtures.

Lemma slice0_firstn {A} (l : list A) (e : Z) :
  0 <= e -> slice0 l e = firstn (Z.to_nat e) l.
Proof.
  intros H. unfold slice0. destruct (Z.ltb_spec e 0); [lia | reflexivity].
Qed.

Lemma slice0_length {A} (l : list A) (e : Z) :
  0 <= e -> Z.of_nat (length (slice0 l e)) <= e.
Proof.
  intros H. rewrite slice0_firstn by assumption.
  rewrite length_firstn. lia.
Qed.

(** What one detail request ends in, as a function of the network. *)
Definition detailOutcome (net : Network) (id : Z)
  : Completion (option HackerNewsItem) :=
  match item net id with
  | Throw e => Throw e
  | Return r =>
      if ok r then body r
      else Throw (Err (sourceName +:+ " API error: " +:+ JSDate.showZ (status r)
                       +:+ " " +:+ statusText r))
  end.

Lemma fetchDetail_run (net : Network) (id : Z) (s : Runtime) :
  fetchDetail net id s =
    (detailOutcome net id, set_requests (requests s ++ [itemUrl id]) s).
Proof.
  unfold fetchDetail, detailOutcome, safeFetch, BaseSource.http_fetch, bind, lift, throw, ret.
  destruct (item net id) as [r|e]; [|reflexivity].
  destruct (ok r); reflexivity.
Qed.

Lemma allSettled_fetchDetail (net : Network) (ids : list Z) (s : Runtime) :
  allSettled (map (fetchDetail net) ids) s =
    (Return (map (fun id => settle (detailOutcome net id)) ids),
     set_requests (requests s ++ map itemUrl ids) s).
Proof.
  revert s. induction ids as [|id rest IH]; intros s; simpl.
  - unfold ret. rewrite app_nil_r. now destruct s.
  - rewrite fetchDetail_run, IH. simpl.
    rewrite <- app_assoc. reflexivity.
Qed.

Lemma filterByScore_scores (minScore : Z) (items : list (option HackerNewsItem))
  (kept : list HackerNewsItem) :
  filterByScore minScore items = Return kept ->
  Forall (fun it => minScore <= score it) kept.
Proof.
  revert kept. induction items as [|[it|] rest IH]; intros kept H; simpl in H.
  - injection H as <-. constructor.
  - destruct (filterByScore minScore rest) as [k|e]; [|discriminate].
    injection H as <-.
    destruct (Z.leb_spec minScore (score it)); [constructor|]; auto.
  - discriminate.
Qed.

Lemma filterByScore_all_present (minScore : Z) (its : list HackerNewsItem) :
  filterByScore minScore (map Some its) =
    Return (List.filter (fun it => minScore <=? score it) its).
Proof.
  induction its as [|it rest IH]; simpl; [reflexivity|].
  rewrite IH. now destruct (minScore <=? score it).
Qed.

Lemma first_rejection_all_fulfilled {A} (l : list A) :
  first_rejection (map fulfilled l) = Return l.
Proof.
  induction l as [|a l IH]; simpl; [reflexivity|]. now rewrite IH.
Qed.

Lemma all_details_present (net : Network) (ids : list Z)
  (its : list HackerNewsItem) :
  map (detailOutcome net) ids = map (fun it => Return (Some it)) its ->
  first_rejection (map (fun id => settle (detailOutcome net id)) ids) =
    Return (map Some its).
Proof.
  intros H.
  rewrite <- (map_map (detailOutcome net) settle), H, map_map.
  change (map (fun x => settle (Return (Some x))) its)
    with (map (fun x => fulfilled (Some x)) its).
  rewrite <- (map_map Some fulfilled).
  apply first_rejection_all_fulfilled.
Qed.

Lemma Forall_firstn {A} (P : A -> Prop) (n : nat) (l : list A) :
  Forall P l -> Forall P (firstn n l).
Proof.
  intros H. revert n. induction H; intros [|n]; simpl; constructor; auto.
Qed.

(** C7. For a requested count [count >= 0] and threshold [minScore], the
    adapter asks for the top-story list and then for the details of the
    first [min(count * 3, 100)] ids of it, no more; it never throws;
    whatever it returns has at most [count] items, each with
    [score >= minScore]; and when every request succeeds the result is
    the fetched items filtered by score and cut to [count] (which can be
    fewer than [count]). *)
Theorem fetch_overfetch_filter_truncate (E : Engine) (net : Network)
  (options : option SourceFetchOptions) (s : Runtime) :
  let count := nullish (BaseSource.count (nullish options noOptions)) defaultCount in
  let minScore := nullish (BaseSource.minScore (nullish options noOptions)) 100 in
  let fetchCount := Z.min (count * 3) 100 in
  0 <= count ->
  exists result s' ids,
    fetch E net options s = (Return result, s') /\
    Z.of_nat (length result) <= count /\
    Forall (fun fi => exists sc, FeedItem.score fi = Some sc /\ minScore <= sc) result /\
    requests s' = requests s ++ topStoriesUrl :: map itemUrl ids /\
    Z.of_nat (length ids) <= fetchCount /\
    (forall r storyIds,
       topstories net = Return r -> ok r = true -> body r = Return storyIds ->
       ids = firstn (Z.to_nat fetchCount) storyIds /\
       forall its,
         map (detailOutcome net) ids = map (fun it => Return (Some it)) its ->
         result = map (toFeedItem E)
                    (firstn (Z.to_nat count)
                       (List.filter (fun it => minScore <=? score it) its))).
Proof.
  intros count minScore fetchCount Hcount.
  assert (Hfc : 0 <= fetchCount) by (unfold fetchCount; lia).
  unfold fetch. fold count minScore fetchCount.
  unfold safeExecute, try_catch, bind at 1.
  unfold safeFetch at 1, BaseSource.http_fetch, bind at 1.
  destruct (topstories net) as [r|e] eqn:Htop.
  - destruct (ok r) eqn:Hok; simpl.
    + unfold ret, bind at 1, lift at 1.
      destruct (body r) as [storyIds|e] eqn:Hbody.
      * unfold bind at 1, Promise_all, bind at 1.
        rewrite allSettled_fetchDetail. unfold lift at 1.
        rewrite slice0_firstn by assumption.
        set (ids := firstn (Z.to_nat fetchCount) storyIds).
        assert (Hids : Z.of_nat (length ids) <= fetchCount).
        { unfold ids. rewrite length_firstn. lia. }
        simpl requests.
        destruct (first_rejection (map (fun id => settle (detailOutcome net id)) ids))
          as [items|e] eqn:Hall.
        -- unfold bind, lift.
           destruct (filterByScore minScore items) as [kept|e] eqn:Hkept.
           ++ unfold ret. eexists _, _, ids. split; [reflexivity|].
              split; [|split; [|split; [|split]]].
              ** rewrite length_map. now apply slice0_length.
              ** rewrite slice0_firstn by assumption.
                 rewrite List.Forall_map. apply Forall_firstn.
                 eapply List.Forall_impl; [|eapply filterByScore_scores; eauto].
                 intros it Hit. exists (score it). now split.
              ** simpl. now rewrite <- app_assoc.
              ** assumption.
              ** intros r' ids' Hr' _ Hb'. injection Hr' as <-.
                 rewrite Hbody in Hb'. injection Hb' as <-. split; [reflexivity|].
                 intros its Hits.
                 assert (items = map Some its) as ->.
                 { rewrite (all_details_present net ids its Hits) in Hall.
                   now injection Hall. }
                 rewrite filterByScore_all_present in Hkept. injection Hkept as <-.
                 now rewrite slice0_firstn by assumption.
           ++ unfold console_error, log, ret. simpl.
              eexists _, _, ids. split; [reflexivity|].
              split; [simpl; lia|]. split; [constructor|].
              split; [simpl; now rewrite <- app_assoc|]. split; [assumption|].
              intros r' ids' Hr' _ Hb'. injection Hr' as <-.
              rewrite Hbody in Hb'. injection Hb' as <-. split; [reflexivity|].
              intros its Hits. exfalso.
              rewrite (all_details_present net ids its Hits) in Hall.
              injection Hall as <-.
              rewrite filterByScore_all_present in Hkept. discriminate.
        -- unfold console_error, log, ret. simpl.
           eexists _, _, ids. split; [reflexivity|].
           split; [simpl; lia|]. split; [constructor|].
           split; [simpl; now rewrite <- app_assoc|]. split; [assumption|].
           intros r' ids' Hr' _ Hb'. injection Hr' as <-.
           rewrite Hbody in Hb'. injection Hb' as <-. split; [reflexivity|].
           intros its Hits. exfalso.
           rewrite (all_details_present net ids its Hits) in Hall.
           discriminate.
      * unfold console_error, log, ret. simpl.
        eexists _, _, []. split; [reflexivity|].
        split; [simpl; lia|]. split; [constructor|].
        split; [reflexivity|]. split; [simpl; lia|].
        intros r' ids' Hr' _ Hb'. injection Hr' as <-. congruence.
    + unfold throw, console_error, log, ret. simpl.
      eexists _, _, []. split; [reflexivity|].
      split; [simpl; lia|]. split; [constructor|].
      split; [reflexivity|]. split; [simpl; lia|].
      intros r' ids' Hr' Hok'. injection Hr' as <-. congruence.
  - unfold console_error, log, ret. simpl.
    eexists _, _, []. split; [reflexivity|].
    split; [simpl; lia|]. split; [constructor|].
    split; [reflexivity|]. split; [simpl; lia|].
    intros r' ids' Hr'. discriminate.
Qed.

(** A network with five top stories; story 3 scores below 100. *)
Definition story (n sc : Z) : HackerNewsItem :=
  mkItem n ("story " +:+ JSDate.showZ n) None "pg" (1700000000 + n) sc 0 None.

Definition okResponse {B} (b : B) : Completion (Response B) :=
  Return (mkResponse true 200 "OK" (Return b)).

Definition fiveStories : Network :=
  mkNetwork (okResponse [1; 2; 3; 4; 5])
    (fun n => if n =? 3 then okResponse (Some (story n 40))
              else okResponse (Some (story n (100 + n)))).

Definition askFor
 (n : Z) : option SourceFetchOptions :=
  Some (mkOptions (Some n) None None None None None).

Lemma fetch_overfetch_filter_truncate_witness :
  exists result s',
    fetch isoEngine fiveStories (askFor 1) idle = (Return result, s') /\
    Z.of_nat (length result) <= 1 /\
    Z.of_nat (length (requests s')) <= 1 + 3.
Proof.
  destruct (fetch_overfetch_filter_truncate isoEngine fiveStories (askFor 1) idle)
    as (result & s' & ids & Hrun & Hlen & _ & Hreq & Hids & _).
  - vm_compute. discriminate.
  - exists result, s'. split; [exact Hrun|]. split; [exact Hlen|].
    rewrite Hreq. simpl. rewrite length_map.
    assert (Hthree : Z.of_nat (length ids) <= 3) by exact Hids. lia.
Defined.

(** Asking for two: six ids would be taken, the list has five; story 3 is
    filtered out and the first two of the rest are returned. *)
Example fetch_two_of_five :
  map FeedItem.id (match fst (fetch isoEngine fiveStories (askFor 2) idle) with
                   | Return l => l
                   | Throw _ => []
                   end) = ["hackernews-1"; "hackernews-2"].
Proof. vm_compute. reflexivity. Qed.

(** Fewer than [count] survive when the scores are low: asking for one
    takes ids 1..3 only, and with a threshold of 200 none of them passes. *)
Example fetch_fewer_than_count :
  fst (fetch isoEngine fiveStories
         (Some (mkOptions (Some 1) (Some 200) None None None None)) idle) = Return [].
Proof. vm_compute. reflexivity. Qed.

(** One failing detail request empties the result ([Promise.all]). *)
Example fetch_detail_failure :
  fst (fetch isoEngine
         (mkNetwork (okResponse [1; 2])
            (fun n => if n =? 2 then Throw (TypeError "Failed to fetch")
                      else okResponse (Some (story n 500))))
         (askFor 5) idle) = Return [].
Proof. vm_compute. reflexivity. Qed.

End HackerNewsFacts.

(* ===================================================================== *)
(** * RSS adapter: time-range cutoff and lenient dates                    *)
(* ===================================================================== *)
Module RSSFacts.
Import JS Types Chrome BaseSource XmlParser RSSSource Fixtures.

Section Loop.
Variable w : World.
Variable options : SourceFetchOptions.
Variable feedUrl : string.
Variable cutoffTime : Z.
Variable now : Z.

(** The instant the adapter takes for an entry. *)
Definition instantOf (e : Entry) : Z :=
  if hasDateText (entryPubDate e) then
    match Date_parse (engine w) (entryPubDate e) with
    | Some t => t
    | None => now
    end
  else now.

Definition unparseable (e : Entry) : bool :=
  hasDateText (entryPubDate e) &&
  match Date_parse (engine w) (entryPubDate e) with Some _ => false | None => true end.

Definition warningOf (e : Entry) : LogLine :=
  mkLog LogWarn ("[Warn] " +:+ invalidDateWarning (entryPubDate e) feedUrl) None.

Definition warningsFor (items : list Entry) : list LogLine :=
  flat_map (fun e => if unparseable e then [warningOf e] else []) items.

(** The items the loop keeps, entry by entry. *)
Fixpoint keptFrom (index : nat) (items : list Entry) : list FeedItem.t :=
  match items with
  | [] => []
  | e :: rest =>
      (if instantOf e <? cutoffTime then []
       else [feedItem w options feedUrl index e (instantOf e)])
      ++ keptFrom (S index) rest
  end.

Lemma publishedAtDate_run (e : Entry) (s : Runtime) :
  Freshness.now (clock (host s)) = now ->
  publishedAtDate w feedUrl (entryPubDate e) s =
    (Return (instantOf e),
     set_console (console s ++ (if unparseable e then [warningOf e] else [])) s).
Proof.
  intros Hnow. unfold publishedAtDate, instantOf, unparseable.
  destruct (hasDateText (entryPubDate e)); simpl.
  - destruct (Date_parse (engine w) (entryPubDate e)) as [t|].
    + unfold ret. rewrite app_nil_r. now destruct s.
    + unfold bind, logger_warn, log, Date_now. simpl. now rewrite Hnow.
  - unfold Date_now. rewrite Hnow, app_nil_r. now destruct s.
Qed.

Lemma loop_run (items : list Entry) :
  forall (index : nat) (acc : list FeedItem.t) (s : Runtime),
    Freshness.now (clock (host s)) = now ->
    loop w options feedUrl cutoffTime index items acc s =
      (Return (acc ++ keptFrom index items),
       set_console (console s ++ warningsFor items) s).
Proof.
  induction items as [|e rest IH]; intros index acc s Hnow; simpl.
  - unfold ret. rewrite !app_nil_r. now destruct s.
  - unfold bind. rewrite publishedAtDate_run by assumption.
    destruct (instantOf e <? cutoffTime); rewrite IH by exact Hnow; simpl.
    + now rewrite <- app_assoc.
    + now rewrite <- !app_assoc.
Qed.

Lemma keptFrom_recent (items : list Entry) (index : nat) (fi : FeedItem.t) :
  In fi (keptFrom index items) ->
  exists i e, items !! i = Some e /\
              fi = feedItem w options feedUrl (index + i) e (instantOf e) /\
              cutoffTime <= instantOf e.
Proof.
  revert index. induction items as [|e rest IH]; intros index H; simpl in H.
  - contradiction.
  - apply in_app_or in H. destruct H as [H|H].
    + destruct (Z.ltb_spec (instantOf e) cutoffTime); [contradiction|].
      destruct H as [<-|[]]. exists 0%nat, e.
      rewrite Nat.add_0_r. auto.
    + destruct (IH _ H) as (i & e' & Hi & -> & Hc).
      exists (S i), e'. rewrite Nat.add_succ_r. auto.
Qed.

Lemma keptFrom_keeps (items : list Entry) (index i : nat) (e : Entry) :
  items !! i = Some e ->
  cutoffTime <= instantOf e ->
  In (feedItem w options feedUrl (index + i) e (instantOf e)) (keptFrom index items).
Proof.
  revert index i. induction items as [|e' rest IH]; intros index i Hi Hc.
  - discriminate.
  - simpl. apply in_or_app. destruct i as [|i]; simpl in Hi.
    + injection Hi as ->. left.
      destruct (Z.ltb_spec (instantOf e) cutoffTime); [lia|].
      rewrite Nat.add_0_r. now left.
    + right. rewrite Nat.add_succ_r. apply (IH (S index) i); assumption.
Qed.

Lemma warningsFor_has (items : list Entry) (i : nat) (e : Entry) :
  items !! i = Some e -> unparseable e = true -> In (warningOf e) (warningsFor items).
Proof.
  intros Hi Hu. unfold warningsFor. apply in_flat_map. exists e. split.
  - apply list_elem_of_In. eapply list_elem_of_lookup_2; eauto.
  - rewrite Hu. now left.
Qed.

End Loop.

Lemma TIME_RANGE_MS_positive (r : FetchTimeRange) : 0 < TIME_RANGE_MS r.
Proof. destruct r; reflexivity. Qed.


(** ** The publish date of an entry

    The date text an entry carries: the text of its [pubDate] element
    or, without one, of its [dc:date] element (RSS 2.0); the text of
    [published] or, without one, of [updated] (Atom).  An element that
    is missing or empty carries no text. *)
Inductive publishDateText : Entry -> string -> Prop :=
  | date_of_pubDate (r : RSSItem) (text : string) :
      pubDate r = Some text -> text <> "" -> publishDateText (Rss2 r) text
  | date_of_dc_date (r : RSSItem) (text : string) :
      pubDate r = None \/ pubDate r = Some "" ->
      dc_date r = Some text -> text <> "" -> publishDateText (Rss2 r) text
  | date_of_published (a : AtomEntry) (text : string) :
      published a = Some text -> text <> "" -> publishDateText (Atom a) text
  | date_of_updated (a : AtomEntry) (text : string) :
      published a = None \/ published a = Some "" ->
      updated a = Some text -> text <> "" -> publishDateText (Atom a) text.

Section Window.
Variable w : World.
Variable options : SourceFetchOptions.
Variable feedUrl : string.
Variable cutoffTime : Z.
Variable now : Z.

(** The instant an entry is dated at: its publish date when the text
    parses; the current time when the text does not parse, is only white
    space, or is missing. *)
Inductive datedAt : Entry -> Z -> Prop :=
  | dated_parsed (e : Entry) (text : string) (t : Z) :
      publishDateText e text -> trim text <> "" ->
      Date_parse (engine w) text = Some t -> datedAt e t
  | dated_unparseable (e : Entry) (text : string) :
      publishDateText e text -> trim text <> "" ->
      Date_parse (engine w) text = None -> datedAt e now
  | dated_blank (e : Entry) :
      (forall text, publishDateText e text -> trim text = "") -> datedAt e now.

(** The entries of a feed that are within the window, from position
    [index] on, as feed items in the order of the feed. *)
Inductive withinWindow : nat -> list Entry -> list FeedItem.t -> Prop :=
  | window_end (index : nat) : withinWindow index [] []
  | window_older (index : nat) (e : Entry) (rest : list Entry)
      (time : Z) (out : list FeedItem.t) :
      datedAt e time -> time < cutoffTime ->
      withinWindow (S index) rest out -> withinWindow index (e :: rest) out
  | window_recent (index : nat) (e : Entry) (rest : list Entry)
      (time : Z) (out : list FeedItem.t) :
      datedAt e time -> cutoffTime <= time ->
      withinWindow (S index) rest out ->
      withinWindow index (e :: rest)
        (feedItem w options feedUrl index e time :: out).

Lemma truthy_some (text : string) :
  truthy (Some text) = negb (String.eqb text "").
Proof. reflexivity. Qed.

Lemma orElse_first (text : string) (b : option string) :
  text <> "" -> orElse (Some text) b = text.
Proof.
  intros H. unfold orElse. rewrite truthy_some.
  destruct (String.eqb_spec text ""); [contradiction | reflexivity].
Qed.

Lemma orElse_second (a : option string) (text : string) :
  a = None \/ a = Some "" -> text <> "" -> orElse a (Some text) = text.
Proof.
  intros Ha H. unfold orElse.
  assert (Hfalse : truthy a = false) by (destruct Ha as [-> | ->]; reflexivity).
  rewrite Hfalse, truthy_some.
  destruct (String.eqb_spec text ""); [contradiction | reflexivity].
Qed.

Lemma orElse_cases (a b : option string) :
  (exists text, a = Some text /\ text <> "" /\ orElse a b = text) \/
  (exists text, (a = None \/ a = Some "") /\ b = Some text /\ text <> "" /\
                orElse a b = text) \/
  ((a = None \/ a = Some "") /\ (b = None \/ b = Some "") /\ orElse a b = "").
Proof.
  destruct a as [x|].
  - destruct (String.eqb_spec x "") as [-> | Hx].
    + destruct b as [y|].
      * destruct (String.eqb_spec y "") as [-> | Hy].
        -- right. right. auto.
        -- right. left. exists y. repeat split; auto. apply orElse_second; auto.
      * right. right. auto.
    + left. exists x. repeat split; auto. apply orElse_first; auto.
  - destruct b as [y|].
    + destruct (String.eqb_spec y "") as [-> | Hy].
      * right. right. auto.
      * right. left. exists y. repeat split; auto. apply orElse_second; auto.
    + right. right. auto.
Qed.

(** [entryPubDate] reads the publish-date text. *)
Lemma entryPubDate_text (e : Entry) (text : string) :
  publishDateText e text -> entryPubDate e = text.
Proof.
  intros H. destruct H; unfold entryPubDate.
  - rewrite H. apply orElse_first; assumption.
  - rewrite H0. apply orElse_second; assumption.
  - rewrite H. apply orElse_first; assumption.
  - rewrite H0. apply orElse_second; assumption.
Qed.

Lemma entryPubDate_none (e : Entry) :
  (exists text, publishDateText e text) \/ entryPubDate e = "".
Proof.
  destruct e as [a | r]; unfold entryPubDate.
  - destruct (orElse_cases (published a) (updated a))
      as [(text & H1 & H2 & _) | [(text & H1 & H2 & H3 & _) | (_ & _ & H)]].
    + left. exists text. now apply date_of_published.
    + left. exists text. now apply date_of_updated.
    + now right.
  - destruct (orElse_cases (pubDate r) (dc_date r))
      as [(text & H1 & H2 & _) | [(text & H1 & H2 & H3 & _) | (_ & _ & H)]].
    + left. exists text. now apply date_of_pubDate.
    + left. exists text. now apply date_of_dc_date.
    + now right.
Qed.

Lemma hasDateText_spec (text : string) :
  hasDateText text = true <-> trim text <> "".
Proof.
  unfold hasDateText.
  change (truthy text) with (negb (String.eqb text "")).
  change (truthy (trim text)) with (negb (String.eqb (trim text) "")).
  destruct (String.eqb_spec (trim text) "") as [Ht | Ht].
  - rewrite andb_false_r. split; [discriminate | contradiction].
  - destruct (String.eqb_spec text "") as [-> | _]; [now contradiction Ht|].
    split; auto.
Qed.

Lemma instantOf_parsed (e : Entry) (text : string) (t : Z) :
  publishDateText e text -> trim text <> "" ->
  Date_parse (engine w) text = Some t -> instantOf w now e = t.
Proof.
  intros Htext Hblank Hparse. unfold instantOf.
  rewrite (entryPubDate_text e text Htext), (proj2 (hasDateText_spec text) Hblank), Hparse.
  reflexivity.
Qed.

Lemma instantOf_unparseable (e : Entry) (text : string) :
  publishDateText e text -> trim text <> "" ->
  Date_parse (engine w) text = None ->
  instantOf w now e = now /\ unparseable w e = true.
Proof.
  intros Htext Hblank Hparse. unfold instantOf, unparseable.
  rewrite (entryPubDate_text e text Htext), (proj2 (hasDateText_spec text) Hblank), Hparse.
  split; reflexivity.
Qed.

Lemma instantOf_datedAt (e : Entry) : datedAt e (instantOf w now e).
Proof.
  destruct (entryPubDate_none e) as [[text Htext] | Hnone].
  - destruct (String.eqb_spec (trim text) "") as [Hblank | Hblank].
    + assert (Hnow : instantOf w now e = now).
      { unfold instantOf. rewrite (entryPubDate_text e text Htext).
        destruct (hasDateText text) eqn:Hd; [|reflexivity].
        apply hasDateText_spec in Hd. contradiction. }
      rewrite Hnow. apply dated_blank. intros text' Htext'.
      rewrite <- (entryPubDate_text e text' Htext'), (entryPubDate_text e text Htext).
      exact Hblank.
    + destruct (Date_parse (engine w) text) as [t|] eqn:Hparse.
      * rewrite (instantOf_parsed e text t Htext Hblank Hparse).
        now apply (dated_parsed e text t).
      * rewrite (proj1 (instantOf_unparseable e text Htext Hblank Hparse)).
        now apply (dated_unparseable e text).
  - assert (Hnow : instantOf w now e = now).
    { unfold instantOf. rewrite Hnone. reflexivity. }
    rewrite Hnow. apply dated_blank. intros text Htext.
    rewrite <- (entryPubDate_text e text Htext), Hnone. reflexivity.
Qed.

Lemma keptFrom_withinWindow (items : list Entry) :
  forall index,
    withinWindow index items (keptFrom w options feedUrl cutoffTime now index items).
Proof.
  induction items as [|e rest IH]; intros index; cbn [keptFrom].
  - constructor.
  - destruct (Z.ltb_spec (instantOf w now e) cutoffTime) as [Hold | Hnew].
    + apply (window_older index e rest (instantOf w now e)); auto using instantOf_datedAt.
    + apply (window_recent index e rest (instantOf w now e)); auto using instantOf_datedAt.
Qed.

End Window.

Lemma append_cancel (a x y : string) : a +:+ x = a +:+ y -> x = y.
Proof.
  induction a as [|c a IH]; intros H; [exact H|].
  change (String c (a +:+ x) = String c (a +:+ y)) in H.
  injection H as H. auto.
Qed.

(** The identifier of an item names the position of its entry. *)
Lemma feedItem_id_position (w : World) (options : SourceFetchOptions)
  (feedUrl : string) (i j : nat) (e e' : Entry) (t t' : Z) :
  FeedItem.id (feedItem w options feedUrl i e t) =
    FeedItem.id (feedItem w options feedUrl j e' t') -> i = j.
Proof.
  cbn [feedItem FeedItem.id]. intros H.
  do 3 apply append_cancel in H.
  apply DecimalFacts.showZ_injective in H. lia.
Qed.

(** C6. For a feed that was fetched and parsed, with the window of the
    options (7 days when none is given), the result is the examined
    entries dated within the window, in the order of the feed.  An entry
    whose publish-date text parses to an instant older than
    [now - window] gives no returned item, and one whose date is within
    the window is returned with that date; every returned item carries
    an instant no older than [now - window].  An examined entry whose
    date text is present but does not parse is returned, with the
    current time as its [publishedAt], and a warning naming the text is
    logged. *)
Theorem fetch_time_range (w : World) (options : SourceFetchOptions)
  (feedUrl text : string) (r : Response string) (parsed : RSSParsedResult)
  (s : Runtime) :
  url options = Some feedUrl -> feedUrl <> "" ->
  http w feedUrl = Return r -> ok r = true -> body r = Return text ->
  parseXML w text = Return parsed ->
  let now := Freshness.now (clock (host s)) in
  let window := TIME_RANGE_MS (nullish (timeRange options) range_7d) in
  let maxCount := if truthyZ (count options) then nullish (count options) 100 else 100 in
  let examined :=
    firstn (Z.to_nat (Z.min (Z.of_nat (length (entriesOf parsed))) maxCount))
      (entriesOf parsed) in
  exists result s',
    fetch w (Some options) s = (Return result, s') /\
    withinWindow w options feedUrl (now - window) now 0 examined result /\
    (forall fi, In fi result ->
       exists i e time,
         examined !! i = Some e /\
         fi = feedItem w options feedUrl i e time /\
         FeedItem.publishedAt fi = Some (JSDate.toISOString time) /\
         datedAt w now e time /\
         now - window <= time) /\
    (forall i e dateText t,
       examined !! i = Some e ->
       publishDateText e dateText -> trim dateText <> "" ->
       Date_parse (engine w) dateText = Some t ->
       (t < now - window ->
          forall fi, In fi result ->
            FeedItem.id fi <> FeedItem.id (feedItem w options feedUrl i e t)) /\
       (now - window <= t ->
          In (feedItem w options feedUrl i e t) result)) /\
    (forall i e dateText,
       examined !! i = Some e ->
       publishDateText e dateText -> trim dateText <> "" ->
       Date_parse (engine w) dateText = None ->
       In (feedItem w options feedUrl i e now) result /\
       FeedItem.publishedAt (feedItem w options feedUrl i e now) =
         Some (JSDate.toISOString now) /\
       In (mkLog LogWarn ("[Warn] " +:+ invalidDateWarning dateText feedUrl) None)
          (console s')).
Proof.
  intros Hurl Hne Hhttp Hok Hbody Hparse now window maxCount examined.
  unfold fetch. rewrite Hurl.
  assert (Htruthy : truthy (Some feedUrl) = true).
  { unfold truthy, Truthy_option, truthy, Truthy_string.
    destruct (String.eqb_spec feedUrl ""); [contradiction | reflexivity]. }
  rewrite Htruthy. change (negb true) with false. cbv iota. cbn [nullish].
  unfold bind at 1, Date_now at 1. cbv beta iota. fold now.
  unfold safeExecute, try_catch, bind at 1, BaseSource.http_fetch.
  rewrite Hhttp. cbv beta iota. rewrite Hok. change (negb true) with false.
  cbv iota. unfold bind at 1, lift at 1. rewrite Hbody. cbv beta iota.
  unfold bind at 1, lift at 1. rewrite Hparse. cbv beta iota.
  fold window maxCount examined.
  rewrite (loop_run w options feedUrl (now - window) now) by reflexivity.
  eexists _, _. split; [reflexivity|]. cbn [app set_console console].
  split; [apply keptFrom_withinWindow|]. split; [|split].
  - intros fi Hin.
    destruct (keptFrom_recent _ _ _ _ _ _ _ _ Hin) as (i & e & Hi & -> & Hc).
    exists i, e, (instantOf w now e).
    split; [exact Hi|]. split; [reflexivity|]. split; [reflexivity|].
    split; [apply instantOf_datedAt | exact Hc].
  - intros i e dateText t Hi Htext Hblank Hdate.
    pose proof (instantOf_parsed w now e dateText t Htext Hblank Hdate) as Hinst.
    split.
    + intros Hold fi Hin Hid.
      destruct (keptFrom_recent _ _ _ _ _ _ _ _ Hin) as (j & e' & Hj & -> & Hc).
      apply feedItem_id_position in Hid. cbn [Nat.add] in Hid. subst j.
      rewrite Hi in Hj. injection Hj as <-. lia.
    + intros Hnew. rewrite <- Hinst at 1.
      apply (keptFrom_keeps w options feedUrl (now - window) now examined 0 i e Hi).
      lia.
  - intros i e dateText Hi Htext Hblank Hdate.
    destruct (instantOf_unparseable w now e dateText Htext Hblank Hdate) as [Hinst Hun].
    split; [|split].
    + rewrite <- Hinst at 1.
      apply (keptFrom_keeps w options feedUrl (now - window) now examined 0 i e Hi).
      rewrite Hinst.
      pose proof (TIME_RANGE_MS_positive (nullish (timeRange options) range_7d)).
      unfold window. lia.
    + reflexivity.
    + apply in_or_app. right.
      rewrite <- (entryPubDate_text e dateText Htext).
      apply (warningsFor_has w feedUrl examined i e Hi Hun).
Qed.

(** A feed read at 2024-03-11T00:00:05Z: items dated an hour ago, two
    days ago and ten days ago, and one whose date does not parse. *)
Definition rssItem (title date : string) : RSSItem :=
  mkRSSItem (TextString title) (LinkString ("https://example.org/" +:+ title))
    (TextString "text") (Some date) None.

Definition today_item : RSSItem := rssItem "today" "2024-03-10T23:00:05.000Z".
Definition two_days_item : RSSItem := rssItem "two-days" "2024-03-09T00:00:05.000Z".
Definition ten_days_item : RSSItem := rssItem "ten-days" "2024-03-01T00:00:05.000Z".
Definition bad_date_item : RSSItem := rssItem "bad-date" "the day before yesterday".

Definition feedOf (items : list RSSItem) : RSSParsedResult :=
  mkParsed (Some (mkRss (Some (mkChannel (Many items))))) None.

Definition worldWith (items : list RSSItem) : World :=
  mkWorld isoEngine
    (fun _ => Return (feedOf items))
    (fun html => html)
    (fun _ => Return (mkResponse true 200 "OK" (Return "<rss/>"))).

Definition feedUrl : string := "https://example.org/feed".

Definition feedOptions (range : option FetchTimeRange) : SourceFetchOptions :=
  mkOptions None None None (Some feedUrl) (Some "Example") range.

Lemma fetch_time_range_witness :
  exists result s',
    fetch (worldWith [ten_days_item; bad_date_item]) (Some (feedOptions None)) idle =
      (Return result, s') /\
    In (feedItem (worldWith [ten_days_item; bad_date_item]) (feedOptions None)
          feedUrl 1 (Rss2 bad_date_item) 1710115205000) result /\
    (forall fi, In fi result -> FeedItem.id fi <> "rss-https://example.org/feed-0").
Proof.
  destruct (fetch_time_range (worldWith [ten_days_item; bad_date_item])
              (feedOptions None) feedUrl "<rss/>"
              (mkResponse true 200 "OK" (Return "<rss/>"))
              (feedOf [ten_days_item; bad_date_item]) idle)
    as (result & s' & Hrun & _ & _ & Hdated & Hkeep);
    try reflexivity.
  - discriminate.
  - exists result, s'. split; [exact Hrun|]. split.
    + apply (Hkeep 1%nat (Rss2 bad_date_item) "the day before yesterday").
      * reflexivity.
      * apply date_of_pubDate; [reflexivity | discriminate].
      * vm_compute. discriminate.
      * vm_compute. reflexivity.
    + apply (Hdated 0%nat (Rss2 ten_days_item) "2024-03-01T00:00:05.000Z" 1709251205000).
      * reflexivity.
      * apply date_of_pubDate; [reflexivity | discriminate].
      * vm_compute. discriminate.
      * vm_compute. reflexivity.
      * vm_compute. reflexivity.
Defined.

(** The example of the specification: under a window of 7 days exactly
    the items of today and of two days ago are returned. *)
Example fetch_window_7d :
  map FeedItem.title
    (returned (fst (fetch (worldWith [today_item; two_days_item; ten_days_item])
                      (Some (feedOptions (Some range_7d))) idle)))
  = ["today"; "two-days"].
Proof. vm_compute. reflexivity. Qed.

Example fetch_window_default :
  map FeedItem.title
    (returned (fst (fetch (worldWith [today_item; two_days_item; ten_days_item])
                      (Some (feedOptions None)) idle)))
  = ["today"; "two-days"].
Proof. vm_compute. reflexivity. Qed.

Example fetch_window_1d :
  map FeedItem.title
    (returned (fst (fetch (worldWith [today_item; two_days_item; ten_days_item])
                      (Some (feedOptions (Some range_1d))) idle)))
  = ["today"].
Proof. vm_compute. reflexivity. Qed.

(** A date that does not parse: the item stays, dated now. *)
Example fetch_bad_date_kept :
  map (fun fi => (FeedItem.title fi, FeedItem.publishedAt fi))
    (returned (fst (fetch (worldWith [ten_days_item; bad_date_item])
                      (Some (feedOptions (Some range_7d))) idle)))
  = [("bad-date", Some "2024-03-11T00:00:05.000Z")].
Proof. vm_compute. reflexivity. Qed.

(** An Atom feed with a single entry (not an array): [published] is
    missing, [updated] is read; the link with [rel] alternate is taken. *)
Definition atomEntry : AtomEntry :=
  mkAtomEntry (TextNode (Some "Release notes") None)
    (LinkArray [mkLink (Some "https://example.org/self") (Some "self") None;
                mkLink (Some "https://example.org/notes") (Some "alternate") None])
    TextAbsent (TextString "<p>text</p>") None (Some "2024-03-09T00:00:05.000Z").

Definition atomWorld : World :=
  mkWorld isoEngine
    (fun _ => Return (mkParsed None (Some (mkFeed (One atomEntry)))))
    (fun html => html)
    (fun _ => Return (mkResponse true 200 "OK" (Return "<feed/>"))).

Example fetch_atom_entry :
  map (fun fi => (FeedItem.title fi, FeedItem.url fi, FeedItem.publishedAt fi))
    (returned (fst (fetch atomWorld (Some (feedOptions (Some range_3d))) idle)))
  = [("Release notes", "https://example.org/notes", Some "2024-03-09T00:00:05.000Z")].
Proof. vm_compute. reflexivity. Qed.

(** Without a URL nothing is fetched, and a failing request gives the
    empty list. *)
Example fetch_without_url :
  fst (fetch atomWorld (Some (mkOptions None None None None None None)) idle) = Return [] /\
  requests (snd (fetch atomWorld (Some (mkOptions None None None None None None)) idle)) = [].
Proof. vm_compute. split; reflexivity. Qed.

Example fetch_http_error :
  fst (fetch (mkWorld isoEngine (fun _ => Return (feedOf [today_item])) (fun h => h)
                (fun _ => Return (mkResponse false 503 "Service Unavailable" (Return ""))))
         (Some (feedOptions None)) idle) = Return [].
Proof. vm_compute. reflexivity. Qed.

End RSSFacts.

(* ===================================================================== *)
(** * Aggregator: a failed fetch and the cache                            *)
(* ===================================================================== *)
Module DataFetcherFacts.
Import JS Types Chrome BaseSource DataFetcher Fixtures.

(** The Hacker News source of the default configuration. *)
Definition hackerNews : SourceConfig.t :=
  Storage.builtin "hacker-news" HackerNews true "Hacker News" 15 (Some 100).

(** The network is down: the request for the top stories fails. *)
Definition networkDown : HackerNewsSource.Network :=
  HackerNewsSource.mkNetwork (Throw (TypeError "Failed to fetch"))
    (fun _ => Throw (TypeError "Failed to fetch")).

Definition registryDown : gmap string BaseSource.t :=
  <["HackerNews" := HackerNewsSource.source isoEngine networkDown]> ∅.

Definition yesterdaysStory : FeedItem.t :=
  sampleItem "hackernews-1" HackerNews (Some "2024-03-10T08:00:00.000Z").

(** The cache holds one item, fetched 31 minutes ago. *)
Definition staleCache : Runtime :=
  storeWith (hostOf true acceptsAll)
    (<["cache_hacker-news" :=
         VCache (mkCache [yesterdaysStory] (1710115205000 - 31 * 60 * 1000))]> ∅).

(** C2 on the code. The adapter fails (the network is down) while the
    cache holds an older result: [fetchDataByType] contributes the empty
    list and the cache entry is replaced by an empty one with a fresh
    timestamp. [SourceRegistry.fetchFrom] and the adapter's [safeExecute]
    turn the failure into [], so the [catch] that falls back to the
    cache is not reached. *)
Theorem failed_fetch_replaces_cache :
  let run := fetchDataByType registryDown hackerNews staleCache in
  stored staleCache !! "cache_hacker-news" =
    Some (VCache (mkCache [yesterdaysStory] (1710115205000 - 31 * 60 * 1000))) /\
  fst run = Return [] /\
  stored (snd run) !! "cache_hacker-news" = Some (VCache (mkCache [] 1710115205000)).
Proof. vm_compute. repeat split. Qed.

(** The same with an adapter that throws out of [fetch]: the registry
    catches, and the cache is replaced all the same. *)
Definition registryThrowing : gmap string BaseSource.t :=
  <["HackerNews" := mkSource "HackerNews" (fun _ => throw (Err "boom"))]> ∅.

Example throwing_adapter_replaces_cache :
  let run := fetchDataByType registryThrowing hackerNews staleCache in
  fst run = Return [] /\
  stored (snd run) !! "cache_hacker-news" = Some (VCache (mkCache [] 1710115205000)).
Proof. vm_compute. repeat split. Qed.

(** The sibling path does fall back: a type with no registered adapter
    contributes the cached items and leaves the cache as it is. *)
Example unregistered_source_keeps_cache :
  let run := fetchDataByType ∅ hackerNews staleCache in
  fst run = Return [yesterdaysStory] /\
  stored (snd run) = stored staleCache.
Proof. vm_compute. repeat split. Qed.

(** So does a cache entry younger than 30 minutes: nothing is fetched. *)
Example fresh_cache_is_served :
  let fresh := set_stored
                 (<["cache_hacker-news" :=
                      VCache (mkCache [yesterdaysStory] (1710115205000 - 60000))]> ∅)
                 staleCache in
  fetchDataByType registryDown hackerNews fresh = (Return [yesterdaysStory], fresh).
Proof. vm_compute. reflexivity. Qed.

(** In general: whenever the cache is not served and the registered
    adapter throws, the contribution is empty and, on a store that takes
    the write, the cache entry is replaced by an empty one. *)
Lemma getCache_run (key : string) (s : Runtime) :
  Storage.getCache key s =
    (Return (match stored s !! key with
             | Some (VCache e) => Some e
             | _ => None
             end), s).
Proof.
  unfold Storage.getCache, Storage.getItem, safeStorageGet, bind, ret. simpl.
  destruct (stored s !! key) as [v|]; simpl.
  - now rewrite lookup_insert_eq.
  - now rewrite lookup_empty.
Qed.

Lemma failed_fetch_replaces_cache_always (registry : gmap string BaseSource.t)
  (source : SourceConfig.t) (adapter : BaseSource.t) (e : Error) (s s1 : Runtime) :
  let key := cacheKeyOf source in
  let cached := match stored s !! key with
                | Some (VCache entry) => Some entry
                | _ => None
                end in
  cacheValid (forceRefresh s) cached (Freshness.now (clock (host s))) = false ->
  registry !! SourceType_string (SourceConfig.type source) = Some adapter ->
  BaseSource.fetch adapter (Some (mapSourceConfigToOptions source)) s = (Throw e, s1) ->
  isChromeExtension (host s1) = true ->
  (forall data k v, refuses (host s1) data k v = false) ->
  exists s',
    fetchDataByType registry source s = (Return [], s') /\
    stored s' !! key = Some (VCache (mkCache [] (Freshness.now (clock (host s1))))).
Proof.
  intros key cached Hstale Hreg Hthrow Hchrome Haccepts.
  unfold fetchDataByType. fold key. unfold bind at 1. rewrite getCache_run.
  fold cached. rewrite Hstale.
  unfold try_catch at 1. unfold SourceRegistry.has. rewrite Hreg.
  change (negb true) with false. cbv iota. unfold bind at 1.
  rewrite (SourceRegistryFacts.fetchFrom_throwing registry _ _ adapter e s s1 Hreg Hthrow).
  set (s2 := SourceRegistryFacts.logged _ _ s1).
  assert (Hhost : host s2 = host s1) by reflexivity.
  unfold bind at 1, Date_now. rewrite Hhost.
  unfold bind at 1, Storage.saveCache, safeStorageSet.
  rewrite Hhost, Hchrome. unfold chrome_storage_set.
  cbn [chrome_accepts]. rewrite Hhost, Haccepts. simpl.
  eexists. split; [reflexivity|].
  simpl. now rewrite lookup_insert_eq.
Qed.

End DataFetcherFacts.

(* ===================================================================== *)
(** * Aggregator: merge, pin stamping and sort                            *)
(* ===================================================================== *)
Module AggregatorFacts.
Import JS Types Chrome BaseSource DataFetcher Fixtures.

(** ** The stable insertion sort *)
Section Sorting.
Context {A : Type}.
Variable compare : A -> A -> Z.

Lemma insert_Permutation (x : A) (l : list A) :
  Permutation (insert compare x l) (x :: l).
Proof.
  induction l as [|y rest IH]; simpl.
  - reflexivity.
  - destruct (compare x y <? 0).
    + reflexivity.
    + rewrite IH. apply perm_swap.
Qed.

Lemma fold_insert_Permutation (l acc : list A) :
  Permutation (fold_left (fun sorted x => insert compare x sorted) l acc) (acc ++ l).
Proof.
  revert acc. induction l as [|x rest IH]; intros acc; simpl.
  - now rewrite app_nil_r.
  - rewrite IH, insert_Permutation.
    change (x :: acc) with ([x] ++ acc).
    rewrite (Permutation_app_comm [x] acc), <- app_assoc. reflexivity.
Qed.

Lemma sort_Permutation (l : list A) : Permutation (sort compare l) l.
Proof. unfold sort. now rewrite fold_insert_Permutation. Qed.

(** Sortedness, for a comparator that agrees with an order [R] on the
    elements satisfying [P]. *)
Variable R : A -> A -> Prop.
Variable P : A -> Prop.
Hypothesis R_trans :
  forall a b c, P a -> P b -> P c -> R a b -> R b c -> R a c.
Hypothesis compare_below : forall a b, P a -> P b -> compare a b < 0 -> R a b.
Hypothesis compare_not_below : forall a b, P a -> P b -> 0 <= compare a b -> R b a.

Lemma insert_Forall (Q : A -> Prop) (x : A) (l : list A) :
  Q x -> Forall Q l -> Forall Q (insert compare x l).
Proof.
  intros Hx Hl. induction Hl as [|y rest Hy Hrest IH]; simpl.
  - constructor; auto.
  - destruct (compare x y <? 0); repeat constructor; auto.
Qed.

Lemma insert_sorted (x : A) (l : list A) :
  P x -> Forall P l -> StronglySorted R l -> StronglySorted R (insert compare x l).
Proof.
  intros Hx HP Hs. induction Hs as [|y rest Hs IH Hy]; simpl.
  - repeat constructor.
  - inversion HP as [|? ? HPy HPrest]; subst.
    destruct (Z.ltb_spec (compare x y) 0) as [Hlt|Hge].
    + constructor; [constructor; assumption|].
      constructor; [now apply compare_below|].
      rewrite List.Forall_forall in *. intros z Hz.
      apply (R_trans x y z);
        [assumption | assumption | now apply HPrest
        | now apply compare_below | now apply Hy].
    + constructor; [now apply IH|].
      apply insert_Forall; [now apply compare_not_below | assumption].
Qed.

Lemma fold_insert_sorted (l acc : list A) :
  Forall P l -> Forall P acc -> StronglySorted R acc ->
  StronglySorted R (fold_left (fun sorted x => insert compare x sorted) l acc).
Proof.
  revert acc. induction l as [|x rest IH]; intros acc Hl Hacc Hs; simpl.
  - assumption.
  - inversion Hl; subst. apply IH; auto.
    + now apply insert_Forall.
    + now apply insert_sorted.
Qed.

Lemma sort_sorted (l : list A) : Forall P l -> StronglySorted R (sort compare l).
Proof. intros H. apply fold_insert_sorted; auto; constructor. Qed.

End Sorting.

(** ** The order the comparator is meant to realise *)
Section Order.
Variable E : Engine.

Definition pinned (item : FeedItem.t) : bool := truthyFlag (FeedItem.isPinned item).

Definition time (item : FeedItem.t) : Z := timeOf E (FeedItem.publishedAt item).

(** [a] may stand before [b]: [a] is pinned and [b] is not, or they are
    pinned alike and [a] is not older than [b]. *)
Definition precedes (a b : FeedItem.t) : Prop :=
  (pinned a = true /\ pinned b = false) \/
  (pinned a = pinned b /\ time b <= time a).

Lemma precedes_trans (a b c : FeedItem.t) :
  precedes a b -> precedes b c -> precedes a c.
Proof.
  unfold precedes. intros [[H1 H2]|[H1 H2]] [[H3 H4]|[H3 H4]].
  - congruence.
  - left. split; congruence.
  - left. split; congruence.
  - right. split; [congruence | lia].
Qed.

(** A missing [publishedAt] counts as the epoch. *)
Lemma time_missing (item : FeedItem.t) :
  FeedItem.publishedAt item = None -> time item = 0.
Proof. unfold time, timeOf. now intros ->. Qed.

(** The comparator realises [precedes] on items whose flag is never
    [false] (absent or [true]), and on items whose flag is never
    absent ([true] or [false]). *)
Definition neverFalse (item : FeedItem.t) : Prop := FeedItem.isPinned item <> Some false.
Definition neverAbsent (item : FeedItem.t) : Prop := FeedItem.isPinned item <> None.

Lemma compareItems_neverFalse (a b : FeedItem.t) :
  neverFalse a -> neverFalse b ->
  (compareItems E a b < 0 -> precedes a b) /\
  (0 <= compareItems E a b -> precedes b a).
Proof.
  unfold neverFalse, compareItems, precedes, pinned, time.
  destruct (FeedItem.isPinned a) as [[|]|], (FeedItem.isPinned b) as [[|]|];
    simpl; intros Ha Hb; try congruence; split; intros H; try lia; auto;
    right; split; auto; lia.
Qed.

Lemma compareItems_neverAbsent (a b : FeedItem.t) :
  neverAbsent a -> neverAbsent b ->
  (compareItems E a b < 0 -> precedes a b) /\
  (0 <= compareItems E a b -> precedes b a).
Proof.
  unfold neverAbsent, compareItems, precedes, pinned, time.
  destruct (FeedItem.isPinned a) as [[|]|], (FeedItem.isPinned b) as [[|]|];
    simpl; intros Ha Hb; try congruence; split; intros H; try lia; auto;
    right; split; auto; lia.
Qed.

(** Between an item whose flag is absent and one whose flag is [false]
    the comparator answers 1 both ways, whatever the dates. *)
Lemma compareItems_absent_false (a b : FeedItem.t) :
  FeedItem.isPinned a = None -> FeedItem.isPinned b = Some false ->
  compareItems E a b = 1 /\ compareItems E b a = 1.
Proof. unfold compareItems. intros -> ->. split; reflexivity. Qed.

End Order.

(** ** What [fetchAllData] returns *)
Section Merge.
Variable E : Engine.
Variable registry : gmap string BaseSource.t.

Lemma fetchDataByType_never_throws (source : SourceConfig.t) (s : Runtime) :
  exists items s', fetchDataByType registry source s = (Return items, s').
Proof.
  unfold fetchDataByType, bind at 1. rewrite DataFetcherFacts.getCache_run.
  destruct (cacheValid _ _ _); [eauto|].
  unfold try_catch. destruct (SourceRegistry.has registry _).
  - change (negb true) with false. cbv iota. unfold bind at 1.
    destruct (SourceRegistryFacts.fetchFrom_never_throws registry
                (Some (mapSourceConfigToOptions source))
                (SourceType_string (SourceConfig.type source)) s)
      as (items & s1 & Hf).
    rewrite Hf. unfold bind at 1, Date_now. unfold bind at 1.
    unfold Storage.saveCache, safeStorageSet.
    destruct (isChromeExtension (host s1)).
    + unfold chrome_storage_set. destruct (chrome_accepts _ _ _); eauto.
    + unfold localStorage_setAll, bind, localStorage_setItem.
      destruct (refuses _ _ _ _); eauto.
  - simpl. eauto.
Qed.

(** What each enabled source contributes, in order. *)
Fixpoint contributions (srcs : list SourceConfig.t) (s : Runtime)
  : list (list FeedItem.t) * Runtime :=
  match srcs with
  | [] => ([], s)
  | src :: rest =>
      let '(c, s1) := fetchDataByType registry src s in
      let '(rs, s2) := contributions rest s1 in
      (match c with Return items => items | Throw _ => [] end :: rs, s2)
  end.

Definition stamp (src : SourceConfig.t) (items : list FeedItem.t) : list FeedItem.t :=
  map (fun item => FeedItem.with_isPinned item (SourceConfig.isPinned src)) items.

(** The contributions, each stamped with its source's flag, one after
    the other. *)
Definition merged (rs : list (list FeedItem.t)) (srcs : list SourceConfig.t)
  : list FeedItem.t :=
  concat (map (fun p => stamp (snd p) (fst p)) (combine rs srcs)).

Lemma allSettled_fetchDataByType (srcs : list SourceConfig.t) (s : Runtime) :
  allSettled (map (fetchDataByType registry) srcs) s =
    (Return (map fulfilled (fst (contributions srcs s))), snd (contributions srcs s)).
Proof.
  revert s. induction srcs as [|src rest IH]; intros s; simpl.
  - reflexivity.
  - destruct (fetchDataByType_never_throws src s) as (items & s1 & Hf).
    rewrite Hf, IH. destruct (contributions rest s1) as [rs s2]. reflexivity.
Qed.

Lemma forEach_collect (rs : list (list FeedItem.t)) :
  forall (srcs : list SourceConfig.t) (acc : list FeedItem.t) (s : Runtime),
    forEach collect (combine (map fulfilled rs) srcs) acc s =
      (Return (acc ++ merged rs srcs), s).
Proof.
  induction rs as [|r rest IH]; intros srcs acc s.
  - simpl. unfold ret, merged. simpl. now rewrite app_nil_r.
  - destruct srcs as [|src srcs'].
    + simpl. unfold ret, merged. simpl. now rewrite app_nil_r.
    + cbn [map combine forEach]. unfold bind at 1. cbn [collect]. unfold ret at 1.
      rewrite IH. unfold merged. simpl. now rewrite <- app_assoc.
Qed.

Lemma fetchAllData_run (sources : list SourceConfig.t) (s : Runtime) :
  let enabledSources := List.filter SourceConfig.enabled sources in
  fetchAllData E registry sources s =
    (Return (sort (compareItems E)
               (merged (fst (contributions enabledSources s)) enabledSources)),
     snd (contributions enabledSources s)).
Proof.
  intros enabledSources. unfold fetchAllData. fold enabledSources.
  unfold bind at 1. rewrite allSettled_fetchDataByType.
  unfold bind at 1. rewrite forEach_collect. reflexivity.
Qed.

Lemma merged_flags (Q : option bool -> Prop) (rs : list (list FeedItem.t))
  (srcs : list SourceConfig.t) :
  Forall (fun src => Q (SourceConfig.isPinned src)) srcs ->
  Forall (fun item => Q (FeedItem.isPinned item)) (merged rs srcs).
Proof.
  intros H. revert rs. induction H as [|src srcs' Hsrc Hrest IH]; intros rs.
  - destruct rs; constructor.
  - destruct rs as [|r rest]; [constructor|].
    unfold merged. simpl. apply Forall_app. split.
    + unfold stamp. rewrite List.Forall_map. simpl.
      rewrite List.Forall_forall. auto.
    + apply IH.
Qed.

(** X30. When no enabled source has the flag [false], or none has it absent,
    the result is the merged contributions sorted pinned first and then
    by [publishedAt], newest first, a missing date counting as the
    epoch. *)
Lemma fetchAllData_sorted_when_flags_agree (sources : list SourceConfig.t)
  (s : Runtime) :
  let enabledSources := List.filter SourceConfig.enabled sources in
  Forall (fun src => SourceConfig.isPinned src <> Some false) enabledSources \/
  Forall (fun src => SourceConfig.isPinned src <> None) enabledSources ->
  exists result s',
    fetchAllData E registry sources s = (Return result, s') /\
    Permutation result
      (merged (fst (contributions enabledSources s)) enabledSources) /\
    StronglySorted (precedes E) result.
Proof.
  intros enabledSources Hflags. rewrite fetchAllData_run. fold enabledSources.
  eexists _, _. split; [reflexivity|]. split; [apply sort_Permutation|].
  destruct Hflags as [H|H].
  - apply (sort_sorted (compareItems E) (precedes E) neverFalse).
    + intros a b c _ _ _. apply precedes_trans.
    + intros a b Ha Hb. now apply compareItems_neverFalse.
    + intros a b Ha Hb. now apply compareItems_neverFalse.
    + apply (merged_flags (fun f => f <> Some false)). exact H.
  - apply (sort_sorted (compareItems E) (precedes E) neverAbsent).
    + intros a b c _ _ _. apply precedes_trans.
    + intros a b Ha Hb. now apply compareItems_neverAbsent.
    + intros a b Ha Hb. now apply compareItems_neverAbsent.
    + apply (merged_flags (fun f => f <> None)). exact H.
Qed.

End Merge.

(** ** Two unpinned sources, one never pinned and one unpinned again *)

Definition fixedSource
 (name : string) (items : list FeedItem.t) : BaseSource.t :=
  mkSource name (fun _ => ret items).

Definition olderRepo : FeedItem.t :=
  sampleItem "github-older" GitHub (Some "2024-03-01T00:00:00.000Z").
Definition newerStory : FeedItem.t :=
  sampleItem "hackernews-newer" HackerNews (Some "2024-03-10T00:00:00.000Z").

Definition registry2 : gmap string BaseSource.t :=
  <["GitHub" := fixedSource "GitHub" [olderRepo]]>
    (<["HackerNews" := fixedSource "HackerNews" [newerStory]]> ∅).

(** A source as the defaults have it ([isPinned] absent), and one after
    [handlePinSource(id, false)] of the options page ([isPinned: false]). *)
Definition github (flag : option bool) : SourceConfig.t :=
  SourceConfig.mk "github-trending" GitHub None true "GitHub Trending" 10 None None flag.
Definition hackerNews (flag : option bool) : SourceConfig.t :=
  SourceConfig.mk "hacker-news" HackerNews None true "Hacker News" 15 None (Some 100) flag.

(** C4 on the code. Neither source is pinned: GitHub never was (flag
    absent), Hacker News was pinned and unpinned again (flag [false]).
    The merged list keeps the older GitHub item before the newer Hacker
    News item.  [undefined !== false] holds, so the comparator takes the
    pinned branch and answers 1 for the two items in either order; the
    dates are not looked at. *)
Theorem unpinned_items_not_ordered_by_date :
  let result :=
    returned (fst (fetchAllData isoEngine registry2
                     [github None; hackerNews (Some false)] idle)) in
  let older := FeedItem.with_isPinned olderRepo None in
  let newer := FeedItem.with_isPinned newerStory (Some false) in
  result = [older; newer] /\
  pinned older = false /\ pinned newer = false /\
  time isoEngine older < time isoEngine newer /\
  compareItems isoEngine older newer = 1 /\
  compareItems isoEngine newer older = 1.
Proof. vm_compute. repeat split. Qed.

(** The answers of the comparator are the same with the dates exchanged:
    no sort that goes by the comparator can put the newer item first on
    both inputs. *)
Example unpinned_items_dates_exchanged :
  let older := FeedItem.with_isPinned (sampleItem "github-older" GitHub
                 (Some "2024-03-10T00:00:00.000Z")) None in
  let newer := FeedItem.with_isPinned (sampleItem "hackernews-newer" HackerNews
                 (Some "2024-03-01T00:00:00.000Z")) (Some false) in
  compareItems isoEngine older newer = 1 /\
  compareItems isoEngine newer older = 1.
Proof. vm_compute. split; reflexivity. Qed.

(** What an engine does with a pair can only depend on the answers of
    the comparator: [swap] says, from the answers for (first, second)
    and (second, first), whether the pair is exchanged.  Whatever [swap]
    is, one of the two inputs, the one above or the one with the dates
    exchanged, comes out with the older item first. *)
Definition sortPair (swap : Z -> Z -> bool) (E : Engine) (a b : FeedItem.t)
  : list FeedItem.t :=
  if swap (compareItems E a b) (compareItems E b a) then [b; a] else [a; b].

Lemma no_pair_sort_orders_both_inputs (swap : Z -> Z -> bool) :
  let absent d := FeedItem.with_isPinned (sampleItem "github" GitHub (Some d)) None in
  let unpinned d :=
    FeedItem.with_isPinned (sampleItem "hackernews" HackerNews (Some d)) (Some false) in
  let early := "2024-03-01T00:00:00.000Z" in
  let late := "2024-03-10T00:00:00.000Z" in
  sortPair swap isoEngine (absent early) (unpinned late) =
    [absent early; unpinned late] \/
  sortPair swap isoEngine (absent late) (unpinned early) =
    [unpinned early; absent late].
Proof.
  intros absent unpinned early late. unfold sortPair.
  destruct (compareItems_absent_false isoEngine (absent early) (unpinned late)
              eq_refl eq_refl) as [-> ->].
  destruct (compareItems_absent_false isoEngine (absent late) (unpinned early)
              eq_refl eq_refl) as [-> ->].
  destruct (swap 1 1); [right | left]; reflexivity.
Qed.

(** With both flags absent, or both [false], the newer item is first. *)
Example unpinned_alike_ordered_by_date :
  map FeedItem.id
    (returned (fst (fetchAllData isoEngine registry2
                      [github None; hackerNews None] idle)))
    = ["hackernews-newer"; "github-older"] /\
  map FeedItem.id
    (returned (fst (fetchAllData isoEngine registry2
                      [github (Some false); hackerNews (Some false)] idle)))
    = ["hackernews-newer"; "github-older"].
Proof. vm_compute. split; reflexivity. Qed.

(** The example of the specification: a pinned older item stands before
    an unpinned newer one. *)
Example pinned_older_item_first :
  map FeedItem.id
    (returned (fst (fetchAllData isoEngine registry2
                      [hackerNews None; github (Some true)] idle)))
    = ["github-older"; "hackernews-newer"].
Proof. vm_compute. reflexivity. Qed.

(** A disabled source contributes nothing. *)
Example disabled_source_left_out :
  map FeedItem.id
    (returned (fst (fetchAllData isoEngine registry2
                      [SourceConfig.mk "github-trending" GitHub None false
                         "GitHub Trending" 10 None None None;
                       hackerNews None] idle)))
    = ["hackernews-newer"].
Proof. vm_compute. reflexivity. Qed.

End AggregatorFacts.

(* ===================================================================== *)
(** * Storage: export and import                                          *)
(* ===================================================================== *)
Module StorageFacts.
Import JS Types Chrome Storage Fixtures.

Definition storedItem (id title : string) (source : SourceType)
  (summary publishedAt : option string) (tags : option (list string)) : FeedItem.t :=
  FeedItem.mk id title source None ("https://example.org/" +:+ id) summary
    publishedAt tags None None None None None None.

(** ** Export *)

Lemma getItem_run (key : string) (s : Runtime) :
  getItem key s = (Return (stored s !! key), s).
Proof.
  unfold getItem, safeStorageGet, bind, ret. simpl.
  destruct (stored s !! key) as [v|]; simpl.
  - now rewrite lookup_insert_eq.
  - now rewrite lookup_empty.
Qed.

Lemma getFeeds_run (s : Runtime) :
  getFeeds s = (Return (match stored s !! KEY_FEEDS with
                        | Some (VFeeds l) => l
                        | _ => []
                        end), s).
Proof. unfold getFeeds, bind. now rewrite getItem_run. Qed.

Lemma getConfig_run (s : Runtime) :
  getConfig s = (Return (match stored s !! KEY_CONFIG with
                         | Some (VConfig c) => c
                         | _ => defaultConfig
                         end), s).
Proof. unfold getConfig, bind. now rewrite getItem_run. Qed.

(** The row of an item that has a [publishedAt]. *)
Definition rowOf (feed : FeedItem.t) (dateStr : string) : string :=
  join ","
    [ FeedItem.id feed;
      quoted (doubleQuotes (FeedItem.title feed));
      SourceType_string (FeedItem.source feed);
      FeedItem.url feed;
      quoted (doubleQuotes (if truthyString (FeedItem.summary feed)
                            then nullish (FeedItem.summary feed) "" else ""));
      dateStr;
      quoted (join "," (nullish (FeedItem.tags feed) []));
      quoted (doubleQuotes (if truthyString (FeedItem.aiSummary feed)
                            then nullish (FeedItem.aiSummary feed) "" else "")) ].

Lemma mapRows_dated (feeds : list FeedItem.t) :
  Forall (fun feed => FeedItem.publishedAt feed <> None) feeds ->
  mapRows feeds =
    Return (map (fun feed => rowOf feed (nullish (FeedItem.publishedAt feed) "")) feeds).
Proof.
  induction 1 as [|feed rest Hfeed Hrest IH]; simpl; [reflexivity|].
  unfold csvRow. destruct (FeedItem.publishedAt feed) as [d|] eqn:Hd; [|congruence].
  rewrite IH. reflexivity.
Qed.

Lemma mapRows_undated (feeds1 feeds2 : list FeedItem.t) (feed : FeedItem.t) :
  Forall (fun f => FeedItem.publishedAt f <> None) feeds1 ->
  FeedItem.publishedAt feed = None ->
  mapRows (feeds1 ++ feed :: feeds2) =
    Throw (TypeError "Cannot read properties of undefined (reading 'toISOString')").
Proof.
  intros H Hnone. induction H as [|f rest Hf Hrest IH]; simpl.
  - unfold csvRow. now rewrite Hnone.
  - unfold csvRow at 1. destruct (FeedItem.publishedAt f); [|congruence].
    now rewrite IH.
Qed.

(** When every stored item has a [publishedAt]: the header line and one
    row per item, in the fixed column order. *)
Lemma exportData_csv_dated (J : JSON) (s : Runtime) (feeds : list FeedItem.t) :
  stored s !! KEY_FEEDS = Some (VFeeds feeds) ->
  Forall (fun feed => FeedItem.publishedAt feed <> None) feeds ->
  exportData J csv s =
    (Return (join newline
               ("id,title,source,url,summary,publishedAt,tags,aiSummary" ::
                map (fun feed => rowOf feed (nullish (FeedItem.publishedAt feed) ""))
                  feeds)), s).
Proof.
  intros Hfeeds Hdated. unfold exportData, bind at 1. rewrite getConfig_run.
  unfold bind at 1. rewrite getFeeds_run, Hfeeds.
  unfold bind, lift. rewrite (mapRows_dated feeds Hdated). reflexivity.
Qed.

(** Every double quote of a string is doubled. *)
Lemma doubleQuotes_app (a b : string) :
  doubleQuotes (a +:+ b) = doubleQuotes a +:+ doubleQuotes b.
Proof.
  induction a as [|c a IH]; simpl; [reflexivity|].
  destruct (Ascii.eqb c dquote); simpl; now rewrite IH.
Qed.

Lemma doubleQuotes_quote :
  doubleQuotes (String dquote EmptyString) = String dquote (String dquote EmptyString).
Proof. reflexivity. Qed.

(** A repository from the trending page: no [publishedAt]. *)
Definition trendingRepo : FeedItem.t :=
  storedItem "github-rocq-prover-rocq" "rocq-prover/rocq" GitHub (Some "A proof assistant")
    None (Some ["OCaml"; "GitHub Trending"]).

Definition datedStory (title : string) : FeedItem.t :=
  storedItem "hackernews-1" title HackerNews None (Some "2024-03-10T08:00:00.000Z")
    (Some ["news"]).

(** C10 on the code. With one stored item that has no [publishedAt] (as
    every item of the GitHub adapter), [exportData('csv')] throws a
    TypeError: [feed.publishedAt.toISOString()] is called on
    [undefined].  No CSV text is returned. *)
Theorem exportData_csv_throws_on_undated_item (J : JSON) :
  let s := storeWith (hostOf true acceptsAll) (<[KEY_FEEDS := VFeeds [trendingRepo]]> ∅) in
  exportData J csv s =
    (Throw (TypeError "Cannot read properties of undefined (reading 'toISOString')"), s).
Proof. vm_compute. reflexivity. Qed.

(** One undated item anywhere in the list is enough. *)
Lemma exportData_csv_throws (J : JSON) (s : Runtime)
  (feeds1 feeds2 : list FeedItem.t) (feed : FeedItem.t) :
  stored s !! KEY_FEEDS = Some (VFeeds (feeds1 ++ feed :: feeds2)) ->
  Forall (fun f => FeedItem.publishedAt f <> None) feeds1 ->
  FeedItem.publishedAt feed = None ->
  exportData J csv s =
    (Throw (TypeError "Cannot read properties of undefined (reading 'toISOString')"), s).
Proof.
  intros Hfeeds Hdated Hnone. unfold exportData, bind at 1. rewrite getConfig_run.
  unfold bind at 1. rewrite getFeeds_run, Hfeeds.
  unfold bind, lift. now rewrite (mapRows_undated feeds1 feeds2 feed Hdated Hnone).
Qed.

(** A title with a double quote: the quote is doubled and the field
    stays enclosed in quotes. *)
Example exportData_csv_quoted_title (J : JSON) :
  fst (exportData J csv
         (storeWith (hostOf true acceptsAll)
            (<[KEY_FEEDS :=
                 VFeeds [datedStory ("Say " +:+ String dquote ("hi" +:+ String dquote ""))]]> ∅)))
  = Return
      ("id,title,source,url,summary,publishedAt,tags,aiSummary" +:+ newline +:+
       "hackernews-1," +:+
       String dquote ("Say " +:+ String dquote (String dquote ("hi" +:+
         String dquote (String dquote (String dquote EmptyString))))) +:+
       ",HackerNews,https://example.org/hackernews-1," +:+
       String dquote (String dquote EmptyString) +:+
       ",2024-03-10T08:00:00.000Z," +:+
       String dquote ("news" +:+ String dquote EmptyString) +:+ "," +:+
       String dquote (String dquote EmptyString)).
Proof. vm_compute. reflexivity. Qed.

(** The tags field is quoted without doubling: a quote inside a tag
    goes out as it is. *)
Example csvRow_tag_quote_not_doubled :
  csvRow (storedItem "x" "t" RSS None (Some "2024-03-10T08:00:00.000Z")
            (Some ["a" +:+ String dquote "b"]))
  = Return ("x," +:+ String dquote ("t" +:+ String dquote EmptyString) +:+
            ",RSS,https://example.org/x," +:+
            String dquote (String dquote EmptyString) +:+
            ",2024-03-10T08:00:00.000Z," +:+
            String dquote ("a" +:+ String dquote ("b" +:+ String dquote EmptyString)) +:+
            "," +:+ String dquote (String dquote EmptyString)).
Proof. vm_compute. reflexivity. Qed.

(** ** Import *)

(** The store after writing the truthy ones of [config] and [feeds]. *)
Definition applied (config : option AppConfig.t) (feeds : option (list FeedItem.t))
  (data : gmap string StoredValue) : gmap string StoredValue :=
  let data1 := match config with
               | Some c => <[KEY_CONFIG := VConfig c]> data
               | None => data
               end in
  match feeds with
  | Some f => <[KEY_FEEDS := VFeeds f]> data1
  | None => data1
  end.

Lemma safeStorageSet_accepted (key : string) (value : StoredValue) (s : Runtime) :
  (forall data k v, refuses (host s) data k v = false) ->
  safeStorageSet [(key, value)] s =
    (Return tt, set_stored (<[key := value]> (stored s)) s).
Proof.
  intros Hacc. unfold safeStorageSet.
  destruct (isChromeExtension (host s)).
  - unfold chrome_storage_set. simpl. now rewrite Hacc.
  - unfold localStorage_setAll, bind, localStorage_setItem. now rewrite Hacc.
Qed.

(** C9, as the code has it. [importData] returns false and leaves the
    store as it was when the format is not 'json', when the text does
    not parse, and when it parses to null.  Otherwise it writes the
    imported config and then the imported feeds (each when truthy), in
    two separate writes; when the store refuses neither write, both are
    applied and it returns true. *)
Theorem importData_applies_when_store_accepts (J : JSON) (data : string)
  (s : Runtime) :
  (exists s', importData J data csv s = (Return false, s') /\ stored s' = stored s) /\
  (forall e, JSON_parse J data = Throw e ->
     exists s', importData J data json s = (Return false, s') /\
                stored s' = stored s) /\
  (JSON_parse J data = Return ImportedNull ->
     exists s', importData J data json s = (Return false, s') /\
                stored s' = stored s) /\
  (forall config feeds,
     JSON_parse J data = Return (ImportedValue config feeds) ->
     (forall d k v, refuses (host s) d k v = false) ->
     exists s', importData J data json s = (Return true, s') /\
                stored s' = applied config feeds (stored s)).
Proof.
  split; [|split; [|split]].
  - exists s. split; reflexivity.
  - intros e Hp. unfold importData, try_catch, bind at 1, lift. rewrite Hp.
    eexists. split; reflexivity.
  - intros Hp. unfold importData, try_catch, bind at 1, lift. rewrite Hp.
    eexists. split; reflexivity.
  - intros config feeds Hp Hacc.
    unfold importData, try_catch, bind at 1, lift. rewrite Hp. cbv beta iota.
    destruct config as [c|]; destruct feeds as [f|]; unfold applied;
      unfold saveConfig, saveFeeds, bind, ret;
      repeat (rewrite safeStorageSet_accepted by exact Hacc; cbv beta iota);
      eexists; split; reflexivity.
Qed.

(** A backup with a configuration and two items. *)
Definition backupConfig : AppConfig.t :=
  AppConfig.mk [builtin "hacker-news" HackerNews true "Hacker News" 15 (Some 100)]
    None None None dark 50.

Definition backupFeeds : list FeedItem.t :=
  [datedStory "one"; datedStory "two"].

Definition backupText : string := "{ config: ..., feeds: [...] }".

(** [JSON.parse] on the backup text; any other text is a syntax error. *)
Definition backupJSON : JSON :=
  mkJSON (fun data =>
            if String.eqb data backupText
            then Return (ImportedValue (Some backupConfig) (Some backupFeeds))
            else Throw (SyntaxError "Unexpected token"))
         (fun _ _ => backupText).

Lemma importData_applies_when_store_accepts_witness :
  exists s',
    importData backupJSON backupText json (storeWith (hostOf true acceptsAll) ∅) =
      (Return true, s') /\
    stored s' = applied (Some backupConfig) (Some backupFeeds) ∅.
Proof.
  destruct (importData_applies_when_store_accepts backupJSON backupText
              (storeWith (hostOf true acceptsAll) ∅)) as (_ & _ & _ & Hok).
  apply (Hok (Some backupConfig) (Some backupFeeds)); reflexivity.
Defined.

(** A store whose quota the feed list exceeds: it takes the
    configuration and refuses the feeds. *)
Definition refusesFeeds : gmap string StoredValue -> string -> StoredValue -> bool :=
  fun _ _ value => match value with VFeeds _ => true | _ => false end.

(** The specification's sentence fails. In the development fallback
    ([localStorage]) the refused second write throws: [importData]
    reports failure, and the configuration of the backup has already
    replaced the stored one while the feeds have not. *)
Lemma importData_failure_after_partial_write :
  let before := storeWith (hostOf false refusesFeeds) ∅ in
  let run := importData backupJSON backupText json before in
  fst run = Return false /\
  stored before !! KEY_CONFIG = None /\
  stored (snd run) !! KEY_CONFIG = Some (VConfig backupConfig) /\
  stored (snd run) !! KEY_FEEDS = None.
Proof. vm_compute. repeat split. Qed.

(** In the extension the refused write is not even reported: the
    callback resolves the promise, [importData] returns true, and only
    the configuration was stored. *)
Example importData_success_after_partial_write :
  let run := importData backupJSON backupText json
               (storeWith (hostOf true refusesFeeds) ∅) in
  fst run = Return true /\
  stored (snd run) !! KEY_CONFIG = Some (VConfig backupConfig) /\
  stored (snd run) !! KEY_FEEDS = None.
Proof. vm_compute. repeat split. Qed.

Example importData_bad_text :
  importData backupJSON "not json" json (storeWith (hostOf true acceptsAll) ∅) =
    (Return false,
     set_console [mkLog LogError "Import error:" (Some (SyntaxError "Unexpected token"))]
       (storeWith (hostOf true acceptsAll) ∅)).
Proof. vm_compute. reflexivity. Qed.

End StorageFacts.

(* ===================================================================== *)
(** * Freshness: the last-update text, and metadata written by a refresh  *)
(* ===================================================================== *)
Module LastUpdateFacts.
Import JS Chrome Freshness Storage Fixtures CalendarFacts.

(** X1. [formatLastUpdateTime] picks its message by the age of the data:
    under a minute (a timestamp in the future included) "just updated";
    then whole minutes 1..59, whole hours 1..23, and whole days from 1 on.
    Without a translation function the text is empty, and a timestamp of
    0 reads "never updated". *)
Theorem formatLastUpdateTime_tiers (c : Clock) (timestamp : Z) (t : Translate) :
  formatLastUpdateTime c timestamp None = "" /\
  formatLastUpdateTime c 0 (Some t) = t "refresh.neverUpdated" None /\
  (timestamp <> 0 ->
   let age := now c - timestamp in
   (age < 60000 ->
      formatLastUpdateTime c timestamp (Some t) = t "refresh.justUpdated" None) /\
   (60000 <= age < 3600000 ->
      formatLastUpdateTime c timestamp (Some t) =
        t "refresh.minutesAgo" (Some ("minutes", age / 60000)) /\
      1 <= age / 60000 <= 59) /\
   (3600000 <= age < 86400000 ->
      formatLastUpdateTime c timestamp (Some t) =
        t "refresh.hoursAgo" (Some ("hours", age / 3600000)) /\
      1 <= age / 3600000 <= 23) /\
   (86400000 <= age ->
      formatLastUpdateTime c timestamp (Some t) =
        t "refresh.daysAgo" (Some ("days", age / 86400000)) /\
      1 <= age / 86400000)).
Proof.
  split; [reflexivity|]. split; [reflexivity|].
  intros Hts age.
  assert (Hnz : (timestamp =? 0) = false) by (apply Z.eqb_neq; exact Hts).
  unfold formatLastUpdateTime. rewrite Hnz. fold age.
  change (60 * 1000) with 60000. change (60 * 60 * 1000) with 3600000.
  change (24 * 60 * 60 * 1000) with 86400000.
  assert (Hm := Z.div_mod age 60000 ltac:(lia)).
  assert (Hm' := Z.mod_pos_bound age 60000 ltac:(lia)).
  assert (Hh := Z.div_mod age 3600000 ltac:(lia)).
  assert (Hh' := Z.mod_pos_bound age 3600000 ltac:(lia)).
  assert (Hd := Z.div_mod age 86400000 ltac:(lia)).
  assert (Hd' := Z.mod_pos_bound age 86400000 ltac:(lia)).
  repeat split.
  - intros Hage. assert (H1 : (age / 60000 <? 1) = true) by (apply Z.ltb_lt; lia).
    rewrite H1. reflexivity.
  - destruct H as [Hlo Hhi].
    assert (H1 : (age / 60000 <? 1) = false) by (apply Z.ltb_ge; lia).
    assert (H2 : (age / 60000 <? 60) = true) by (apply Z.ltb_lt; lia).
    rewrite H1, H2. reflexivity.
  - lia.
  - lia.
  - destruct H as [Hlo Hhi].
    assert (H1 : (age / 60000 <? 1) = false) by (apply Z.ltb_ge; lia).
    assert (H2 : (age / 60000 <? 60) = false) by (apply Z.ltb_ge; lia).
    assert (H3 : (age / 3600000 <? 24) = true) by (apply Z.ltb_lt; lia).
    rewrite H1, H2, H3. reflexivity.
  - lia.
  - lia.
  - assert (H1 : (age / 60000 <? 1) = false) by (apply Z.ltb_ge; lia).
    assert (H2 : (age / 60000 <? 60) = false) by (apply Z.ltb_ge; lia).
    assert (H3 : (age / 3600000 <? 24) = false) by (apply Z.ltb_ge; lia).
    rewrite H1, H2, H3. reflexivity.
  - lia.
Qed.

(** An English translation table, for the example. *)
Definition english : Translate :=
  fun key params =>
    match params with
    | Some (unit, n) => JSDate.showZ n +:+ " " +:+ unit +:+ " ago"
    | None => if String.eqb key "refresh.justUpdated" then "Just updated"
              else "Never updated"
    end.

Lemma formatLastUpdateTime_tiers_witness :
  formatLastUpdateTime clock_after_midnight (1710115205000 - 45 * 60 * 1000)
    (Some english) = "45 minutes ago".
Proof.
  destruct (formatLastUpdateTime_tiers clock_after_midnight
              (1710115205000 - 45 * 60 * 1000) english) as (_ & _ & H).
  destruct (H ltac:(lia)) as (_ & Hmin & _).
  destruct (Hmin ltac:(simpl; lia)) as [Heq _].
  rewrite Heq. reflexivity.
Defined.

(** X2. A refresh makes the data fresh: once [updateDataMetadata] has
    written (the store accepts the write, and the clock is not at the
    epoch), the metadata read back carries the instant and the date of
    the local calendar day of the write; it gives IMMEDIATE_DISPLAY at
    that moment and at any later moment of the same local calendar day
    up to 30 minutes on, and FORCE_REFRESH on any other local calendar
    day. *)
Theorem updateDataMetadata_makes_fresh (s : Runtime) :
  (forall data k v, refuses (host s) data k v = false) ->
  now (clock (host s)) <> 0 ->
  exists s' md,
    updateDataMetadata s = (Return tt, s') /\
    getDataMetadata s' = (Return (Some md), s') /\
    md = mkMetadata (Some (now (clock (host s))))
           (calendarDate (localDay (clock (host s)))) /\
    getRefreshStrategy (clock (host s)) (Some md) = IMMEDIATE_DISPLAY /\
    (forall later : Clock,
       localDay later = localDay (clock (host s)) ->
       now later - now (clock (host s)) <= SILENT_THRESHOLD_MS ->
       getRefreshStrategy later (Some md) = IMMEDIATE_DISPLAY) /\
    (forall later : Clock,
       localDay later <> localDay (clock (host s)) ->
       getRefreshStrategy later (Some md) = FORCE_REFRESH).
Proof.
  intros Haccepts Hnow.
  set (c := clock (host s)).
  set (md := mkMetadata (Some (now c)) (getTodayDateString c)).
  exists (set_stored (<[KEY_DATA_METADATA := VMetadata md]> (stored s)) s), md.
  assert (Hfresh : forall later : Clock,
            localDay later = localDay c ->
            now later - now c <= SILENT_THRESHOLD_MS ->
            getRefreshStrategy later (Some md) = IMMEDIATE_DISPLAY).
  { intros later Hday Hage. apply same_calendar_day in Hday.
    unfold getRefreshStrategy, falsyTime, calculateDataAge, isNewDay, isSameDay.
    cbn [lastUpdateTime lastUpdateDate md JS.truthyZ JS.nullish].
    assert (H0 : (now c =? 0) = false) by (apply Z.eqb_neq; exact Hnow).
    rewrite H0. cbn [negb].
    rewrite Hday, String.eqb_refl. cbn [negb].
    assert (H1 : (FORCE_THRESHOLD_MS <? now later - now c) = false).
    { apply Z.ltb_ge. unfold FORCE_THRESHOLD_MS, SILENT_THRESHOLD_MS in *. lia. }
    assert (H2 : (SILENT_THRESHOLD_MS <? now later - now c) = false).
    { apply Z.ltb_ge. lia. }
    rewrite H1, H2. reflexivity. }
  split; [|split; [|split; [|split; [|split]]]].
  - unfold updateDataMetadata. fold c.
    rewrite (StorageFacts.safeStorageSet_accepted _ _ s Haccepts). reflexivity.
  - unfold getDataMetadata, JS.bind. rewrite StorageFacts.getItem_run.
    cbn [stored set_stored]. rewrite lookup_insert_eq. reflexivity.
  - unfold md. rewrite getTodayDateString_calendarDate. reflexivity.
  - apply Hfresh; [reflexivity|]. unfold SILENT_THRESHOLD_MS. lia.
  - exact Hfresh.
  - intros later Hday.
    unfold getRefreshStrategy, falsyTime, isNewDay, isSameDay.
    cbn [lastUpdateTime lastUpdateDate md JS.truthyZ JS.nullish].
    assert (H0 : (now c =? 0) = false) by (apply Z.eqb_neq; exact Hnow).
    rewrite H0. cbn [negb].
    assert (Hne : String.eqb (getTodayDateString c) (getTodayDateString later) = false).
    { apply String.eqb_neq. intro Heq. apply Hday. symmetry.
      apply same_calendar_day. exact Heq. }
    rewrite Hne. reflexivity.
Qed.

(** Written at 00:00:05 on 11 March 2024: fresh at once, and forced at
    00:00:05 the next day and at 23:59:55 the day before. *)
Lemma updateDataMetadata_makes_fresh_witness :
  exists s' md,
    updateDataMetadata idle = (Return tt, s') /\
    getDataMetadata s' = (Return (Some md), s') /\
    lastUpdateDate md = "2024-03-11" /\
    getRefreshStrategy clock_after_midnight (Some md) = IMMEDIATE_DISPLAY /\
    getRefreshStrategy (mkClock (1710115205000 + 86400000) 0) (Some md) = FORCE_REFRESH /\
    getRefreshStrategy (mkClock (1710115205000 - 10000) 0) (Some md) = FORCE_REFRESH.
Proof.
  destruct (updateDataMetadata_makes_fresh idle)
    as (s' & md & H1 & H2 & Hmd & H3 & _ & Hother).
  - reflexivity.
  - simpl. lia.
  - exists s', md. split; [exact H1|]. split; [exact H2|].
    split; [rewrite Hmd; vm_compute; reflexivity|]. split; [exact H3|].
    split; apply Hother; vm_compute; discriminate.
Defined.

End LastUpdateFacts.

(* ===================================================================== *)
(** * Alarm scheduler: the delay to the next daily refresh                *)
(* ===================================================================== *)
Module AlarmFacts.
Import JSDate Freshness AlarmScheduler Fixtures.

Lemma MakeDay_of_day (z : Z) :
  MakeDay (fst (fst (civil_from_days z))) (snd (fst (civil_from_days z)))
    (snd (civil_from_days z) + 1) = z + 1.
Proof.
  pose proof (JSDateFacts.days_from_civil_from_days z) as H.
  destruct (civil_from_days z) as [[y m] d]. destruct H as (H & _).
  cbn [fst snd]. unfold MakeDay. rewrite <- H.
  unfold days_from_civil. lia.
Qed.

Lemma target_today (c : Clock) (targetHour : Z) :
  setHours c (now c) targetHour =
    Day (LocalTime c (now c)) * msPerDay + targetHour * msPerHour - tzOffset c.
Proof. unfold setHours, UTC, MakeDate, MakeTime. lia. Qed.

Lemma target_tomorrow (c : Clock) (targetHour : Z) :
  0 <= targetHour <= 23 ->
  let today := setHours c (now c) targetHour in
  setDate c today (getDate c today + 1) = today + msPerDay.
Proof.
  intros Hh today.
  assert (Hlocal : LocalTime c today =
                   Day (LocalTime c (now c)) * msPerDay + targetHour * msPerHour).
  { unfold today. rewrite target_today. unfold LocalTime. lia. }
  set (D := Day (LocalTime c (now c))) in *.
  assert (Hday : Day (LocalTime c today) = D).
  { rewrite Hlocal. unfold Day, msPerDay, msPerHour.
    symmetry. apply (Z.div_unique _ _ _ (targetHour * 3600000)); lia. }
  assert (Hwithin : TimeWithinDay (LocalTime c today) = targetHour * msPerHour).
  { rewrite Hlocal. unfold TimeWithinDay, msPerDay, msPerHour.
    symmetry. apply (Z.mod_unique _ _ D); lia. }
  unfold setDate, getDate, YearFromTime, MonthFromTime, DateFromTime.
  rewrite Hday, Hwithin, MakeDay_of_day.
  unfold today. rewrite target_today. fold D. unfold UTC, MakeDate, msPerDay. lia.
Qed.

(** X3. The daily alarm is set for the next time the local clock shows
    the target hour: for a target hour 0..23, the instant aimed at is the
    first one after now whose local time of day is targetHour:00:00.000,
    it is at most 24 hours away, and the delay is that distance in
    minutes rounded up, between 1 and 1440. *)
Theorem calculateDelay_next_target_hour (c : Clock) (targetHour : Z) :
  0 <= targetHour <= 23 ->
  let delay := calculateDelayToNextTargetTime c targetHour in
  exists target,
    now c < target <= now c + msPerDay /\
    TimeWithinDay (LocalTime c target) = targetHour * msPerHour /\
    (forall t, now c < t ->
       TimeWithinDay (LocalTime c t) = targetHour * msPerHour -> target <= t) /\
    (delay - 1) * 60000 < target - now c <= delay * 60000 /\
    1 <= delay <= 1440.
Proof.
  intros Hh delay.
  pose proof (target_today c targetHour) as Htoday.
  pose proof (target_tomorrow c targetHour Hh) as Htomorrow. cbv zeta in Htomorrow.
  set (today := setHours c (now c) targetHour) in *.
  set (L := LocalTime c (now c)) in *.
  assert (HL : L = now c + tzOffset c) by reflexivity.
  assert (HD := Z.div_mod L msPerDay ltac:(unfold msPerDay; lia)).
  assert (HD' := Z.mod_pos_bound L msPerDay ltac:(unfold msPerDay; lia)).
  fold (Day L) in HD.
  set (D := Day L) in *.
  set (target := if today <=? now c then today + msPerDay else today).
  assert (Hdelay : delay = ceilDiv (target - now c) (60 * 1000)).
  { unfold delay, calculateDelayToNextTargetTime. fold today.
    rewrite Htomorrow. reflexivity. }
  assert (Hrange : now c < target <= now c + msPerDay).
  { unfold target. destruct (Z.leb_spec today (now c)); unfold msPerDay, msPerHour in *; lia. }
  assert (Hwithin : TimeWithinDay (LocalTime c target) = targetHour * msPerHour).
  { unfold TimeWithinDay, LocalTime, target.
    destruct (Z.leb_spec today (now c)).
    - symmetry. apply (Z.mod_unique _ _ (D + 1)); unfold msPerDay, msPerHour in *; lia.
    - symmetry. apply (Z.mod_unique _ _ D); unfold msPerDay, msPerHour in *; lia. }
  exists target. split; [exact Hrange|]. split; [exact Hwithin|]. split.
  - intros t Hlater Ht.
    unfold TimeWithinDay, LocalTime in Ht.
    assert (Hq := Z.div_mod (t + tzOffset c) msPerDay ltac:(unfold msPerDay; lia)).
    rewrite Ht in Hq.
    set (q := (t + tzOffset c) / msPerDay) in *.
    unfold target. unfold msPerDay, msPerHour in *.
    destruct (Z.leb_spec today (now c)).
    + assert (D < q) by nia. nia.
    + assert (D <= q) by nia. nia.
  - rewrite Hdelay. unfold ceilDiv. change (60 * 1000) with 60000.
    assert (Hc := Z.div_mod (- (target - now c)) 60000 ltac:(lia)).
    assert (Hc' := Z.mod_pos_bound (- (target - now c)) 60000 ltac:(lia)).
    unfold msPerDay in *. lia.
Qed.

(** 2024-03-11T07:30:00 local time in a zone two hours east of UTC. *)
Definition half_past_seven : Clock := mkClock 1710135000000 7200000.

Lemma calculateDelay_next_target_hour_witness :
  calculateDelayToNextTargetTime half_past_seven DAILY_REFRESH_HOUR = 1350 /\
  exists target,
    now half_past_seven < target <= now half_past_seven + msPerDay /\
    TimeWithinDay (LocalTime half_past_seven target) = 6 * msPerHour.
Proof.
  split; [reflexivity|].
  destruct (calculateDelay_next_target_hour half_past_seven DAILY_REFRESH_HOUR)
    as (target & H1 & H2 & _).
  - unfold DAILY_REFRESH_HOUR. lia.
  - exists target. split; assumption.
Defined.

End AlarmFacts.

(* ===================================================================== *)
(** * BaseSource: text helpers                                            *)
(* ===================================================================== *)
Module TextFacts.
Import JS BaseSource.

(** ** [stripHtml] *)

(** A [>] occurs in the string. *)
Fixpoint hasClose (s : string) : bool :=
  match s with
  | EmptyString => false
  | String c r => Ascii.eqb c ">" || hasClose r
  end.

(** The text after the first [>]. *)
Fixpoint afterClose (s : string) : string :=
  match s with
  | EmptyString => EmptyString
  | String c r => if Ascii.eqb c ">" then r else afterClose r
  end.

(** The string holds a tag: a [<] with a [>] somewhere after it. *)
Fixpoint hasTag (s : string) : bool :=
  match s with
  | EmptyString => false
  | String c r => (Ascii.eqb c "<" && hasClose r) || hasTag r
  end.

Lemma append_empty (a : string) : a +:+ EmptyString = a.
Proof.
  induction a as [|c a IH]; [reflexivity|].
  change (String c (a +:+ EmptyString) = String c a). rewrite IH. reflexivity.
Qed.

Lemma append_snoc (a : string) (c : ascii) (b : string) :
  (a +:+ String c EmptyString) +:+ b = a +:+ String c b.
Proof.
  induction a as [|x a IH]; [reflexivity|].
  change (String x ((a +:+ String c EmptyString) +:+ b) = String x (a +:+ String c b)).
  rewrite IH. reflexivity.
Qed.

Lemma stripTags_pending (html : string) :
  forall text,
    stripTags (Some text) html =
      if hasClose html then stripTags None (afterClose html) else text +:+ html.
Proof.
  induction html as [|c r IH]; intros text; cbn [stripTags hasClose afterClose].
  - symmetry. apply append_empty.
  - destruct (Ascii.eqb c ">"); cbn [orb]; [reflexivity|].
    rewrite IH. destruct (hasClose r); [reflexivity|]. apply append_snoc.
Qed.

Lemma hasTag_needs_close (s : string) : hasClose s = false -> hasTag s = false.
Proof.
  induction s as [|c r IH]; [reflexivity|]. cbn [hasClose hasTag]. intros H.
  apply orb_false_iff in H. destruct H as [_ Hr].
  rewrite Hr, (IH Hr), andb_false_r. reflexivity.
Qed.

Lemma afterClose_length (s : string) :
  (String.length (afterClose s) <= String.length s)%nat.
Proof.
  induction s as [|c r IH]; cbn [afterClose String.length]; [lia|].
  destruct (Ascii.eqb c ">"); lia.
Qed.

Lemma stripTags_bounded (n : nat) :
  forall html, (String.length html <= n)%nat ->
    hasTag (stripTags None html) = false /\
    (String.length (stripTags None html) <= String.length html)%nat.
Proof.
  induction n as [|n IH]; intros html Hlen.
  - destruct html; [split; [reflexivity|cbn; lia]|cbn in Hlen; lia].
  - destruct html as [|c r]; [split; [reflexivity|cbn; lia]|].
    cbn [String.length] in Hlen. cbn [stripTags].
    destruct (Ascii.eqb c "<") eqn:Hc.
    + rewrite stripTags_pending. destruct (hasClose r) eqn:Hclose.
      * pose proof (afterClose_length r) as Hafter.
        destruct (IH (afterClose r) ltac:(lia)) as [H1 H2].
        split; [exact H1|]. cbn [String.length]. lia.
      * change (String c EmptyString +:+ r) with (String c r).
        cbn [hasTag String.length]. rewrite Hclose, andb_false_r. cbn [orb].
        split; [apply hasTag_needs_close; exact Hclose|lia].
    + destruct (IH r ltac:(lia)) as [H1 H2].
      cbn [hasTag String.length]. rewrite Hc, H1. split; [reflexivity|lia].
Qed.

Lemma stripTags_plain (html : string) :
  hasTag html = false -> stripTags None html = html.
Proof.
  induction html as [|c r IH]; [reflexivity|]. cbn [hasTag stripTags]. intros H.
  apply orb_false_iff in H. destruct H as [Hopen Hr].
  destruct (Ascii.eqb c "<") eqn:Hc.
  - cbn [andb] in Hopen. rewrite stripTags_pending, Hopen. reflexivity.
  - rewrite (IH Hr). reflexivity.
Qed.

(** X4. [stripHtml] leaves no tag behind: in its result no [<] has a [>]
    after it.  Text without a tag comes back unchanged, so stripping
    twice is the same as stripping once, and the result is never longer
    than the input. *)
Theorem stripHtml_leaves_no_tag (html : string) :
  hasTag (stripHtml html) = false /\
  (hasTag html = false -> stripHtml html = html) /\
  stripHtml (stripHtml html) = stripHtml html /\
  (String.length (stripHtml html) <= String.length html)%nat.
Proof.
  destruct (stripTags_bounded (String.length html) html (Nat.le_refl _)) as [H1 H2].
  unfold stripHtml. repeat split.
  - exact H1.
  - apply stripTags_plain.
  - apply stripTags_plain. exact H1.
  - exact H2.
Qed.

Lemma stripHtml_leaves_no_tag_witness :
  stripHtml "<p>1 < 2 and <b>bold</b></p> a<b" = "1 bold a<b" /\
  stripHtml "1 bold a<b" = "1 bold a<b".
Proof.
  split; [reflexivity|].
  exact (proj1 (proj2 (stripHtml_leaves_no_tag "1 bold a<b")) eq_refl).
Defined.

(** ** [cleanString] *)

(** White space is well placed from here on: every white-space character
    is a plain space and no two stand side by side; [afterSpace] says
    that a space (or the start of the text) comes just before. *)
Fixpoint spaced (afterSpace : bool) (s : string) : bool :=
  match s with
  | EmptyString => true
  | String c r =>
      if is_space c then Ascii.eqb c " " && negb afterSpace && spaced true r
      else spaced false r
  end.

Definition startsClean (s : string) : bool :=
  match s with
  | String c _ => negb (is_space c)
  | EmptyString => true
  end.

Lemma collapseSpaces_spaced (s : string) :
  forall inRun, spaced inRun (collapseSpaces inRun s) = true.
Proof.
  induction s as [|c r IH]; intros inRun; [reflexivity|].
  cbn [collapseSpaces]. destruct (is_space c) eqn:Hc.
  - destruct inRun; [apply IH|]. cbn [spaced].
    change (is_space " ") with true. cbn. apply IH.
  - cbn [spaced]. rewrite Hc. apply IH.
Qed.

Lemma spaced_weaken (s : string) : spaced true s = true -> spaced false s = true.
Proof.
  destruct s as [|c r]; [reflexivity|]. cbn [spaced].
  destruct (is_space c); [|trivial]. rewrite andb_false_r. discriminate.
Qed.

Lemma trimStart_spaced (s : string) :
  forall b, spaced b s = true -> spaced true (trimStart s) = true.
Proof.
  induction s as [|c r IH]; intros b H; [reflexivity|].
  cbn [trimStart]. cbn [spaced] in H. destruct (is_space c) eqn:Hc.
  - apply andb_prop in H. destruct H as [_ H]. apply (IH true H).
  - cbn [spaced]. rewrite Hc. exact H.
Qed.

Lemma trimStart_startsClean (s : string) : startsClean (trimStart s) = true.
Proof.
  induction s as [|c r IH]; [reflexivity|]. cbn [trimStart].
  destruct (is_space c) eqn:Hc; [exact IH|]. cbn [startsClean]. rewrite Hc. reflexivity.
Qed.

Lemma startsClean_trimStart (s : string) : startsClean s = true -> trimStart s = s.
Proof.
  destruct s as [|c r]; [reflexivity|]. cbn [startsClean trimStart].
  destruct (is_space c); [discriminate|reflexivity].
Qed.

Lemma trimEnd_cons (c : ascii) (r : string) :
  trimEnd (String c r) =
    match trimEnd r with
    | EmptyString => if is_space c then EmptyString else String c EmptyString
    | String d r' => String c (String d r')
    end.
Proof. cbn [trimEnd]. destruct (trimEnd r); reflexivity. Qed.

Lemma trimEnd_spaced (s : string) :
  forall b, spaced b s = true -> spaced b (trimEnd s) = true.
Proof.
  induction s as [|c r IH]; intros b H; [reflexivity|].
  rewrite trimEnd_cons. cbn [spaced] in H. destruct (is_space c) eqn:Hc.
  - apply andb_prop in H. destruct H as [H1 H2]. specialize (IH true H2).
    destruct (trimEnd r) as [|d r']; [reflexivity|].
    cbn [spaced]. rewrite Hc, H1. exact IH.
  - specialize (IH false H).
    destruct (trimEnd r) as [|d r']; cbn [spaced]; rewrite Hc; [reflexivity|exact IH].
Qed.

Lemma trimEnd_startsClean (s : string) :
  startsClean s = true -> startsClean (trimEnd s) = true.
Proof.
  destruct s as [|c r]; [reflexivity|]. rewrite trimEnd_cons. cbn [startsClean].
  intros Hc. apply negb_true_iff in Hc.
  destruct (trimEnd r); rewrite ?Hc; cbn [startsClean]; rewrite Hc; reflexivity.
Qed.

Lemma trimEnd_idempotent (s : string) : trimEnd (trimEnd s) = trimEnd s.
Proof.
  induction s as [|c r IH]; [reflexivity|]. rewrite trimEnd_cons.
  destruct (trimEnd r) as [|d r'] eqn:Hr.
  - destruct (is_space c) eqn:Hc; [reflexivity|].
    rewrite trimEnd_cons. cbn [trimEnd]. rewrite Hc. reflexivity.
  - rewrite trimEnd_cons, IH. reflexivity.
Qed.

Lemma trim_trimmed (s : string) : trim (trim s) = trim s.
Proof.
  unfold trim.
  rewrite (startsClean_trimStart (trimEnd (trimStart s))).
  - apply trimEnd_idempotent.
  - apply trimEnd_startsClean, trimStart_startsClean.
Qed.

Lemma trimEnd_dots (a : string) : trimEnd (a +:+ "...") = a +:+ "...".
Proof.
  induction a as [|c a IH]; [reflexivity|].
  change (String c a +:+ "...") with (String c (a +:+ "...")).
  rewrite trimEnd_cons, IH.
  destruct a; reflexivity.
Qed.

Lemma substring_dots_spaced (n : nat) :
  forall b s, spaced b s = true ->
    spaced b (String.substring 0 n s +:+ "...") = true.
Proof.
  induction n as [|n IH]; intros b s H.
  - destruct s; reflexivity.
  - destruct s as [|c r]; [reflexivity|].
    change (String.substring 0 (S n) (String c r)) with (String c (String.substring 0 n r)).
    change (String c (String.substring 0 n r) +:+ "...")
      with (String c (String.substring 0 n r +:+ "...")).
    cbn [spaced] in *. destruct (is_space c).
    + apply andb_prop in H. destruct H as [H1 H2]. rewrite H1. apply IH. exact H2.
    + apply IH. exact H.
Qed.

Lemma substring_length (n : nat) :
  forall s, (String.length (String.substring 0 n s) <= n)%nat.
Proof.
  induction n as [|n IH]; intros s.
  - destruct s; cbn; lia.
  - destruct s as [|c r]; [cbn; lia|].
    change (String.substring 0 (S n) (String c r)) with (String c (String.substring 0 n r)).
    cbn [String.length]. specialize (IH r). lia.
Qed.

Lemma append_length (a b : string) :
  String.length (a +:+ b) = (String.length a + String.length b)%nat.
Proof.
  induction a as [|c a IH]; [reflexivity|].
  change (String c a +:+ b) with (String c (a +:+ b)). cbn [String.length].
  rewrite IH. reflexivity.
Qed.

Lemma substring_startsClean (n : nat) (s : string) :
  startsClean s = true -> startsClean (String.substring 0 (S n) s +:+ "...") = true.
Proof. destruct s as [|c r]; [reflexivity|]. intros H. exact H. Qed.

Lemma cleanString_length (str : string) (n : Z) :
  0 < n -> Z.of_nat (String.length (cleanString str (Some n))) <= n + 3.
Proof.
  intros Hn. unfold cleanString.
  set (cleaned := trim (collapseSpaces false str)).
  destruct (negb (n =? 0) && (n <? Z.of_nat (String.length cleaned))) eqn:Hcut.
  - rewrite append_length. pose proof (substring_length (Z.to_nat n) cleaned).
    cbn [String.length]. lia.
  - apply andb_false_iff in Hcut. destruct Hcut as [Hcut|Hcut].
    + apply negb_false_iff, Z.eqb_eq in Hcut. lia.
    + apply Z.ltb_ge in Hcut. lia.
Qed.

(** X5. [cleanString] gives tidy text of bounded length: with a positive
    [maxLength] the result has at most [maxLength + 3] characters (the
    cut text and the three dots); without a limit, or when the cleaned
    text fits, it is the trimmed text with every run of white space
    collapsed.  In every case the result has no white space at either
    end, and inside only single plain spaces. *)
Theorem cleanString_tidy_and_bounded (str : string) (maxLength : option Z) :
  let cleaned := trim (collapseSpaces false str) in
  let result := cleanString str maxLength in
  (forall n, maxLength = Some n -> 0 < n ->
     Z.of_nat (String.length result) <= n + 3) /\
  (maxLength = None \/ maxLength = Some 0 \/
   (exists n, maxLength = Some n /\ Z.of_nat (String.length cleaned) <= n) ->
     result = cleaned) /\
  ((forall n, maxLength = Some n -> 0 <= n) ->
     trim result = result /\ spaced true result = true).
Proof.
  intros cleaned result.
  assert (Hspaced : spaced true cleaned = true).
  { unfold cleaned, trim. apply trimEnd_spaced.
    apply (trimStart_spaced _ false). apply collapseSpaces_spaced. }
  assert (Hclean : startsClean cleaned = true).
  { unfold cleaned, trim. apply trimEnd_startsClean, trimStart_startsClean. }
  assert (Htrim : trim cleaned = cleaned) by apply trim_trimmed.
  split; [|split].
  - intros n -> Hn. apply cleanString_length. exact Hn.
  - intros [->|[->|(n & -> & Hfit)]]; unfold result, cleanString; fold cleaned.
    + reflexivity.
    + reflexivity.
    + assert (Hno : (n <? Z.of_nat (String.length cleaned)) = false)
        by (apply Z.ltb_ge; exact Hfit).
      rewrite Hno, andb_false_r. reflexivity.
  - intros Hpos. unfold result, cleanString. fold cleaned.
    destruct maxLength as [n|]; [|split; assumption].
    specialize (Hpos n eq_refl).
    destruct (negb (n =? 0) && (n <? Z.of_nat (String.length cleaned))) eqn:Hcut;
      [|split; assumption].
    apply andb_prop in Hcut. destruct Hcut as [Hnz _].
    apply negb_true_iff, Z.eqb_neq in Hnz.
    split.
    + unfold trim. rewrite startsClean_trimStart; [apply trimEnd_dots|].
      destruct (Z.to_nat n) as [|k] eqn:Hk; [lia|].
      apply substring_startsClean. exact Hclean.
    + apply substring_dots_spaced. exact Hspaced.
Qed.

Lemma cleanString_tidy_and_bounded_witness :
  cleanString "  Show HN:   a    proof  assistant " (Some 12) = "Show HN: a p..." /\
  Z.of_nat (String.length (cleanString "  Show HN:   a    proof  assistant " (Some 12)))
    <= 12 + 3.
Proof.
  split; [reflexivity|].
  apply (proj1 (cleanString_tidy_and_bounded "  Show HN:   a    proof  assistant "
                  (Some 12)) 12 eq_refl).
  lia.
Defined.

End TextFacts.

(* ===================================================================== *)
(** * BaseSource: numerals as timestamps, and dates from timestamps       *)
(* ===================================================================== *)
Module NumeralFacts.
Import JS BaseSource JSDate Fixtures DecimalFacts.

(** X6. A Unix timestamp given as text counts like the number: when
    [Date.parse] does not read the decimal numeral of [n], coercing the
    numeral gives what coercing [n] itself gives, in either unit.
    ([parseInt] reads the numeral back to [n], and [String(n)] is the
    text itself.) *)
Theorem parseTimestamp_numeral_as_number (E : Engine) (n : Z) (unit : TimeUnit) :
  Date_parse E (showZ n) = None ->
  parseInt10 (showZ n) = Some n /\
  parseTimestamp E (TsString (showZ n)) unit = parseTimestamp E (TsNumber n) unit.
Proof.
  intros Hparse. destruct (parseInt10_showZ n) as [Hint Htrim].
  split; [exact Hint|].
  unfold parseTimestamp. rewrite Hparse, Hint, Htrim, String.eqb_refl. reflexivity.
Qed.

Lemma parseTimestamp_numeral_as_number_witness :
  parseTimestamp isoEngine (TsString "1700000000") unit_s =
    Some "2023-11-14T22:13:20.000Z".
Proof.
  destruct (parseTimestamp_numeral_as_number isoEngine 1700000000 unit_s) as [_ H].
  - reflexivity.
  - change (showZ 1700000000) with "1700000000" in H. rewrite H. reflexivity.
Defined.

Lemma toISOString_truthy (t : Z) : truthyString (Some (toISOString t)) = true.
Proof.
  unfold toISOString, truthyString.
  destruct (isoYear (YearFromTime t)); reflexivity.
Qed.

(** X7. On an engine that reads the ISO format back (as ECMA-262
    requires of [Date.parse]), [parseTimestampToDate] gives a Date of
    exactly the instant [parseTimestamp] wrote, and [undefined] exactly
    when [parseTimestamp] gives [undefined]: it never hands out an
    Invalid Date. *)
Theorem parseTimestampToDate_same_instant (E : Engine) (timestamp : Timestamp)
  (unit : TimeUnit) :
  (forall t, validTime t = true -> Date_parse E (toISOString t) = Some t) ->
  (forall t, BaseSourceFacts.instantOf E timestamp unit = Some t ->
     validTime t = true ->
     parseTimestamp E timestamp unit = Some (toISOString t) /\
     parseTimestampToDate E timestamp unit = Some (Some t)) /\
  (BaseSourceFacts.instantOf E timestamp unit = None ->
     parseTimestamp E timestamp unit = None /\
     parseTimestampToDate E timestamp unit = None).
Proof.
  intros Hreads. unfold parseTimestampToDate.
  rewrite (BaseSourceFacts.parseTimestamp_instant E timestamp unit).
  split.
  - intros t -> Hvalid. cbn [option_map]. split; [reflexivity|].
    rewrite toISOString_truthy. unfold newDateOfString.
    rewrite (Hreads t Hvalid). unfold newDate. rewrite Hvalid. reflexivity.
  - intros ->. split; reflexivity.
Qed.

Lemma parseTimestampToDate_same_instant_witness :
  parseTimestampToDate isoEngine (TsNumber 1700000000) unit_s =
    Some (Some 1700000000000).
Proof.
  destruct (parseTimestampToDate_same_instant isoEngine (TsNumber 1700000000) unit_s
              JSDateFacts.parseISO_toISOString) as [H _].
  apply (H 1700000000000); reflexivity.
Defined.

End NumeralFacts.

(* ===================================================================== *)
(** * Source registry: registering and unregistering                      *)
(* ===================================================================== *)
Module RegistryLaws.
Import JS Types Chrome SourceRegistry Fixtures.

Lemma has_lookup (sources : gmap string BaseSource.t) (name : string) :
  has sources name = false <-> sources !! name = None.
Proof. unfold has. destruct (sources !! name); split; congruence. Qed.

(** X8. Registering a source under a name that is free puts exactly that
    source there: it is found by [has] and [get], the registry grows by
    one, every other name is as before, a second registration under the
    name throws and names the source, and [unregister] undoes the
    registration; [clear] leaves no source. *)
Theorem register_adds_exactly_one (source : BaseSource.t)
  (sources : gmap string BaseSource.t) :
  has sources (BaseSource.name source) = false ->
  exists sources',
    register source sources = Return sources' /\
    has sources' (BaseSource.name source) = true /\
    get sources' (BaseSource.name source) = Some source /\
    size sources' = size sources + 1 /\
    (forall other, other <> BaseSource.name source ->
       get sources' other = get sources other) /\
    (forall again, BaseSource.name again = BaseSource.name source ->
       register again sources' =
         Throw (Err ("Source " +:+ BaseSource.name source +:+ " is already registered"))) /\
    unregister (BaseSource.name source) sources' = sources /\
    size (clear sources') = 0.
Proof.
  intros Hfree. apply has_lookup in Hfree.
  exists (<[BaseSource.name source := source]> sources).
  split; [unfold register; rewrite Hfree; reflexivity|].
  split; [unfold has; rewrite lookup_insert_eq; reflexivity|].
  split; [unfold get; apply lookup_insert_eq|].
  split; [unfold size; rewrite (map_size_insert_None _ _ _ Hfree); lia|].
  split; [intros other Hother; unfold get; apply lookup_insert_ne; congruence|].
  split.
  - intros again Hname. unfold register. rewrite Hname, lookup_insert_eq. reflexivity.
  - split; [|reflexivity]. unfold unregister. apply delete_insert_id. exact Hfree.
Qed.

Lemma register_adds_exactly_one_witness :
  exists sources',
    register SourceRegistryFacts.adapterA ∅ = Return sources' /\
    get sources' "A" = Some SourceRegistryFacts.adapterA /\
    size sources' = 1.
Proof.
  destruct (register_adds_exactly_one SourceRegistryFacts.adapterA ∅)
    as (sources' & H1 & _ & H2 & H3 & _).
  - reflexivity.
  - exists sources'. split; [exact H1|]. split; [exact H2|].
    rewrite H3. reflexivity.
Defined.

End RegistryLaws.

(* ===================================================================== *)
(** * Hacker News adapter: failed details, and the default threshold      *)
(* ===================================================================== *)
Module HackerNewsEdgeFacts.
Import JS Types Chrome BaseSource HackerNewsSource Fixtures.
Import HackerNewsFacts.

Definition failed (name : string) (e : Error) (s : Runtime) : Runtime :=
  set_console (console s ++ [mkLog LogError (name +:+ " error:") (Some e)]) s.

(** What [fetch] does once the id list has arrived. *)
Lemma fetch_with_ids (E : Engine) (net : Network)
  (options : option SourceFetchOptions) (s : Runtime)
  (r : Response (list Z)) (storyIds : list Z) :
  let count := nullish (BaseSource.count (nullish options noOptions)) defaultCount in
  let minScore := nullish (BaseSource.minScore (nullish options noOptions)) 100 in
  let ids := slice0 storyIds (Z.min (count * 3) 100) in
  let s1 := set_requests (requests s ++ topStoriesUrl :: map itemUrl ids) s in
  topstories net = Return r -> ok r = true -> body r = Return storyIds ->
  fetch E net options s =
    match first_rejection (map (fun id => settle (detailOutcome net id)) ids) with
    | Throw e => (Return [], failed sourceName e s1)
    | Return items =>
        match filterByScore minScore items with
        | Throw e => (Return [], failed sourceName e s1)
        | Return kept => (Return (map (toFeedItem E) (slice0 kept count)), s1)
        end
    end.
Proof.
  intros count minScore ids s1 Htop Hok Hbody.
  unfold fetch. fold count minScore.
  unfold safeExecute, try_catch, bind at 1.
  unfold safeFetch at 1, BaseSource.http_fetch, bind at 1.
  rewrite Htop, Hok. simpl.
  unfold ret, bind at 1, lift at 1. rewrite Hbody.
  unfold bind at 1, Promise_all, bind at 1.
  rewrite allSettled_fetchDetail. unfold lift at 1. fold ids.
  assert (Hs1 : set_requests
                  (requests (set_requests (requests s ++ [topStoriesUrl]) s) ++
                   map itemUrl ids)
                  (set_requests (requests s ++ [topStoriesUrl]) s) = s1).
  { unfold s1, set_requests. simpl. rewrite <- app_assoc. reflexivity. }
  rewrite Hs1.
  destruct (first_rejection (map (fun id => settle (detailOutcome net id)) ids))
    as [items|e]; [|reflexivity].
  unfold bind, lift.
  destruct (filterByScore minScore items) as [kept|e]; reflexivity.
Qed.

(** A detail that fails, or is [null], makes the filter step throw. *)
Lemma one_bad_detail (net : Network) (minScore : Z) (ids : list Z) (id : Z) :
  In id ids ->
  (detailOutcome net id = Return None \/ exists e, detailOutcome net id = Throw e) ->
  match first_rejection (map (fun id => settle (detailOutcome net id)) ids) with
  | Throw _ => True
  | Return items => exists e, filterByScore minScore items = Throw e
  end.
Proof.
  induction ids as [|x ids IH]; intros Hin Hbad; [contradiction|].
  cbn [map first_rejection].
  destruct (detailOutcome net x) as [[it|]|e] eqn:Hx; cbn [settle]; [| |exact I].
  - destruct Hin as [->|Hin].
    + destruct Hbad as [Hbad|[e Hbad]]; rewrite Hx in Hbad; discriminate.
    + specialize (IH Hin Hbad).
      destruct (first_rejection (map (fun id => settle (detailOutcome net id)) ids))
        as [items|e]; [|exact I].
      destruct IH as [e He]. exists e. cbn [filterByScore]. rewrite He. reflexivity.
  - destruct (first_rejection (map (fun id => settle (detailOutcome net id)) ids))
      as [items|e]; [|exact I].
    eexists. reflexivity.
Qed.

(** X9. One bad detail empties the whole fetch: when the id list has
    arrived and, among the stories asked for, one detail request fails or
    answers [null] (a story the API no longer has), the adapter returns
    no item at all, however many other stories qualify; it has asked for
    every detail, and it logs one error. *)
Theorem fetch_nothing_after_one_bad_detail (E : Engine) (net : Network)
  (options : option SourceFetchOptions) (s : Runtime)
  (r : Response (list Z)) (storyIds : list Z) (id : Z) :
  let count := nullish (BaseSource.count (nullish options noOptions)) defaultCount in
  let ids := slice0 storyIds (Z.min (count * 3) 100) in
  topstories net = Return r -> ok r = true -> body r = Return storyIds ->
  In id ids ->
  (detailOutcome net id = Return None \/ exists e, detailOutcome net id = Throw e) ->
  exists e,
    fetch E net options s =
      (Return [],
       failed sourceName e
         (set_requests (requests s ++ topStoriesUrl :: map itemUrl ids) s)).
Proof.
  intros count ids Htop Hok Hbody Hin Hbad.
  rewrite (fetch_with_ids E net options s r storyIds Htop Hok Hbody).
  fold count ids.
  pose proof (one_bad_detail net
                (nullish (BaseSource.minScore (nullish options noOptions)) 100)
                ids id Hin Hbad) as H.
  destruct (first_rejection (map (fun id => settle (detailOutcome net id)) ids))
    as [items|e].
  - destruct H as [e He]. rewrite He. exists e. reflexivity.
  - exists e. reflexivity.
Qed.

(** Stories 1 and 3 score 500; the API answers [null] for story 2. *)
Definition deletedStory : Network :=
  mkNetwork (okResponse [1; 2; 3])
    (fun n => if n =? 2 then okResponse None else okResponse (Some (story n 500))).

Lemma fetch_nothing_after_one_bad_detail_witness :
  fst (fetch isoEngine deletedStory (askFor 5) idle) = Return [].
Proof.
  destruct (fetch_nothing_after_one_bad_detail isoEngine deletedStory (askFor 5) idle
              (mkResponse true 200 "OK" (Return [1; 2; 3])) [1; 2; 3] 2)
    as [e He].
  - reflexivity.
  - reflexivity.
  - reflexivity.
  - simpl. right. left. reflexivity.
  - left. reflexivity.
  - rewrite He. reflexivity.
Defined.

Lemma slice0_Forall {A} (P : A -> Prop) (l : list A) (e : Z) :
  Forall P l -> Forall P (slice0 l e).
Proof. intros H. unfold slice0. destruct (e <? 0); apply Forall_firstn; exact H. Qed.

(** Whatever the network does, every item [fetch] returns has a score of
    at least the threshold in force. *)
Lemma fetch_scores_at_least (E : Engine) (net : Network)
  (options : option SourceFetchOptions) (s : Runtime) :
  let minScore := nullish (BaseSource.minScore (nullish options noOptions)) 100 in
  exists result s',
    fetch E net options s = (Return result, s') /\
    Forall (fun fi => exists sc, FeedItem.score fi = Some sc /\ minScore <= sc) result.
Proof.
  intros minScore.
  destruct (topstories net) as [r|e] eqn:Htop;
    [destruct (ok r) eqn:Hok; [destruct (body r) as [storyIds|e] eqn:Hbody|]|].
  - rewrite (fetch_with_ids E net options s r storyIds Htop Hok Hbody).
    fold minScore.
    destruct (first_rejection _) as [items|e];
      [|eexists _, _; split; [reflexivity|constructor]].
    destruct (filterByScore minScore items) as [kept|e] eqn:Hkept;
      [|eexists _, _; split; [reflexivity|constructor]].
    eexists _, _. split; [reflexivity|].
    rewrite List.Forall_map. apply slice0_Forall.
    eapply List.Forall_impl; [|eapply filterByScore_scores; eauto].
    intros it Hit. exists (score it). split; [reflexivity|exact Hit].
  - unfold fetch, safeExecute, try_catch, bind at 1.
    unfold safeFetch at 1, BaseSource.http_fetch, bind at 1.
    rewrite Htop, Hok. simpl. unfold ret, bind at 1, lift at 1. rewrite Hbody.
    eexists _, _. split; [reflexivity|constructor].
  - unfold fetch, safeExecute, try_catch, bind at 1.
    unfold safeFetch at 1, BaseSource.http_fetch, bind at 1.
    rewrite Htop, Hok. eexists _, _. split; [reflexivity|constructor].
  - unfold fetch, safeExecute, try_catch, bind at 1.
    unfold safeFetch at 1, BaseSource.http_fetch, bind at 1.
    rewrite Htop. eexists _, _. split; [reflexivity|constructor].
Qed.

(** X10. A minimum score of 0 in the settings means 100: for a Hacker
    News source whose [minScore] is 0 or missing,
    [mapSourceConfigToOptions] passes no [minScore] on and the adapter
    falls back to 100, so no story scoring under 100 is returned.  Any
    other [minScore] is the threshold itself. *)
Theorem hackerNews_minScore_zero_means_100 (E : Engine) (net : Network)
  (source : SourceConfig.t) (s : Runtime) :
  SourceConfig.type source = HackerNews ->
  let options := DataFetcher.mapSourceConfigToOptions source in
  (SourceConfig.minScore source = Some 0 \/ SourceConfig.minScore source = None ->
     BaseSource.minScore options = None /\
     exists result s',
       fetch E net (Some options) s = (Return result, s') /\
       Forall (fun fi => exists sc, FeedItem.score fi = Some sc /\ 100 <= sc) result) /\
  (forall m, SourceConfig.minScore source = Some m -> m <> 0 ->
     BaseSource.minScore options = Some m /\
     exists result s',
       fetch E net (Some options) s = (Return result, s') /\
       Forall (fun fi => exists sc, FeedItem.score fi = Some sc /\ m <= sc) result).
Proof.
  intros Htype options.
  pose proof (fetch_scores_at_least E net (Some options) s) as Hfetch.
  cbv zeta in Hfetch. cbn [nullish] in Hfetch.
  split.
  - intros Hzero.
    assert (Hnone : BaseSource.minScore options = None).
    { unfold options, DataFetcher.mapSourceConfigToOptions. cbn [BaseSource.minScore].
      rewrite Htype. destruct Hzero as [->| ->]; reflexivity. }
    split; [exact Hnone|]. rewrite Hnone in Hfetch. exact Hfetch.
  - intros m Hm Hnz.
    assert (Hsome : BaseSource.minScore options = Some m).
    { unfold options, DataFetcher.mapSourceConfigToOptions. cbn [BaseSource.minScore].
      rewrite Htype, Hm. cbn [SourceType_eqb truthyZ andb].
      assert (H0 : (m =? 0) = false) by (apply Z.eqb_neq; exact Hnz).
      rewrite H0. reflexivity. }
    split; [exact Hsome|]. rewrite Hsome in Hfetch. exact Hfetch.
Qed.

(** The Hacker News source of the settings with the minimum score set
    to 0. *)
Definition anyScore : SourceConfig.t :=
  Storage.builtin "hacker-news" HackerNews true "Hacker News" 15 (Some 0).

Lemma hackerNews_minScore_zero_means_100_witness :
  map FeedItem.id
    (returned (fst (fetch isoEngine fiveStories
                      (Some (DataFetcher.mapSourceConfigToOptions anyScore)) idle)))
    = ["hackernews-1"; "hackernews-2"; "hackernews-4"; "hackernews-5"] /\
  exists result s',
    fetch isoEngine fiveStories (Some (DataFetcher.mapSourceConfigToOptions anyScore)) idle
      = (Return result, s') /\
    Forall (fun fi => exists sc, FeedItem.score fi = Some sc /\ 100 <= sc) result.
Proof.
  split; [vm_compute; reflexivity|].
  destruct (hackerNews_minScore_zero_means_100 isoEngine fiveStories anyScore idle
              eq_refl) as [H _].
  destruct (H (or_introl eq_refl)) as [_ Hres]. exact Hres.
Defined.

End HackerNewsEdgeFacts.

(* ===================================================================== *)
(** * Product Hunt adapter: the proxy fallback                            *)
(* ===================================================================== *)
Module ProductHuntFacts.
Import JS Types Chrome BaseSource ProductHuntSource Fixtures.

(** How trying one proxy ends; the run-time state plays no part in it. *)
Definition attempt (w : World) (proxy : RSSProxyConfig)
  : Completion (Field (list RSS2JSONItem)) :=
  fst (tryProxy w proxy idle).

(** The state after the requests [urls] and the console lines [lines]. *)
Definition after (urls : list string) (lines : list LogLine) (s : Runtime) : Runtime :=
  mkRuntime (host s) (console s ++ lines) (requests s ++ urls) (stored s)
    (forceRefresh s).

Definition requestOf (proxy : RSSProxyConfig) : string := buildUrl proxy rssUrl.

Definition warningOf (proxy : RSSProxyConfig) (e : Error) : LogLine :=
  mkLog LogWarn ("[Warn] " +:+ proxyWarning proxy e) None.

Lemma after_after (u1 u2 : list string) (l1 l2 : list LogLine) (s : Runtime) :
  after u2 l2 (after u1 l1 s) = after (u1 ++ u2) (l1 ++ l2) s.
Proof. unfold after. cbn. rewrite <- !app_assoc. reflexivity. Qed.

Ltac step :=
  match goal with
  | |- context [match ?x with _ => _ end] =>
      lazymatch x with
      | context [match _ with _ => _ end] => fail
      | _ => destruct x eqn:?
      end
  end; cbv beta iota; cbn [fst snd negb].

Lemma tryProxy_any (w : World) (proxy : RSSProxyConfig) (s s0 : Runtime) :
  tryProxy w proxy s = (fst (tryProxy w proxy s0), after [requestOf proxy] [] s).
Proof.
  unfold tryProxy, requestOf, after, safeFetch, BaseSource.http_fetch.
  unfold bind, lift, ret, throw. cbv beta.
  repeat step; cbn; rewrite ?app_nil_r; reflexivity.
Qed.

Lemma tryProxy_run (w : World) (proxy : RSSProxyConfig) (s : Runtime) :
  tryProxy w proxy s = (attempt w proxy, after [requestOf proxy] [] s).
Proof. apply tryProxy_any. Qed.

(** The loop: the proxies that fail, with their errors, and then either
    one that answers or the end of the list. *)
Lemma tryProxies_answer (w : World) (tried : list RSSProxyConfig) :
  forall (failures errors : list Error) (proxy : RSSProxyConfig)
         (rest : list RSSProxyConfig) (found : Field (list RSS2JSONItem)) (s : Runtime),
    Forall2 (fun p e => attempt w p = Throw e) tried failures ->
    attempt w proxy = Return found ->
    tryProxies w (tried ++ proxy :: rest) errors s =
      (Return found,
       after (map requestOf (tried ++ [proxy]))
         (zip_with warningOf tried failures) s).
Proof.
  induction tried as [|p tried IH]; intros failures errors proxy rest found s Hfail Hok.
  - inversion Hfail; subst. cbn [app tryProxies]. unfold try_catch.
    rewrite tryProxy_run, Hok. reflexivity.
  - inversion Hfail as [|? e ? failures' Hp Hrest]; subst.
    cbn [app tryProxies]. unfold try_catch. rewrite tryProxy_run, Hp.
    unfold bind, logger_warn, log.
    rewrite (IH failures' (errors ++ [e]) proxy rest found _ Hrest Hok).
    unfold after, set_console, warningOf.
    cbn [host console requests stored forceRefresh map zip_with app].
    rewrite ?app_nil_r, <- ?app_assoc. reflexivity.
Qed.

Lemma tryProxies_exhausted (w : World) (proxies : list RSSProxyConfig) :
  forall (failures errors : list Error) (s : Runtime),
    Forall2 (fun p e => attempt w p = Throw e) proxies failures ->
    tryProxies w proxies errors s =
      (Throw (Err ("All RSS proxies failed: " +:+
                   join "; " (map message (errors ++ failures)))),
       after (map requestOf proxies) (zip_with warningOf proxies failures) s).
Proof.
  induction proxies as [|p proxies IH]; intros failures errors s Hfail.
  - inversion Hfail; subst. cbn [tryProxies]. unfold throw, after. cbn.
    rewrite !app_nil_r. destruct s; reflexivity.
  - inversion Hfail as [|? e ? failures' Hp Hrest]; subst.
    cbn [tryProxies]. unfold try_catch. rewrite tryProxy_run, Hp.
    unfold bind, logger_warn, log.
    rewrite (IH failures' (errors ++ [e]) _ Hrest).
    rewrite <- app_assoc. cbn [app].
    unfold after, set_console, warningOf.
    cbn [host console requests stored forceRefresh map zip_with app].
    rewrite ?app_nil_r, <- ?app_assoc. reflexivity.
Qed.

(** X11. The proxies are tried strictly in the order rss2json,
    allorigins, corsproxy, and the first one that answers decides: the
    result is its answer, the requests made are those to the proxies up
    to it and to no later one, and each proxy that failed before it left
    one warning with its error message. *)
Theorem fetchWithFallback_first_answer_decides (w : World)
  (tried rest : list RSSProxyConfig) (proxy : RSSProxyConfig)
  (failures : list Error) (found : Field (list RSS2JSONItem)) (s : Runtime) :
  RSS_PROXIES = tried ++ proxy :: rest ->
  Forall2 (fun p e => attempt w p = Throw e) tried failures ->
  attempt w proxy = Return found ->
  exists s',
    fetchWithFallback w s = (Return found, s') /\
    requests s' = requests s ++ map requestOf tried ++ [requestOf proxy] /\
    console s' = console s ++ zip_with warningOf tried failures /\
    stored s' = stored s.
Proof.
  intros Hsplit Hfail Hok. unfold fetchWithFallback. rewrite Hsplit.
  rewrite (tryProxies_answer w tried failures [] proxy rest found s Hfail Hok).
  eexists. split; [reflexivity|].
  unfold after. cbn [requests console stored]. rewrite map_app. auto.
Qed.

(** A world where rss2json is down, allorigins relays the feed, and the
    feed holds two products. *)
Definition launch (name : string) : RSS2JSONItem :=
  mkRSS2JSONItem name ("https://www.producthunt.com/posts/" +:+ name)
    ("<p>" +:+ name +:+ " is   out</p>") "2024-03-10T08:00:00.000Z" None.

Definition feedText : string := "<rss>two items</rss>".

Definition relayed : World :=
  mkWorld isoEngine
    (fun text => if String.eqb text feedText then [launch "alpha"; launch "beta"] else [])
    (fun requestUrl =>
       if String.eqb requestUrl (requestOf rss2json)
       then Return (mkResponse false 500 "Internal Server Error"
                      (Return (mkPayload (Throw (SyntaxError "Unexpected end of JSON input"))
                                 (Return ""))))
       else if String.eqb requestUrl (requestOf allorigins)
       then Return (mkResponse true 200 "OK"
                      (Return (mkPayload (Return (JsonObject Missing (Present feedText)))
                                 (Return ""))))
       else Throw (TypeError "Failed to fetch")).

Lemma fetchWithFallback_first_answer_decides_witness :
  exists s',
    fetchWithFallback relayed idle =
      (Return (Present [launch "alpha"; launch "beta"]), s') /\
    requests s' =
      ["https://api.rss2json.com/v1/api.json?rss_url=https%3A%2F%2Fwww.producthunt.com%2Ffeed";
       "https://api.allorigins.win/get?url=https%3A%2F%2Fwww.producthunt.com%2Ffeed"] /\
    console s' =
      [mkLog LogWarn
         ("[Warn] [ProductHunt] Proxy https://api.rss2json.com/v1/api.json failed: " +:+
          "ProductHunt API error: 500 Internal Server Error") None].
Proof.
  destruct (fetchWithFallback_first_answer_decides relayed [rss2json] [corsproxy]
              allorigins [Err "ProductHunt API error: 500 Internal Server Error"]
              (Present [launch "alpha"; launch "beta"]) idle)
    as (s' & Hrun & Hreq & Hlog & _).
  - reflexivity.
  - constructor; [reflexivity|constructor].
  - reflexivity.
  - exists s'. split; [exact Hrun|]. split; [rewrite Hreq|rewrite Hlog]; reflexivity.
Defined.

Definition failedWith (e : Error) (s : Runtime) : Runtime :=
  set_console (console s ++ [mkLog LogError (sourceName +:+ " error:") (Some e)]) s.

(** X12. When all three proxies fail, [fetch] returns no items and does
    not throw: every proxy was asked once, in order, each failure left
    its warning, and the error logged at the end lists the three
    messages joined by a semicolon. *)
Theorem fetch_after_all_proxies_failed (w : World)
  (options : option SourceFetchOptions) (e1 e2 e3 : Error) (s : Runtime) :
  attempt w rss2json = Throw e1 ->
  attempt w allorigins = Throw e2 ->
  attempt w corsproxy = Throw e3 ->
  fetch w options s =
    (Return [],
     failedWith
       (Err ("All RSS proxies failed: " +:+ message e1 +:+ "; " +:+ message e2 +:+
             "; " +:+ message e3))
       (after [requestOf rss2json; requestOf allorigins; requestOf corsproxy]
          [warningOf rss2json e1; warningOf allorigins e2; warningOf corsproxy e3] s)).
Proof.
  intros H1 H2 H3. unfold fetch, safeExecute, try_catch, bind at 1.
  unfold fetchWithFallback.
  rewrite (tryProxies_exhausted w RSS_PROXIES [e1; e2; e3] [] s).
  - reflexivity.
  - repeat constructor; assumption.
Qed.

Definition offline : World :=
  mkWorld isoEngine (fun _ => []) (fun _ => Throw (TypeError "Failed to fetch")).

Lemma fetch_after_all_proxies_failed_witness :
  fst (fetch offline None idle) = Return [] /\
  map JS.text (console (snd (fetch offline None idle))) =
    ["[Warn] [ProductHunt] Proxy https://api.rss2json.com/v1/api.json failed: Failed to fetch";
     "[Warn] [ProductHunt] Proxy https://api.allorigins.win/get failed: Failed to fetch";
     "[Warn] [ProductHunt] Proxy https://corsproxy.io/ failed: Failed to fetch";
     "ProductHunt error:"].
Proof.
  rewrite (fetch_after_all_proxies_failed offline None
             (TypeError "Failed to fetch") (TypeError "Failed to fetch")
             (TypeError "Failed to fetch") idle); try reflexivity.
  split; reflexivity.
Defined.

Lemma imap_Forall {A B} (P : B -> Prop) (l : list A) :
  forall (f : nat -> A -> B), (forall i x, P (f i x)) -> Forall P (imap f l).
Proof.
  induction l as [|x l IH]; intros f Hf; cbn [imap]; constructor; [apply Hf|].
  apply IH. intros i y. apply Hf.
Qed.

(** X13. Whatever the proxies answer, [fetch] does not throw, touches no
    stored data, and returns at most [count] items (5 when no count is
    given), each an item of source ProductHunt with a summary of at most
    203 characters and an author, "Product Hunt" when the feed names
    none. *)
Theorem fetch_at_most_count_items (w : World) (options : option SourceFetchOptions)
  (s : Runtime) :
  let count := nullish (BaseSource.count (nullish options noOptions)) defaultCount in
  0 <= count ->
  exists result s',
    fetch w options s = (Return result, s') /\
    Z.of_nat (length result) <= count /\
    stored s' = stored s /\
    Forall (fun fi =>
              FeedItem.source fi = ProductHunt /\
              (exists text, FeedItem.summary fi = Some text /\
                            (String.length text <= 203)%nat) /\
              (exists name, FeedItem.author fi = Some name /\ name <> ""))
      result.
Proof.
  intros count Hcount. unfold fetch. fold count.
  unfold safeExecute, try_catch, bind at 1.
  assert (Hstored : forall proxies errors s0,
            stored (snd (tryProxies w proxies errors s0)) = stored s0).
  { induction proxies as [|p proxies IH]; intros errors s0; [reflexivity|].
    cbn [tryProxies]. unfold try_catch. rewrite tryProxy_run.
    destruct (attempt w p) as [found|e]; [reflexivity|].
    unfold bind, logger_warn, log. rewrite IH. reflexivity. }
  specialize (Hstored RSS_PROXIES [] s). unfold fetchWithFallback.
  destruct (tryProxies w RSS_PROXIES [] s) as [[[| |rssItems]|e] s1];
    cbn [snd] in Hstored;
    try (eexists _, _; split; [reflexivity|];
         split; [cbn; lia|]; split; [exact Hstored|constructor]).
  unfold bind, Date_now, ret.
  eexists _, _. split; [reflexivity|]. split; [|split; [exact Hstored|]].
  - rewrite length_imap. apply HackerNewsFacts.slice0_length. exact Hcount.
  - apply imap_Forall. intros i item. cbn [toFeedItem FeedItem.source
      FeedItem.summary FeedItem.author]. split; [reflexivity|]. split.
    + eexists. split; [reflexivity|].
      pose proof (TextFacts.cleanString_length (stripHtml (description item)) 200).
      lia.
    + eexists. split; [reflexivity|].
      unfold truthyString. destruct (author item) as [name|]; [|discriminate].
      destruct (String.eqb name "") eqn:Hname; cbn [negb nullish]; [discriminate|].
      apply String.eqb_neq. exact Hname.
Qed.

Lemma fetch_at_most_count_items_witness :
  map (fun fi => (FeedItem.id fi, FeedItem.summary fi, FeedItem.author fi))
    (returned (fst (fetch relayed (Some (mkOptions (Some 1) None None None None None)) idle)))
  = [("producthunt-0-1710115205000", Some "alpha is out", Some "Product Hunt")] /\
  exists result s',
    fetch relayed (Some (mkOptions (Some 1) None None None None None)) idle =
      (Return result, s') /\
    Z.of_nat (length result) <= 1.
Proof.
  split; [vm_compute; reflexivity|].
  destruct (fetch_at_most_count_items relayed
              (Some (mkOptions (Some 1) None None None None None)) idle)
    as (result & s' & H1 & H2 & _).
  - cbn. lia.
  - exists result, s'. split; assumption.
Defined.

End ProductHuntFacts.

(* ===================================================================== *)
(** * Storage: what is written can be read, and what happens when not     *)
(* ===================================================================== *)
Module StoreFacts.
Import JS Types Chrome Storage Fixtures.

(** One write of one key, in full. *)
Lemma safeStorageSet_one (key : string) (value : StoredValue) (s : Runtime) :
  safeStorageSet [(key, value)] s =
    if refuses (host s) (stored s) key value
    then (if isChromeExtension (host s) then Return tt else Throw QuotaExceededError, s)
    else (Return tt, set_stored (<[key := value]> (stored s)) s).
Proof.
  unfold safeStorageSet, chrome_storage_set, localStorage_setAll, bind,
    localStorage_setItem, ret.
  cbn [chrome_accepts fold_left fst snd].
  destruct (isChromeExtension (host s));
    destruct (refuses (host s) (stored s) key value); reflexivity.
Qed.

(** The configuration and the feeds [getConfig] and [getFeeds] give in a
    state. *)
Definition configOf (s : Runtime) : AppConfig.t :=
  match stored s !! KEY_CONFIG with
  | Some (VConfig c) => c
  | _ => defaultConfig
  end.

Definition feedsOf (s : Runtime) : list FeedItem.t :=
  match stored s !! KEY_FEEDS with
  | Some (VFeeds l) => l
  | _ => []
  end.

Lemma getLastUpdate_run (s : Runtime) :
  getLastUpdate s = (Return (match stored s !! KEY_LAST_UPDATE with
                             | Some (VNumber n) => n
                             | _ => 0
                             end), s).
Proof. unfold getLastUpdate, bind, ret. rewrite StorageFacts.getItem_run. reflexivity. Qed.

Lemma getDataMetadata_run (s : Runtime) :
  getDataMetadata s = (Return (match stored s !! KEY_DATA_METADATA with
                               | Some (VMetadata m) => Some m
                               | _ => None
                               end), s).
Proof.
  unfold getDataMetadata, bind, ret. rewrite StorageFacts.getItem_run. reflexivity.
Qed.

(** X14. What is saved is what is read: once the store has taken the
    write, [getFeeds] after [saveFeeds] gives the saved list and leaves
    the configuration as it was; [getConfig] after [saveConfig] gives the
    saved configuration and leaves the feeds; [getCache] after
    [saveCache] gives the saved entry. *)
Theorem saved_values_read_back (s : Runtime) :
  (forall feeds,
     refuses (host s) (stored s) KEY_FEEDS (VFeeds feeds) = false ->
     exists s',
       saveFeeds feeds s = (Return tt, s') /\
       getFeeds s' = (Return feeds, s') /\
       fst (getConfig s') = fst (getConfig s)) /\
  (forall config,
     refuses (host s) (stored s) KEY_CONFIG (VConfig config) = false ->
     exists s',
       saveConfig config s = (Return tt, s') /\
       getConfig s' = (Return config, s') /\
       fst (getFeeds s') = fst (getFeeds s)) /\
  (forall key entry,
     refuses (host s) (stored s) key (VCache entry) = false ->
     exists s',
       saveCache key entry s = (Return tt, s') /\
       getCache key s' = (Return (Some entry), s') /\
       (forall other, other <> key -> fst (getCache other s') = fst (getCache other s))).
Proof.
  split; [|split].
  - intros feeds Hacc. eexists. split.
    + unfold saveFeeds. rewrite safeStorageSet_one, Hacc. reflexivity.
    + split.
      * rewrite StorageFacts.getFeeds_run. cbn [stored set_stored].
        rewrite lookup_insert_eq. reflexivity.
      * rewrite !StorageFacts.getConfig_run. cbn [stored set_stored fst].
        rewrite lookup_insert_ne by discriminate. reflexivity.
  - intros config Hacc. eexists. split.
    + unfold saveConfig. rewrite safeStorageSet_one, Hacc. reflexivity.
    + split.
      * rewrite StorageFacts.getConfig_run. cbn [stored set_stored].
        rewrite lookup_insert_eq. reflexivity.
      * rewrite !StorageFacts.getFeeds_run. cbn [stored set_stored fst].
        rewrite lookup_insert_ne by discriminate. reflexivity.
  - intros key entry Hacc. eexists. split.
    + unfold saveCache. rewrite safeStorageSet_one, Hacc. reflexivity.
    + split.
      * rewrite DataFetcherFacts.getCache_run. cbn [stored set_stored].
        rewrite lookup_insert_eq. reflexivity.
      * intros other Hother. rewrite !DataFetcherFacts.getCache_run.
        cbn [stored set_stored fst].
        rewrite lookup_insert_ne by congruence. reflexivity.
Qed.

Lemma saved_values_read_back_witness :
  exists s',
    saveFeeds StorageFacts.backupFeeds idle = (Return tt, s') /\
    getFeeds s' = (Return StorageFacts.backupFeeds, s').
Proof.
  destruct (proj1 (saved_values_read_back idle) StorageFacts.backupFeeds eq_refl)
    as (s' & H1 & H2 & _).
  exists s'. split; assumption.
Defined.

(** X15. A write the store refuses: in the extension [saveFeeds] still
    returns normally and nothing is stored, so the caller cannot tell and
    the old feeds stay; in the development fallback on [localStorage] it
    rejects with the quota error, and nothing is stored either. *)
Theorem refused_write_is_silent_in_extension (s : Runtime) (feeds : list FeedItem.t) :
  refuses (host s) (stored s) KEY_FEEDS (VFeeds feeds) = true ->
  (isChromeExtension (host s) = true ->
     saveFeeds feeds s = (Return tt, s) /\
     getFeeds (snd (saveFeeds feeds s)) = getFeeds s) /\
  (isChromeExtension (host s) = false ->
     saveFeeds feeds s = (Throw QuotaExceededError, s)).
Proof.
  intros Hrefused. unfold saveFeeds. rewrite safeStorageSet_one, Hrefused.
  split; intros ->; [split|]; reflexivity.
Qed.

(** A store that is full: it takes no feed list that is not empty. *)
Definition fullStore : gmap string StoredValue -> string -> StoredValue -> bool :=
  fun _ _ value => match value with VFeeds (_ :: _) => true | _ => false end.

Lemma refused_write_is_silent_in_extension_witness :
  let s := storeWith (hostOf true fullStore) ∅ in
  saveFeeds StorageFacts.backupFeeds s = (Return tt, s) /\
  fst (getFeeds s) = Return [].
Proof.
  intros s. split; [|reflexivity].
  apply (proj1 (refused_write_is_silent_in_extension s StorageFacts.backupFeeds
                  eq_refl) eq_refl).
Defined.

(** X16. After [clearAll] every reader is back at its default,
    whatever was stored: the default configuration, no feeds, a last
    update of 0, no metadata (so the freshness policy asks for a forced
    refresh) and no cache entry. *)
Theorem clearAll_resets_to_defaults (s : Runtime) :
  exists s',
    clearAll s = (Return tt, s') /\
    getConfig s' = (Return defaultConfig, s') /\
    getFeeds s' = (Return [], s') /\
    getLastUpdate s' = (Return 0, s') /\
    getDataMetadata s' = (Return None, s') /\
    (forall key, getCache key s' = (Return None, s')) /\
    (forall md, fst (getDataMetadata s') = Return md ->
       Freshness.getRefreshStrategy (clock (host s')) md = Freshness.FORCE_REFRESH).
Proof.
  exists (set_stored ∅ s). split; [reflexivity|].
  split; [rewrite StorageFacts.getConfig_run; reflexivity|].
  split; [rewrite StorageFacts.getFeeds_run; reflexivity|].
  split; [rewrite getLastUpdate_run; reflexivity|].
  split; [rewrite getDataMetadata_run; reflexivity|].
  split; [intros key; rewrite DataFetcherFacts.getCache_run; reflexivity|].
  intros md. rewrite getDataMetadata_run. cbn. intros [= <-]. reflexivity.
Qed.

Lemma clearAll_resets_to_defaults_witness :
  let before := storeWith (hostOf true acceptsAll)
                  (<[KEY_FEEDS := VFeeds StorageFacts.backupFeeds]> ∅) in
  exists s',
    clearAll before = (Return tt, s') /\
    getFeeds s' = (Return [], s') /\
    Freshness.getRefreshStrategy (clock (host s')) None = Freshness.FORCE_REFRESH.
Proof.
  intros before.
  destruct (clearAll_resets_to_defaults before) as (s' & H1 & _ & H2 & _ & H3 & _ & H4).
  exists s'. split; [exact H1|]. split; [exact H2|].
  apply H4. rewrite H3. reflexivity.
Defined.

(** X17. A JSON export can be imported again: when [JSON.parse] reads
    the exported text back to the exported configuration and feeds, then
    importing that text into any store that accepts the two writes leaves
    exactly the exported configuration and feeds there. *)
Theorem exported_json_imports_back (J : JSON) (s target : Runtime)
  (config : AppConfig.t) (feeds : list FeedItem.t) :
  fst (getConfig s) = Return config ->
  fst (getFeeds s) = Return feeds ->
  JSON_parse J (JSON_stringify J config feeds) =
    Return (ImportedValue (Some config) (Some feeds)) ->
  (forall d k v, refuses (host target) d k v = false) ->
  exists text target',
    exportData J json s = (Return text, s) /\
    importData J text json target = (Return true, target') /\
    getConfig target' = (Return config, target') /\
    getFeeds target' = (Return feeds, target').
Proof.
  intros Hconfig Hfeeds Hparse Hacc.
  rewrite StorageFacts.getConfig_run in Hconfig. cbn [fst] in Hconfig.
  rewrite StorageFacts.getFeeds_run in Hfeeds. cbn [fst] in Hfeeds.
  exists (JSON_stringify J config feeds).
  exists (set_stored (<[KEY_FEEDS := VFeeds feeds]>
                        (<[KEY_CONFIG := VConfig config]> (stored target))) target).
  split; [|split; [|split]].
  - unfold exportData, bind at 1. rewrite StorageFacts.getConfig_run.
    unfold bind at 1. rewrite StorageFacts.getFeeds_run. unfold ret.
    injection Hconfig as ->. injection Hfeeds as ->. reflexivity.
  - unfold importData, try_catch, bind at 1, lift. rewrite Hparse. cbv beta iota.
    unfold saveConfig, saveFeeds, bind, ret.
    rewrite StorageFacts.safeStorageSet_accepted by exact Hacc. cbv beta iota.
    rewrite StorageFacts.safeStorageSet_accepted by exact Hacc. reflexivity.
  - rewrite StorageFacts.getConfig_run. cbn [stored set_stored].
    rewrite lookup_insert_ne by discriminate. rewrite lookup_insert_eq. reflexivity.
  - rewrite StorageFacts.getFeeds_run. cbn [stored set_stored].
    rewrite lookup_insert_eq. reflexivity.
Qed.

Lemma exported_json_imports_back_witness :
  let s := storeWith (hostOf true acceptsAll)
             (<[KEY_CONFIG := VConfig StorageFacts.backupConfig]>
                (<[KEY_FEEDS := VFeeds StorageFacts.backupFeeds]> ∅)) in
  exists text target',
    exportData StorageFacts.backupJSON json s = (Return text, s) /\
    importData StorageFacts.backupJSON text json idle = (Return true, target') /\
    getFeeds target' = (Return StorageFacts.backupFeeds, target').
Proof.
  intros s.
  destruct (exported_json_imports_back StorageFacts.backupJSON s idle
              StorageFacts.backupConfig StorageFacts.backupFeeds)
    as (text & target' & H1 & H2 & _ & H3); try reflexivity.
  exists text, target'. repeat split; assumption.
Defined.

End StoreFacts.

(* ===================================================================== *)
(** * Aggregator: the per-source cache                                    *)
(* ===================================================================== *)
Module CacheFacts.
Import JS Types Chrome BaseSource DataFetcher Fixtures.

(** The cache entry of a source, as [getCache] reads it. *)
Definition cachedFor (source : SourceConfig.t) (s : Runtime) : option CacheEntry :=
  match stored s !! cacheKeyOf source with
  | Some (VCache entry) => Some entry
  | _ => None
  end.

(** The state after the cache entry of [source] was written. *)
Definition cachedAs (source : SourceConfig.t) (items : list FeedItem.t) (s : Runtime)
  : Runtime :=
  set_stored
    (<[cacheKeyOf source := VCache (mkCache items (Freshness.now (clock (host s))))]>
       (stored s)) s.

(** The network path of [fetchDataByType], for a registered adapter that
    returns. *)
Lemma fetchDataByType_fetches (registry : gmap string BaseSource.t)
  (source : SourceConfig.t) (adapter : BaseSource.t) (items : list FeedItem.t)
  (s s1 : Runtime) :
  cacheValid (forceRefresh s) (cachedFor source s) (Freshness.now (clock (host s)))
    = false ->
  registry !! SourceType_string (SourceConfig.type source) = Some adapter ->
  BaseSource.fetch adapter (Some (mapSourceConfigToOptions source)) s = (Return items, s1) ->
  fetchDataByType registry source s =
    if refuses (host s1) (stored s1) (cacheKeyOf source)
         (VCache (mkCache items (Freshness.now (clock (host s1)))))
    then if isChromeExtension (host s1) then (Return items, s1)
         else (Return (cachedItems (cachedFor source s)),
               set_console
                 (console s1 ++
                  [mkLog LogError
                     ("[Error] " +:+ "Error fetching " +:+
                      SourceType_string (SourceConfig.type source) +:+ ":")
                     (Some QuotaExceededError)]) s1)
    else (Return items, cachedAs source items s1).
Proof.
  intros Hstale Hreg Hfetch.
  unfold fetchDataByType. unfold bind at 1. rewrite DataFetcherFacts.getCache_run.
  fold (cachedFor source s). rewrite Hstale.
  unfold try_catch at 1. unfold SourceRegistry.has. rewrite Hreg.
  change (negb true) with false. cbv iota. unfold bind at 1.
  rewrite (SourceRegistryFacts.fetchFrom_returning registry _ _ adapter items s s1
             Hreg Hfetch).
  unfold bind at 1, Date_now. unfold bind at 1, Storage.saveCache.
  rewrite StoreFacts.safeStorageSet_one.
  destruct (refuses (host s1) (stored s1) (cacheKeyOf source) _).
  - destruct (isChromeExtension (host s1)); reflexivity.
  - reflexivity.
Qed.

(** X18. Cache or adapter.  With the force flag off, a cache entry of
    the source that is less than 30 minutes old is served as it is:
    [fetchDataByType] returns its items and changes nothing; no adapter
    is called (the result is the same for every registry), nothing is
    requested, logged or written.  With the force flag on, the registered
    adapter is called even when such an entry is stored: what it returns
    is the result and, when the store takes the write, replaces the
    entry, stamped with the current time. *)
Theorem fetchDataByType_cache_or_adapter (registry : gmap string BaseSource.t)
  (source : SourceConfig.t) (s : Runtime) :
  (forall entry,
     stored s !! cacheKeyOf source = Some (VCache entry) ->
     forceRefresh s = false ->
     Freshness.now (clock (host s)) - timestamp entry < CACHE_DURATION ->
     fetchDataByType registry source s = (Return (items entry), s)) /\
  (forall adapter fetched s1,
     forceRefresh s = true ->
     registry !! SourceType_string (SourceConfig.type source) = Some adapter ->
     BaseSource.fetch adapter (Some (mapSourceConfigToOptions source)) s
       = (Return fetched, s1) ->
     refuses (host s1) (stored s1) (cacheKeyOf source)
       (VCache (mkCache fetched (Freshness.now (clock (host s1))))) = false ->
     fetchDataByType registry source s = (Return fetched, cachedAs source fetched s1) /\
     cachedFor source (cachedAs source fetched s1) =
       Some (mkCache fetched (Freshness.now (clock (host s1))))).
Proof.
  split.
  - intros entry Hentry Hflag Hfresh.
    unfold fetchDataByType. unfold bind at 1. rewrite DataFetcherFacts.getCache_run.
    rewrite Hentry, Hflag. unfold cacheValid. cbn [negb andb timestamp].
    assert (H : (Freshness.now (clock (host s)) - timestamp entry <? CACHE_DURATION)
                = true) by (apply Z.ltb_lt; exact Hfresh).
    rewrite H. reflexivity.
  - intros adapter fetched s1 Hflag Hreg Hfetch Hacc. split.
    + rewrite (fetchDataByType_fetches registry source adapter fetched s s1);
        [rewrite Hacc; reflexivity| |exact Hreg|exact Hfetch].
      rewrite Hflag. reflexivity.
    + unfold cachedFor, cachedAs. cbn [stored set_stored].
      rewrite lookup_insert_eq. reflexivity.
Qed.

(** A fresh entry for Hacker News in the store, with the force flag as
    given. *)
Definition freshEntry (force : bool) : Runtime :=
  mkRuntime (hostOf true acceptsAll) [] []
    (<["cache_hacker-news" :=
         VCache (mkCache [DataFetcherFacts.yesterdaysStory] (1710115205000 - 60000))]> ∅)
    force.

Lemma fetchDataByType_cache_or_adapter_witness :
  fetchDataByType ∅ DataFetcherFacts.hackerNews (freshEntry false) =
    (Return [DataFetcherFacts.yesterdaysStory], freshEntry false) /\
  fst (fetchDataByType AggregatorFacts.registry2 DataFetcherFacts.hackerNews
         (freshEntry true)) = Return [AggregatorFacts.newerStory].
Proof.
  split.
  - apply (proj1 (fetchDataByType_cache_or_adapter ∅ DataFetcherFacts.hackerNews
                    (freshEntry false))
             (mkCache [DataFetcherFacts.yesterdaysStory] (1710115205000 - 60000))).
    + reflexivity.
    + reflexivity.
    + cbn. unfold CACHE_DURATION. lia.
  - destruct (proj2 (fetchDataByType_cache_or_adapter AggregatorFacts.registry2
                       DataFetcherFacts.hackerNews (freshEntry true))
                (AggregatorFacts.fixedSource "HackerNews" [AggregatorFacts.newerStory])
                [AggregatorFacts.newerStory] (freshEntry true))
      as [H _]; [reflexivity|reflexivity|reflexivity|reflexivity|].
    rewrite H. reflexivity.
Defined.

(** X19. A fetched result is served from the cache the next time: after
    a call that went to the adapter and stored its result, a second call
    on the resulting state, at the same clock reading with the force
    flag still off, returns the same items from the cache and changes
    nothing, whatever the registry holds by then. *)
Theorem second_fetch_is_served_from_cache (registry registry' : gmap string BaseSource.t)
  (source : SourceConfig.t) (adapter : BaseSource.t) (items : list FeedItem.t)
  (s s1 : Runtime) :
  cacheValid (forceRefresh s) (cachedFor source s) (Freshness.now (clock (host s)))
    = false ->
  registry !! SourceType_string (SourceConfig.type source) = Some adapter ->
  BaseSource.fetch adapter (Some (mapSourceConfigToOptions source)) s = (Return items, s1) ->
  forceRefresh s1 = false ->
  refuses (host s1) (stored s1) (cacheKeyOf source)
    (VCache (mkCache items (Freshness.now (clock (host s1))))) = false ->
  exists s2,
    fetchDataByType registry source s = (Return items, s2) /\
    fetchDataByType registry' source s2 = (Return items, s2).
Proof.
  intros Hstale Hreg Hfetch Hflag Hacc.
  exists (cachedAs source items s1). split.
  - rewrite (fetchDataByType_fetches registry source adapter items s s1 Hstale Hreg Hfetch).
    rewrite Hacc. reflexivity.
  - unfold fetchDataByType. unfold bind at 1. rewrite DataFetcherFacts.getCache_run.
    unfold cachedAs. cbn [stored set_stored forceRefresh host].
    rewrite lookup_insert_eq, Hflag. unfold cacheValid. cbn [negb andb timestamp].
    rewrite Z.sub_diag. reflexivity.
Qed.

Lemma second_fetch_is_served_from_cache_witness :
  exists s2,
    fetchDataByType AggregatorFacts.registry2 DataFetcherFacts.hackerNews idle =
      (Return [AggregatorFacts.newerStory], s2) /\
    fetchDataByType ∅ DataFetcherFacts.hackerNews s2 =
      (Return [AggregatorFacts.newerStory], s2).
Proof.
  apply (second_fetch_is_served_from_cache AggregatorFacts.registry2 ∅
           DataFetcherFacts.hackerNews
           (AggregatorFacts.fixedSource "HackerNews" [AggregatorFacts.newerStory])
           [AggregatorFacts.newerStory] idle idle); reflexivity.
Defined.

(** X20. Where saving the cache throws, the fetched items are lost: in
    the development fallback on [localStorage], when the store refuses
    the new cache entry, [fetchDataByType] drops what the adapter just
    returned, logs the error and answers with the old cache entry's
    items (none when there is no entry).  Nothing is stored. *)
Theorem cache_write_failure_discards_fetched_items
  (registry : gmap string BaseSource.t) (source : SourceConfig.t)
  (adapter : BaseSource.t) (items : list FeedItem.t) (s s1 : Runtime) :
  cacheValid (forceRefresh s) (cachedFor source s) (Freshness.now (clock (host s)))
    = false ->
  registry !! SourceType_string (SourceConfig.type source) = Some adapter ->
  BaseSource.fetch adapter (Some (mapSourceConfigToOptions source)) s = (Return items, s1) ->
  isChromeExtension (host s1) = false ->
  refuses (host s1) (stored s1) (cacheKeyOf source)
    (VCache (mkCache items (Freshness.now (clock (host s1))))) = true ->
  exists s',
    fetchDataByType registry source s = (Return (cachedItems (cachedFor source s)), s') /\
    stored s' = stored s1 /\
    console s' =
      console s1 ++
      [mkLog LogError
         ("[Error] Error fetching " +:+ SourceType_string (SourceConfig.type source) +:+ ":")
         (Some QuotaExceededError)].
Proof.
  intros Hstale Hreg Hfetch Hdev Hrefused.
  rewrite (fetchDataByType_fetches registry source adapter items s s1 Hstale Hreg Hfetch).
  rewrite Hrefused, Hdev. eexists. split; [reflexivity|]. split; reflexivity.
Qed.

(** The development page with a store that takes no cache entry. *)
Definition noRoomForCaches : gmap string StoredValue -> string -> StoredValue -> bool :=
  fun _ _ value => match value with VCache _ => true | _ => false end.

Lemma cache_write_failure_discards_fetched_items_witness :
  fst (fetchDataByType AggregatorFacts.registry2 DataFetcherFacts.hackerNews
         (storeWith (hostOf false noRoomForCaches) ∅)) = Return [].
Proof.
  destruct (cache_write_failure_discards_fetched_items AggregatorFacts.registry2
              DataFetcherFacts.hackerNews
              (AggregatorFacts.fixedSource "HackerNews" [AggregatorFacts.newerStory])
              [AggregatorFacts.newerStory]
              (storeWith (hostOf false noRoomForCaches) ∅)
              (storeWith (hostOf false noRoomForCaches) ∅))
    as (s' & H & _);
    [reflexivity|reflexivity|reflexivity|reflexivity|reflexivity|].
  rewrite H. reflexivity.
Defined.

End CacheFacts.

(* ===================================================================== *)
(** * Background script: migration, refresh and the daily alarm           *)
(* ===================================================================== *)
Module BackgroundFacts.
Import JS Types Chrome BaseSource Storage DataFetcher Background Fixtures.
Import StoreFacts.

(** The default sources whose id the configuration does not hold yet. *)
Definition missing (existingIds : gset string) (defaults : list SourceConfig.t)
  : list SourceConfig.t :=
  List.filter (fun source => negb (bool_decide (SourceConfig.id source ∈ existingIds)))
    defaults.

Lemma addMissing_run (existingIds : gset string) (defaults : list SourceConfig.t) :
  forall sources changed,
    addMissing existingIds defaults sources changed =
      (sources ++ missing existingIds defaults,
       changed || negb (forallb (fun source =>
                           bool_decide (SourceConfig.id source ∈ existingIds)) defaults)).
Proof.
  induction defaults as [|d defaults IH]; intros sources changed.
  - cbn. rewrite app_nil_r, orb_false_r. reflexivity.
  - cbn [addMissing missing List.filter forallb].
    destruct (bool_decide (SourceConfig.id d ∈ existingIds)); cbn [negb andb].
    + apply IH.
    + rewrite IH, <- app_assoc, orb_true_r. reflexivity.
Qed.

Lemma missing_none (existingIds : gset string) (defaults : list SourceConfig.t) :
  forallb (fun source => bool_decide (SourceConfig.id source ∈ existingIds)) defaults
    = true ->
  missing existingIds defaults = [].
Proof.
  intros Hall. unfold missing.
  destruct (List.filter _ defaults) as [|x l] eqn:Hf; [reflexivity|].
  assert (Hx : In x (x :: l)) by (left; reflexivity).
  rewrite <- Hf in Hx. apply filter_In in Hx. destruct Hx as [Hx Hneg].
  rewrite (proj1 (forallb_forall _ _) Hall x Hx) in Hneg. discriminate.
Qed.

Definition idsOf (sources : list SourceConfig.t) : gset string :=
  list_to_set (map SourceConfig.id sources).

(** X21. The migration of [initializeData] adds what is missing and
    nothing else: the sources of the configuration stay, in their order
    and in front; every default source whose id was not there is
    appended, in the order of the defaults; afterwards every default id
    is present.  The configuration counts as changed exactly when
    something was appended, and running the migration on its own result
    appends nothing. *)
Theorem addMissing_completes_the_defaults (defaults sources : list SourceConfig.t) :
  let result := addMissing (idsOf sources) defaults sources false in
  fst result = sources ++ missing (idsOf sources) defaults /\
  (forall d, In d defaults -> SourceConfig.id d ∈ idsOf (fst result)) /\
  (snd result = true <-> fst result <> sources) /\
  addMissing (idsOf (fst result)) defaults (fst result) false = (fst result, false).
Proof.
  intros result. unfold result. rewrite addMissing_run. cbn [fst snd orb].
  set (added := missing (idsOf sources) defaults).
  assert (Hpresent : forall d, In d defaults -> SourceConfig.id d ∈ idsOf (sources ++ added)).
  { intros d Hd. unfold idsOf. rewrite map_app, list_to_set_app. apply elem_of_union.
    destruct (decide (SourceConfig.id d ∈ idsOf sources)) as [Hin|Hout].
    - left. exact Hin.
    - right. apply elem_of_list_to_set, list_elem_of_In, in_map.
      apply filter_In. split; [exact Hd|].
      rewrite bool_decide_eq_false_2 by exact Hout. reflexivity. }
  split; [reflexivity|]. split; [exact Hpresent|]. split.
  - split.
    + intros Hchanged Hsame.
      assert (Hnone : added = []).
      { apply (app_inv_head sources). rewrite app_nil_r. exact Hsame. }
      apply negb_true_iff in Hchanged.
      assert (Hall : forallb (fun source =>
                         bool_decide (SourceConfig.id source ∈ idsOf sources)) defaults
                     = true).
      { apply forallb_forall. intros d Hd.
        destruct (bool_decide (SourceConfig.id d ∈ idsOf sources)) eqn:Hdec;
          [reflexivity|].
        assert (Hin : In d added).
        { apply filter_In. split; [exact Hd|]. rewrite Hdec. reflexivity. }
        rewrite Hnone in Hin. contradiction. }
      congruence.
    + intros Hdiff. apply negb_true_iff.
      destruct (forallb _ defaults) eqn:Hall; [|reflexivity].
      exfalso. apply Hdiff.
      unfold added. rewrite (missing_none _ _ Hall), app_nil_r. reflexivity.
  - rewrite addMissing_run. cbn [orb].
    assert (Hall : forallb (fun source =>
                       bool_decide (SourceConfig.id source ∈ idsOf (sources ++ added)))
                     defaults = true).
    { apply forallb_forall. intros d Hd. apply bool_decide_eq_true_2, Hpresent, Hd. }
    rewrite Hall, (missing_none _ _ Hall), app_nil_r. reflexivity.
Qed.

(** A configuration from before the RSS feeds and Echo JS were added. *)
Definition oldSources : list SourceConfig.t :=
  [ builtin "hacker-news" HackerNews true "Hacker News" 30 (Some 50);
    builtin "github-trending" GitHub false "GitHub Trending" 10 None ].

Lemma addMissing_completes_the_defaults_witness :
  map SourceConfig.id (firstn 3 (fst (addMissing (idsOf oldSources) defaultSources
                                        oldSources false)))
    = ["hacker-news"; "github-trending"; "arxiv-ai"] /\
  "echo-js" ∈ idsOf (fst (addMissing (idsOf oldSources) defaultSources oldSources false)).
Proof.
  split; [vm_compute; reflexivity|].
  apply (proj1 (proj2 (addMissing_completes_the_defaults defaultSources oldSources))
           (builtin "echo-js" EchoJS false "Echo JS" 10 None)).
  do 6 right. left. reflexivity.
Defined.

Lemma refreshData_returns (E : Engine) (registry : gmap string BaseSource.t)
  (s : Runtime) :
  exists s', refreshData E registry s = (Return tt, s').
Proof.
  unfold refreshData, try_catch.
  match goal with |- context [match ?body s with _ => _ end] =>
    destruct (body s) as [[[]|e] s1] end.
  - eexists. reflexivity.
  - eexists. reflexivity.
Qed.

(** X22. A refresh stores the newest items up to the configured
    maximum and marks the data fresh: [refreshData] never throws; when
    the store accepts the writes, the stored feeds are the first
    [maxItems] items of what [fetchAllData] returned for the configured
    sources (at most [maxItems] of them), the last-update time is the
    current time, and the stored metadata gives IMMEDIATE_DISPLAY. *)
Theorem refreshData_stores_capped_feeds (E : Engine)
  (registry : gmap string BaseSource.t) (s : Runtime) :
  let config := configOf s in
  let fetched := fetchAllData E registry (AppConfig.sources config) s in
  let now := Freshness.now (clock (host (snd fetched))) in
  (forall d k v, refuses (host (snd fetched)) d k v = false) ->
  now <> 0 ->
  exists items s' md,
    fst fetched = Return items /\
    refreshData E registry s = (Return tt, s') /\
    getFeeds s' = (Return (slice0 items (AppConfig.maxItems config)), s') /\
    (0 <= AppConfig.maxItems config ->
       Z.of_nat (length (slice0 items (AppConfig.maxItems config)))
         <= AppConfig.maxItems config) /\
    getLastUpdate s' = (Return now, s') /\
    getDataMetadata s' = (Return (Some md), s') /\
    Freshness.getRefreshStrategy (clock (host s')) (Some md) = Freshness.IMMEDIATE_DISPLAY.
Proof.
  intros config fetched now Hacc Hnow.
  pose proof (AggregatorFacts.fetchAllData_run E registry (AppConfig.sources config) s)
    as Hfetched. cbv zeta in Hfetched.
  set (items := DataFetcher.sort _ _) in Hfetched.
  set (s1 := snd (AggregatorFacts.contributions _ _ _)) in Hfetched.
  assert (Hs1 : snd fetched = s1) by (unfold fetched; rewrite Hfetched; reflexivity).
  unfold now in *. rewrite Hs1 in *. clear now.
  set (now := Freshness.now (clock (host s1))) in *.
  set (limited := slice0 items (AppConfig.maxItems config)).
  set (md := Freshness.mkMetadata (Some now) (Freshness.localDateString (clock (host s1)))).
  set (s2 := set_stored (<[KEY_FEEDS := VFeeds limited]> (stored s1)) s1).
  set (s3 := set_stored (<[KEY_LAST_UPDATE := VNumber now]> (stored s2)) s2).
  set (s4 := set_stored (<[KEY_DATA_METADATA := VMetadata md]> (stored s3)) s3).
  exists items, s4, md.
  split; [unfold fetched; rewrite Hfetched; reflexivity|]. split.
  - unfold refreshData, try_catch, bind at 1. rewrite StorageFacts.getConfig_run.
    fold (configOf s). fold config. unfold bind at 1. rewrite Hfetched.
    unfold saveFeeds, bind at 1. fold limited.
    rewrite (StorageFacts.safeStorageSet_accepted _ _ s1 Hacc). fold s2.
    unfold updateLastUpdate, bind at 1, bind at 1, Date_now.
    change (Freshness.now (clock (host s2))) with now.
    rewrite (StorageFacts.safeStorageSet_accepted _ _ s2 Hacc). fold s3.
    unfold updateDataMetadata.
    change (clock (host s3)) with (clock (host s1)). fold now. fold md.
    rewrite (StorageFacts.safeStorageSet_accepted _ _ s3 Hacc). reflexivity.
  - split; [|split; [|split; [|split]]].
    + rewrite StorageFacts.getFeeds_run. unfold s4, s3, s2. cbn [stored set_stored].
      rewrite lookup_insert_ne by discriminate.
      rewrite lookup_insert_ne by discriminate.
      rewrite lookup_insert_eq. reflexivity.
    + intros Hmax. apply HackerNewsFacts.slice0_length. exact Hmax.
    + rewrite StoreFacts.getLastUpdate_run. unfold s4, s3, s2. cbn [stored set_stored].
      rewrite lookup_insert_ne by discriminate.
      rewrite lookup_insert_eq. reflexivity.
    + rewrite StoreFacts.getDataMetadata_run. unfold s4. cbn [stored set_stored].
      rewrite lookup_insert_eq. reflexivity.
    + change (clock (host s4)) with (clock (host s1)).
      unfold Freshness.getRefreshStrategy, Freshness.falsyTime, Freshness.calculateDataAge,
        Freshness.isNewDay, Freshness.isSameDay, Freshness.getTodayDateString, md.
      cbn [Freshness.lastUpdateTime Freshness.lastUpdateDate JS.truthyZ JS.nullish].
      fold now.
      assert (H0 : (now =? 0) = false) by (apply Z.eqb_neq; exact Hnow).
      rewrite H0, String.eqb_refl, Z.sub_diag. reflexivity.
Qed.

Lemma refreshData_stores_capped_feeds_witness :
  exists s',
    refreshData isoEngine AggregatorFacts.registry2 idle = (Return tt, s') /\
    fst (getFeeds s') =
      Return [FeedItem.with_isPinned AggregatorFacts.newerStory None;
              FeedItem.with_isPinned AggregatorFacts.olderRepo None].
Proof.
  destruct (refreshData_stores_capped_feeds isoEngine AggregatorFacts.registry2 idle)
    as (items & s' & md & H1 & H2 & H3 & _).
  - reflexivity.
  - vm_compute. discriminate.
  - exists s'. split; [exact H2|]. rewrite H3. cbn [fst].
    vm_compute in H1. injection H1 as <-. reflexivity.
Defined.

(** X23. The daily alarm cannot leave the force flag on: the listener
    sets the flag, refreshes and clears the flag; as [refreshData] never
    throws, the flag is off when the listener is done, whatever the
    adapters and the store did.  An alarm of another name changes
    nothing. *)
Theorem onAlarm_leaves_force_flag_off (E : Engine)
  (registry : gmap string BaseSource.t) (alarmName : string) (s : Runtime) :
  (alarmName = AlarmScheduler.DAILY_REFRESH ->
     exists s1,
       refreshData E registry (set_forceRefresh true s) = (Return tt, s1) /\
       onAlarm E registry alarmName s = (Return tt, set_forceRefresh false s1) /\
       forceRefresh (snd (onAlarm E registry alarmName s)) = false) /\
  (alarmName <> AlarmScheduler.DAILY_REFRESH ->
     onAlarm E registry alarmName s = (Return tt, s)).
Proof.
  split.
  - intros ->. destruct (refreshData_returns E registry (set_forceRefresh true s))
      as [s1 Hs1].
    exists s1. split; [exact Hs1|].
    assert (Hrun : onAlarm E registry AlarmScheduler.DAILY_REFRESH s =
                   (Return tt, set_forceRefresh false s1)).
    { unfold onAlarm. rewrite String.eqb_refl.
      unfold bind at 1, setForceRefresh at 1. unfold bind at 1. rewrite Hs1.
      reflexivity. }
    split; [exact Hrun|]. rewrite Hrun. reflexivity.
  - intros Hother. unfold onAlarm.
    apply String.eqb_neq in Hother. rewrite Hother. reflexivity.
Qed.

(** A registry whose only adapter throws. *)
Lemma onAlarm_leaves_force_flag_off_witness :
  forceRefresh
    (snd (onAlarm isoEngine DataFetcherFacts.registryThrowing
            "infotrend-daily-refresh-6am" idle)) = false.
Proof.
  destruct (proj1 (onAlarm_leaves_force_flag_off isoEngine
                     DataFetcherFacts.registryThrowing
                     "infotrend-daily-refresh-6am" idle) eq_refl)
    as (s1 & _ & _ & H).
  exact H.
Defined.

End BackgroundFacts.

(* ===================================================================== *)
(** * Sidebar: pin flags from the settings, and the order of the list     *)
(* ===================================================================== *)
Module SidebarFacts.
Import JS Types Chrome BaseSource Sidebar Fixtures.

(** X24. The list of the side panel is always in order: for any stored
    feeds and any configuration, [loadFeeds] returns the stored items,
    each with a boolean pin flag, pinned items first and newest first
    within each group (an item without a readable date counts as
    epoch 0).  Nothing is lost or added, and the store is not touched. *)
Theorem loadFeeds_is_always_sorted (E : Engine) (s : Runtime) :
  let maps := pinnedMaps (AppConfig.sources (StoreFacts.configOf s)) in
  exists result,
    loadFeeds E s = (Return result, s) /\
    Permutation result (map (syncPinned maps) (StoreFacts.feedsOf s)) /\
    StronglySorted (AggregatorFacts.precedes E) result /\
    Forall (fun item => exists flag, FeedItem.isPinned item = Some flag) result.
Proof.
  intros maps.
  set (synced := map (syncPinned maps) (StoreFacts.feedsOf s)).
  assert (Hflags : Forall AggregatorFacts.neverAbsent synced).
  { unfold synced. rewrite List.Forall_map. apply List.Forall_forall.
    intros item _. unfold AggregatorFacts.neverAbsent, syncPinned. cbn. discriminate. }
  exists (DataFetcher.sort (DataFetcher.compareItems E) synced).
  split; [|split; [|split]].
  - unfold loadFeeds, bind at 1. rewrite StorageFacts.getFeeds_run.
    unfold bind at 1. rewrite StorageFacts.getConfig_run. reflexivity.
  - apply AggregatorFacts.sort_Permutation.
  - apply (AggregatorFacts.sort_sorted (DataFetcher.compareItems E)
             (AggregatorFacts.precedes E) AggregatorFacts.neverAbsent).
    + intros a b c _ _ _. apply AggregatorFacts.precedes_trans.
    + intros a b Ha Hb. now apply AggregatorFacts.compareItems_neverAbsent.
    + intros a b Ha Hb. now apply AggregatorFacts.compareItems_neverAbsent.
    + exact Hflags.
  - assert (Hperm := AggregatorFacts.sort_Permutation (DataFetcher.compareItems E) synced).
    apply List.Forall_forall. intros item Hin.
    apply (Permutation_in _ Hperm) in Hin. unfold synced in Hin.
    apply in_map_iff in Hin. destruct Hin as (feed & <- & _).
    eexists. reflexivity.
Qed.

(** The two items [fetchAllData] leaves oldest first come out newest
    first here. *)
Example loadFeeds_orders_unpinned_items :
  let feeds := [FeedItem.with_isPinned AggregatorFacts.olderRepo None;
                FeedItem.with_isPinned AggregatorFacts.newerStory (Some false)] in
  map FeedItem.id
    (returned (fst (loadFeeds isoEngine
                      (storeWith (hostOf true acceptsAll)
                         (<[Storage.KEY_FEEDS := VFeeds feeds]> ∅)))))
  = ["hackernews-newer"; "github-older"].
Proof. vm_compute. reflexivity. Qed.

(** ** The id of an RSS item and the feed it came from *)

Lemma isDigit_digit (d : Z) : 0 <= d <= 9 -> isDigit (JSDate.digit d) = true.
Proof.
  intros Hd. unfold isDigit. rewrite (JSDateFacts.digit_value_digit d Hd). reflexivity.
Qed.

Lemma dropDigits_digits (ds : list Z) (c : ascii) (rest : list ascii) :
  DecimalFacts.isDigits ds -> isDigit c = false ->
  dropDigits (map JSDate.digit ds ++ c :: rest) = c :: rest.
Proof.
  intros Hds Hc. induction Hds as [|d ds Hd Hds IH].
  - cbn [map app dropDigits]. rewrite Hc. reflexivity.
  - cbn [map app dropDigits]. rewrite (isDigit_digit d Hd). exact IH.
Qed.

Definition plainUrl (url : string) : Prop :=
  url <> "" /\
  forallb (fun c => negb (isLineTerminator c)) (list_ascii_of_string url) = true.

Lemma matchRssId_of_id (url : string) (index : nat) :
  plainUrl url ->
  matchRssId ("rss-" +:+ url +:+ "-" +:+ JSDate.showZ (Z.of_nat index)) = Some url.
Proof.
  intros [Hne Hplain].
  assert (Hshow : JSDate.showZ (Z.of_nat index) = JSDate.showNat (Z.of_nat index)).
  { unfold JSDate.showZ.
    assert (H : (Z.of_nat index <? 0) = false) by (apply Z.ltb_ge; lia).
    rewrite H. reflexivity. }
  destruct (DecimalFacts.showNat_digits (Z.of_nat index) ltac:(lia))
    as (ds & Hds_ne & Hds & _ & Hstr).
  unfold matchRssId.
  rewrite !JSDateFacts.list_ascii_app, Hshow, Hstr.
  change (list_ascii_of_string "rss-") with ["r"; "s"; "s"; "-"]%char.
  change (list_ascii_of_string "-") with ["-"%char].
  set (u := list_ascii_of_string url) in *.
  assert (Hrev : rev (["r"; "s"; "s"; "-"]%char ++ u ++ ["-"%char] ++ map JSDate.digit ds) =
                 map JSDate.digit (rev ds) ++
                 "-"%char :: rev (["r"; "s"; "s"; "-"]%char ++ u)).
  { rewrite !app_assoc, rev_app_distr, map_rev.
    rewrite rev_app_distr. cbn [rev app]. rewrite <- app_assoc. reflexivity. }
  rewrite Hrev.
  rewrite dropDigits_digits;
    [|apply Forall_rev; exact Hds|reflexivity].
  assert (Hlen : (length ("-"%char :: rev (["r"; "s"; "s"; "-"]%char ++ u)) <?
                  length (map JSDate.digit (rev ds) ++
                          "-"%char :: rev (["r"; "s"; "s"; "-"]%char ++ u)))%nat = true).
  { apply Nat.ltb_lt. rewrite length_app, length_map, length_rev.
    destruct ds; [contradiction|]. cbn [length]. lia. }
  rewrite Hlen, rev_involutive. cbn [app].
  destruct u as [|c u'] eqn:Hu.
  - exfalso. apply Hne. rewrite <- (string_of_list_ascii_of_string url).
    fold u. rewrite Hu. reflexivity.
  - rewrite Hplain. f_equal. rewrite <- Hu. apply string_of_list_ascii_of_string.
Qed.

(** X25. The id of an RSS item names its feed: for a feed URL that is
    not empty and holds no line break, the pattern [/^rss-(.+)-\d+$/] of
    the side panel reads out of the id [RSSSource] gave an item exactly
    the URL the item was fetched from, whatever the item's position in
    the feed, also when the URL itself holds dashes and digits. *)
Theorem matchRssId_reads_the_feed_url (w : RSSSource.World)
  (options : SourceFetchOptions) (url : string) (index : nat)
  (e : RSSSource.Entry) (time : Z) :
  plainUrl url ->
  matchRssId (FeedItem.id (RSSSource.feedItem w options url index e time)) = Some url.
Proof. intros Hurl. cbn [RSSSource.feedItem FeedItem.id]. apply matchRssId_of_id, Hurl. Qed.

Lemma matchRssId_reads_the_feed_url_witness :
  matchRssId (FeedItem.id (RSSSource.feedItem (RSSFacts.worldWith [])
                             (RSSFacts.feedOptions None)
                             "https://example.org/feed-2024/rss-1" 12
                             (RSSSource.Rss2 RSSFacts.today_item) 0))
  = Some "https://example.org/feed-2024/rss-1".
Proof.
  apply matchRssId_reads_the_feed_url. split; [discriminate|reflexivity].
Defined.

(** The pattern on ids that are not of that form. *)
Example matchRssId_examples :
  matchRssId "rss-a-1-23" = Some "a-1" /\
  matchRssId "rss--5" = None /\
  matchRssId "rss-x12" = None /\
  matchRssId "rss-x-" = None /\
  matchRssId "rss-x-1a" = None /\
  matchRssId "hackernews-12" = None /\
  matchRssId ("rss-a" +:+ String (ascii_of_N 10) "b-7") = None.
Proof. repeat split; vm_compute; reflexivity. Qed.

(** ** Which items the side panel shows as pinned *)

Lemma startsWith_rss (rest : string) : String.prefix "rss-" ("rss-" +:+ rest) = true.
Proof. destruct rest; reflexivity. Qed.

Definition isPinnedSource (source : SourceConfig.t) : Prop :=
  SourceConfig.isPinned source = Some true.

Lemma truthyFlag_pinned (source : SourceConfig.t) :
  DataFetcher.truthyFlag (SourceConfig.isPinned source) = true <-> isPinnedSource source.
Proof.
  unfold isPinnedSource. destruct (SourceConfig.isPinned source) as [[]|]; cbn;
    split; congruence.
Qed.

Lemma notePinned_spec (maps : PinnedMaps) (src : SourceConfig.t) :
  (forall name, name ∈ pinnedByName (notePinned maps src) <->
     name ∈ pinnedByName maps \/
     (isPinnedSource src /\ SourceConfig.name src = name)) /\
  (forall url, url ∈ pinnedByUrl (notePinned maps src) <->
     url ∈ pinnedByUrl maps \/
     (isPinnedSource src /\ SourceConfig.url src = Some url /\ url <> "")) /\
  (forall type, type ∈ pinnedByType (notePinned maps src) <->
     type ∈ pinnedByType maps \/
     (isPinnedSource src /\ SourceConfig.type src <> RSS /\
      SourceType_string (SourceConfig.type src) = type)).
Proof.
  unfold notePinned. pose proof (truthyFlag_pinned src) as Hflag.
  destruct (DataFetcher.truthyFlag (SourceConfig.isPinned src)).
  - assert (Hsrc : isPinnedSource src) by (apply Hflag; reflexivity).
    cbn [pinnedByName pinnedByUrl pinnedByType]. split; [|split].
    + intros name. rewrite elem_of_union, elem_of_singleton. split.
      * intros [->|H]; [right; split; [exact Hsrc|reflexivity]|left; exact H].
      * intros [H|[_ <-]]; [right; exact H|left; reflexivity].
    + intros url. unfold truthyString.
      destruct (SourceConfig.url src) as [u|].
      * destruct (String.eqb_spec u ""); cbn [negb nullish].
        -- split; [intros H; left; exact H|].
           intros [H|(_ & [= ->] & Hne)]; [exact H|contradiction].
        -- rewrite elem_of_union, elem_of_singleton. split.
           ++ intros [->|H]; [right; repeat split; assumption|left; exact H].
           ++ intros [H|(_ & [= ->] & _)]; [right; exact H|left; reflexivity].
      * split; [intros H; left; exact H|].
        intros [H|(_ & Hu & _)]; [exact H|discriminate].
    + intros type.
      destruct (SourceType_eqb (SourceConfig.type src) RSS) eqn:Hrss; cbn [negb].
      * assert (Heq : SourceConfig.type src = RSS)
          by (destruct (SourceConfig.type src); try discriminate; reflexivity).
        split; [intros H; left; exact H|].
        intros [H|(_ & Hne & _)]; [exact H|contradiction].
      * assert (Hne : SourceConfig.type src <> RSS)
          by (intros Heq; rewrite Heq in Hrss; discriminate).
        rewrite elem_of_union, elem_of_singleton. split.
        -- intros [->|H]; [right; repeat split; assumption|left; exact H].
        -- intros [H|(_ & _ & <-)]; [right; exact H|left; reflexivity].
  - assert (Hnot : ~ isPinnedSource src) by (intros H; apply Hflag in H; discriminate).
    repeat split; try (intros H; left; exact H);
      intros [H|[Hp _]]; try exact H; contradiction.
Qed.

Lemma fold_notePinned (sources : list SourceConfig.t) :
  forall maps,
    let result := fold_left notePinned sources maps in
    (forall name, name ∈ pinnedByName result <->
       name ∈ pinnedByName maps \/
       exists source, In source sources /\ isPinnedSource source /\
                      SourceConfig.name source = name) /\
    (forall url, url ∈ pinnedByUrl result <->
       url ∈ pinnedByUrl maps \/
       exists source, In source sources /\ isPinnedSource source /\
                      SourceConfig.url source = Some url /\ url <> "") /\
    (forall type, type ∈ pinnedByType result <->
       type ∈ pinnedByType maps \/
       exists source, In source sources /\ isPinnedSource source /\
                      SourceConfig.type source <> RSS /\
                      SourceType_string (SourceConfig.type source) = type).
Proof.
  induction sources as [|src sources IH]; intros maps result.
  - cbn. repeat split; try (intros H; left; exact H);
      intros [H|(source & [] & _)]; exact H.
  - unfold result. cbn [fold_left].
    destruct (IH (notePinned maps src)) as (Hname & Hurl & Htype). cbv zeta in *.
    destruct (notePinned_spec maps src) as (Hname1 & Hurl1 & Htype1).
    split; [|split].
    + intros name. rewrite Hname, Hname1. split.
      * intros [[H|Hsrc]|(source & Hin & Hrest)].
        -- left. exact H.
        -- right. exists src. split; [left; reflexivity|exact Hsrc].
        -- right. exists source. split; [right; exact Hin|exact Hrest].
      * intros [H|(source & [<-|Hin] & Hrest)].
        -- left. left. exact H.
        -- left. right. exact Hrest.
        -- right. exists source. split; [exact Hin|exact Hrest].
    + intros url. rewrite Hurl, Hurl1. split.
      * intros [[H|Hsrc]|(source & Hin & Hrest)].
        -- left. exact H.
        -- right. exists src. split; [left; reflexivity|exact Hsrc].
        -- right. exists source. split; [right; exact Hin|exact Hrest].
      * intros [H|(source & [<-|Hin] & Hrest)].
        -- left. left. exact H.
        -- left. right. exact Hrest.
        -- right. exists source. split; [exact Hin|exact Hrest].
    + intros type. rewrite Htype, Htype1. split.
      * intros [[H|Hsrc]|(source & Hin & Hrest)].
        -- left. exact H.
        -- right. exists src. split; [left; reflexivity|exact Hsrc].
        -- right. exists source. split; [right; exact Hin|exact Hrest].
      * intros [H|(source & [<-|Hin] & Hrest)].
        -- left. left. exact H.
        -- left. right. exact Hrest.
        -- right. exists source. split; [exact Hin|exact Hrest].
Qed.

Lemma SourceType_string_injective (a b : SourceType) :
  SourceType_string a = SourceType_string b -> a = b.
Proof. destruct a, b; cbn; intros H; try reflexivity; discriminate. Qed.

(** X26. Which items the side panel pins: an item of a built-in source
    is pinned exactly when a pinned source of the settings has its type;
    an item [RSSSource] built for a feed URL (not empty, without line
    break) is pinned exactly when a pinned source of the settings has the
    item's source name as its name, or that URL as its URL. *)
Theorem syncedFlag_follows_the_settings (sources : list SourceConfig.t) :
  let maps := pinnedMaps sources in
  (forall feed,
     FeedItem.source feed <> RSS ->
     (syncedFlag maps feed = true <->
      exists source, In source sources /\ isPinnedSource source /\
                     SourceConfig.type source = FeedItem.source feed)) /\
  (forall w options url index e time,
     plainUrl url ->
     let feed := RSSSource.feedItem w options url index e time in
     (syncedFlag maps feed = true <->
      exists source, In source sources /\ isPinnedSource source /\
        (SourceConfig.name source =
           (if truthyString (BaseSource.sourceName options)
            then nullish (BaseSource.sourceName options) "" else "") \/
         SourceConfig.url source = Some url))).
Proof.
  intros maps.
  destruct (fold_notePinned sources (mkMaps ∅ ∅ ∅)) as (Hname & Hurl & Htype).
  cbv zeta in *. fold (pinnedMaps sources) in *. fold maps in Hname, Hurl, Htype.
  cbn [pinnedByName pinnedByUrl pinnedByType] in *.
  split.
  - intros feed Hrss. unfold syncedFlag.
    assert (Hnot : SourceType_eqb (FeedItem.source feed) RSS = false)
      by (destruct (FeedItem.source feed); try reflexivity; congruence).
    rewrite Hnot, bool_decide_eq_true, Htype. split.
    + intros [H|(source & Hin & Hp & _ & Ht)]; [set_solver|].
      exists source. split; [exact Hin|]. split; [exact Hp|].
      apply SourceType_string_injective. exact Ht.
    + intros (source & Hin & Hp & Ht). right. exists source.
      split; [exact Hin|]. split; [exact Hp|]. rewrite Ht. split; [exact Hrss|reflexivity].
  - intros w options url index e time Hplain.
    set (feed := RSSSource.feedItem w options url index e time).
    unfold syncedFlag.
    change (FeedItem.source feed) with RSS. cbn [SourceType_eqb].
    change (FeedItem.sourceName feed) with (BaseSource.sourceName options).
    change (FeedItem.id feed)
      with ("rss-" +:+ url +:+ "-" +:+ JSDate.showZ (Z.of_nat index)).
    rewrite (matchRssId_of_id url index Hplain).
    rewrite startsWith_rss, andb_true_r.
    set (name := if truthyString (BaseSource.sourceName options)
                 then nullish (BaseSource.sourceName options) "" else "").
    destruct (bool_decide (name ∈ pinnedByName maps)) eqn:Hby; cbn [negb].
    + apply bool_decide_eq_true in Hby. apply Hname in Hby.
      destruct Hby as [Hby|(source & Hin & Hp & Hn)]; [set_solver|].
      split; [|reflexivity]. intros _. exists source.
      split; [exact Hin|]. split; [exact Hp|]. left. exact Hn.
    + apply bool_decide_eq_false in Hby.
      rewrite bool_decide_eq_true, Hurl. split.
      * intros [H|(source & Hin & Hp & Hu & _)]; [set_solver|].
        exists source. split; [exact Hin|]. split; [exact Hp|]. right. exact Hu.
      * intros (source & Hin & Hp & [Hn|Hu]).
        -- exfalso. apply Hby. apply Hname. right. exists source.
           split; [exact Hin|]. split; assumption.
        -- right. exists source. split; [exact Hin|]. split; [exact Hp|].
           split; [exact Hu|]. apply Hplain.
Qed.

(** The settings with the OpenAI feed pinned. *)
Definition openaiPinned : list SourceConfig.t :=
  [ Storage.builtin "hacker-news" HackerNews true "Hacker News" 15 (Some 100);
    SourceConfig.mk "openai-blog" RSS (Some "https://openai.com/blog/rss.xml") true
      "OpenAI Blog" 50 (Some range_7d) None (Some true) ].

Lemma syncedFlag_follows_the_settings_witness :
  syncedFlag (pinnedMaps openaiPinned)
    (RSSSource.feedItem (RSSFacts.worldWith [])
       (mkOptions None None None (Some "https://openai.com/blog/rss.xml")
          (Some "renamed") None)
       "https://openai.com/blog/rss.xml" 3 (RSSSource.Rss2 RSSFacts.today_item) 0)
    = true.
Proof.
  apply (proj2 (syncedFlag_follows_the_settings openaiPinned)
           (RSSFacts.worldWith [])
           (mkOptions None None None (Some "https://openai.com/blog/rss.xml")
              (Some "renamed") None)
           "https://openai.com/blog/rss.xml" 3%nat (RSSSource.Rss2 RSSFacts.today_item) 0).
  - split; [discriminate|reflexivity].
  - eexists. split; [right; left; reflexivity|]. split; [reflexivity|].
    right. reflexivity.
Defined.

End SidebarFacts.

(* ===================================================================== *)
(** * XML parser helpers: text and links                                  *)
(* ===================================================================== *)
Module XmlTextFacts.
Import JS XmlParser.

Lemma truthy_text (text : string) : text <> "" -> truthy (Some text) = true.
Proof.
  intros Hne. change (truthy (Some text)) with (negb (String.eqb text "")).
  apply String.eqb_neq in Hne. rewrite Hne. reflexivity.
Qed.

(** X27. [extractText] prefers CDATA to the text node and always gives
    trimmed text: a node with a non-empty [__cdata] gives that, else one
    with a non-empty [#text] gives that, a plain string gives itself,
    each without white space at the ends; nothing gives the empty string.
    A node with neither (an element with attributes only) gives the
    literal text [[object Object]]. *)
Theorem extractText_prefers_cdata (value : XmlText) :
  trim (extractText value) = extractText value /\
  (forall text cdata, value = TextNode text (Some cdata) -> cdata <> "" ->
     extractText value = trim cdata) /\
  (forall text cdata, value = TextNode (Some text) cdata ->
     cdata = None \/ cdata = Some "" -> text <> "" ->
     extractText value = trim text) /\
  (forall text cdata, value = TextNode text cdata ->
     cdata = None \/ cdata = Some "" -> text = None \/ text = Some "" ->
     extractText value = "[object Object]") /\
  (value = TextAbsent -> extractText value = "").
Proof.
  split; [|split; [|split; [|split]]].
  - destruct value as [|str|text cdata]; cbn [extractText].
    + reflexivity.
    + apply TextFacts.trim_trimmed.
    + destruct (truthy cdata); [apply TextFacts.trim_trimmed|].
      destruct (truthy text); apply TextFacts.trim_trimmed.
  - intros text cdata -> Hne. cbn [extractText].
    rewrite (truthy_text cdata Hne). reflexivity.
  - intros text cdata -> Hcdata Hne. cbn [extractText].
    assert (Hc : truthy cdata = false) by (destruct Hcdata as [->| ->]; reflexivity).
    rewrite Hc, (truthy_text text Hne). reflexivity.
  - intros text cdata -> Hcdata Htext. cbn [extractText].
    assert (Hc : truthy cdata = false) by (destruct Hcdata as [->| ->]; reflexivity).
    assert (Ht : truthy text = false) by (destruct Htext as [->| ->]; reflexivity).
    rewrite Hc, Ht. reflexivity.
  - intros ->. reflexivity.
Qed.

Lemma extractText_prefers_cdata_witness :
  extractText (TextNode (Some "plain") (Some "  <b>marked up</b> ")) = "<b>marked up</b>".
Proof.
  rewrite (proj1 (proj2 (extractText_prefers_cdata
                           (TextNode (Some "plain") (Some "  <b>marked up</b> "))))
             (Some "plain") "  <b>marked up</b> " eq_refl); [reflexivity|discriminate].
Defined.

(** A link counts as the page's own when its [rel] is [alternate], or
    empty, or missing. *)
Definition isAlternate (l : AtomLink) : bool :=
  match rel l with
  | Some r => String.eqb r "alternate" || negb (truthy r)
  | None => true
  end.

(** X28. From several links [extractLink] takes the first alternate
    one: when the array holds a link whose [rel] is [alternate] (or empty
    or missing), the result is the address of the first such link, never
    that of a [self] or [enclosure] link standing before it; only when
    there is none is the first link of the array taken.  An empty array
    gives the empty string. *)
Theorem extractLink_takes_first_alternate (ls : list AtomLink) :
  (forall before l after,
     ls = before ++ l :: after ->
     forallb (fun x => negb (isAlternate x)) before = true ->
     isAlternate l = true ->
     extractLink (LinkArray ls) = hrefOrText l) /\
  (forall first rest,
     ls = first :: rest ->
     forallb (fun x => negb (isAlternate x)) ls = true ->
     extractLink (LinkArray ls) = hrefOrText first) /\
  (ls = [] -> extractLink (LinkArray ls) = "").
Proof.
  assert (Hfind : forall l0, List.find (fun l => match rel l with
                                     | Some r => String.eqb r "alternate" || negb (truthy r)
                                     | None => true
                                     end) l0 = List.find isAlternate l0) by reflexivity.
  split; [|split].
  - intros before l after -> Hbefore Hl. cbn [extractLink]. rewrite Hfind.
    assert (H : List.find isAlternate (before ++ l :: after) = Some l).
    { induction before as [|x before IH]; cbn [app List.find].
      - rewrite Hl. reflexivity.
      - cbn [forallb] in Hbefore. apply andb_prop in Hbefore.
        destruct Hbefore as [Hx Hrest]. apply negb_true_iff in Hx.
        rewrite Hx. apply IH. exact Hrest. }
    rewrite H. reflexivity.
  - intros first rest -> Hnone. cbn [extractLink]. rewrite Hfind.
    assert (H : forall l0, forallb (fun x => negb (isAlternate x)) l0 = true ->
                           List.find isAlternate l0 = None).
    { induction l0 as [|x l0 IH]; [reflexivity|]. cbn [forallb List.find].
      intros Hall. apply andb_prop in Hall. destruct Hall as [Hx Hrest].
      apply negb_true_iff in Hx. rewrite Hx. apply IH. exact Hrest. }
    rewrite (H _ Hnone). reflexivity.
  - intros ->. reflexivity.
Qed.

Lemma extractLink_takes_first_alternate_witness :
  extractLink
    (LinkArray [mkLink (Some "https://example.org/feed.xml") (Some "self") None;
                mkLink (Some "https://example.org/post") (Some "alternate") None;
                mkLink (Some "https://example.org/other") None None])
  = "https://example.org/post".
Proof.
  apply (proj1 (extractLink_takes_first_alternate _)
           [mkLink (Some "https://example.org/feed.xml") (Some "self") None]
           (mkLink (Some "https://example.org/post") (Some "alternate") None)
           [mkLink (Some "https://example.org/other") None None]); reflexivity.
Defined.

End XmlTextFacts.

(* ===================================================================== *)
(** * Aggregator: what the merge keeps                                    *)
(* ===================================================================== *)
Module MergeFacts.
Import JS Types Chrome BaseSource DataFetcher Fixtures AggregatorFacts.

Lemma merged_stamped (rs : list (list FeedItem.t)) :
  forall (srcs : list SourceConfig.t) (item : FeedItem.t),
    In item (merged rs srcs) ->
    exists src original,
      In src srcs /\ item = FeedItem.with_isPinned original (SourceConfig.isPinned src).
Proof.
  induction rs as [|r rs IH]; intros srcs item Hin; [contradiction|].
  destruct srcs as [|src srcs]; [contradiction|].
  unfold merged in Hin. cbn [combine map concat fst snd] in Hin.
  apply in_app_or in Hin. destruct Hin as [Hin|Hin].
  - unfold stamp in Hin. apply in_map_iff in Hin. destruct Hin as (original & <- & _).
    exists src, original. split; [left; reflexivity|reflexivity].
  - destruct (IH srcs item Hin) as (src' & original & Hsrc & Heq).
    exists src', original. split; [right; exact Hsrc|exact Heq].
Qed.

(** X29. [fetchAllData] never throws and loses nothing: its result is a
    rearrangement of what the enabled sources contributed, one list per
    enabled source in the order of the settings, each item carrying the
    pin flag of the source it came from.  A disabled source is not
    fetched and contributes nothing. *)
Theorem fetchAllData_keeps_every_contribution (E : Engine)
  (registry : gmap string BaseSource.t) (sources : list SourceConfig.t) (s : Runtime) :
  let enabledSources := List.filter SourceConfig.enabled sources in
  exists result s',
    fetchAllData E registry sources s = (Return result, s') /\
    s' = snd (contributions registry enabledSources s) /\
    Permutation result
      (merged (fst (contributions registry enabledSources s)) enabledSources) /\
    Forall (fun item =>
              exists src original,
                In src sources /\ SourceConfig.enabled src = true /\
                item = FeedItem.with_isPinned original (SourceConfig.isPinned src))
      result.
Proof.
  intros enabledSources. rewrite fetchAllData_run. fold enabledSources.
  eexists _, _. split; [reflexivity|]. split; [reflexivity|].
  split; [apply sort_Permutation|].
  apply List.Forall_forall. intros item Hin.
  apply (Permutation_in _ (sort_Permutation _ _)) in Hin.
  destruct (merged_stamped _ _ _ Hin) as (src & original & Hsrc & Heq).
  apply filter_In in Hsrc. destruct Hsrc as [Hsrc Henabled].
  exists src, original. split; [exact Hsrc|]. split; [exact Henabled|exact Heq].
Qed.

Lemma fetchAllData_sorted_when_flags_agree_witness :
  exists result s',
    fetchAllData isoEngine registry2 [hackerNews None; github (Some true)] idle
      = (Return result, s') /\
    StronglySorted (precedes isoEngine) result.
Proof.
  destruct (fetchAllData_sorted_when_flags_agree isoEngine registry2
              [hackerNews None; github (Some true)] idle)
    as (result & s' & H1 & _ & H2).
  - left. repeat constructor; discriminate.
  - exists result, s'. split; assumption.
Defined.

End MergeFacts.
